(** * pmdock: an X11 panel hosting dockapps and launchers

    A shallow embedding of [pmdock.c].  The global [struct app] becomes a
    record threaded through every function; every call into Xlib, Imlib2,
    libc or the kernel is an entry of a call trace, and what the outside
    world answers (server replies, return values) is an explicit input. *)

From Stdlib Require Import ZArith Lia Ascii.

From stdpp Require Import base numbers option list strings.

Local Open Scope Z_scope.

(** ** Machine integers

    [unsigned] and [int] are 32 bits wide.  Unsigned arithmetic wraps; a
    conversion to [int] keeps the low 32 bits in two's complement. *)

Module C.

Definition UINT_RANGE : Z := 2 ^ 32.
Definition INT_MAX : Z := 2 ^ 31 - 1.

Definition to_unsigned (z : Z) : Z := z mod UINT_RANGE.

Definition to_int (z : Z) : Z :=
  let u := z mod UINT_RANGE in
  if u <=? INT_MAX then u else u - UINT_RANGE.

End C.

(** ** Data model *)

(** X resource identifiers; [None] is 0. *)
Definition Window : Type := Z.

Definition XNone : Window := 0.

(** An [Imlib_Image] is an opaque pointer; 0 is [NULL]. *)
Definition Imlib_Image : Type := Z.

Record size := mk_size { width : Z; height : Z }.

Record position := mk_position { x : Z; y : Z }.

Inductive tile_type := TILE_TYPE_APP | TILE_TYPE_LAUNCHER.

Global Instance tile_type_eq_dec : EqDecision tile_type.
Proof. solve_decision. Defined.

(** [struct tile]; a [const char *] is [None] when it is [NULL]. *)
Record tile := mk_tile {
  command : option string;
  icon : Imlib_Image;
  pid : Z;
  res_name : option string;
  type : tile_type;
  window : Window
}.

(** [struct app].  The array [tiles] and its length [tile_count] are one
    list; [display] is 0 while the connection is not open. *)
Record app := mk_app {
  above_all : bool;
  all_desktops : bool;
  bg_image : Imlib_Image;
  daemon_mode : bool;
  display : Z;
  dock_window : Window;
  horizontal : bool;
  initial_x : Z;
  initial_y : Z;
  mwm_decor : Z;
  mwm_funcs : Z;
  root_window : Window;
  screen : Z;
  tiles : list tile;
  tile_size : Z;
  verbose : bool
}.

Definition tile_count (a : app) : nat := length (tiles a).

(** A tile as [calloc] leaves it. *)
Definition zero_tile : tile :=
  {| command := None; icon := 0; pid := 0; res_name := None;
     type := TILE_TYPE_APP; window := 0 |}.

(** The static initialiser of [app]. *)
Definition app_init : app :=
  {| above_all := false; all_desktops := false; bg_image := 0;
     daemon_mode := false; display := 0; dock_window := XNone;
     horizontal := false; initial_x := 0; initial_y := 0;
     mwm_decor := 0; mwm_funcs := 0; root_window := XNone; screen := 0;
     tiles := []; tile_size := 64; verbose := false |}.

Definition set_tiles (ts : list tile) (a : app) : app :=
  {| above_all := above_all a; all_desktops := all_desktops a;
     bg_image := bg_image a; daemon_mode := daemon_mode a;
     display := display a; dock_window := dock_window a;
     horizontal := horizontal a; initial_x := initial_x a;
     initial_y := initial_y a; mwm_decor := mwm_decor a;
     mwm_funcs := mwm_funcs a; root_window := root_window a;
     screen := screen a; tiles := ts; tile_size := tile_size a;
     verbose := verbose a |}.

Definition set_above_all (v : bool) (a : app) : app :=
  {| above_all := v; all_desktops := all_desktops a; bg_image := bg_image a;
     daemon_mode := daemon_mode a; display := display a;
     dock_window := dock_window a; horizontal := horizontal a;
     initial_x := initial_x a; initial_y := initial_y a;
     mwm_decor := mwm_decor a; mwm_funcs := mwm_funcs a;
     root_window := root_window a; screen := screen a; tiles := tiles a;
     tile_size := tile_size a; verbose := verbose a |}.

Definition set_all_desktops (v : bool) (a : app) : app :=
  {| above_all := above_all a; all_desktops := v; bg_image := bg_image a;
     daemon_mode := daemon_mode a; display := display a;
     dock_window := dock_window a; horizontal := horizontal a;
     initial_x := initial_x a; initial_y := initial_y a;
     mwm_decor := mwm_decor a; mwm_funcs := mwm_funcs a;
     root_window := root_window a; screen := screen a; tiles := tiles a;
     tile_size := tile_size a; verbose := verbose a |}.

Definition set_bg_image (v : Imlib_Image) (a : app) : app :=
  {| above_all := above_all a; all_desktops := all_desktops a; bg_image := v;
     daemon_mode := daemon_mode a; display := display a;
     dock_window := dock_window a; horizontal := horizontal a;
     initial_x := initial_x a; initial_y := initial_y a;
     mwm_decor := mwm_decor a; mwm_funcs := mwm_funcs a;
     root_window := root_window a; screen := screen a; tiles := tiles a;
     tile_size := tile_size a; verbose := verbose a |}.

Definition set_daemon_mode (v : bool) (a : app) : app :=
  {| above_all := above_all a; all_desktops := all_desktops a;
     bg_image := bg_image a; daemon_mode := v; display := display a;
     dock_window := dock_window a; horizontal := horizontal a;
     initial_x := initial_x a; initial_y := initial_y a;
     mwm_decor := mwm_decor a; mwm_funcs := mwm_funcs a;
     root_window := root_window a; screen := screen a; tiles := tiles a;
     tile_size := tile_size a; verbose := verbose a |}.

Definition set_display (v : Z) (a : app) : app :=
  {| above_all := above_all a; all_desktops := all_desktops a;
     bg_image := bg_image a; daemon_mode := daemon_mode a; display := v;
     dock_window := dock_window a; horizontal := horizontal a;
     initial_x := initial_x a; initial_y := initial_y a;
     mwm_decor := mwm_decor a; mwm_funcs := mwm_funcs a;
     root_window := root_window a; screen := screen a; tiles := tiles a;
     tile_size := tile_size a; verbose := verbose a |}.

Definition set_dock_window (v : Window) (a : app) : app :=
  {| above_all := above_all a; all_desktops := all_desktops a;
     bg_image := bg_image a; daemon_mode := daemon_mode a;
     display := display a; dock_window := v; horizontal := horizontal a;
     initial_x := initial_x a; initial_y := initial_y a;
     mwm_decor := mwm_decor a; mwm_funcs := mwm_funcs a;
     root_window := root_window a; screen := screen a; tiles := tiles a;
     tile_size := tile_size a; verbose := verbose a |}.

Definition set_horizontal (v : bool) (a : app) : app :=
  {| above_all := above_all a; all_desktops := all_desktops a;
     bg_image := bg_image a; daemon_mode := daemon_mode a;
     display := display a; dock_window := dock_window a; horizontal := v;
     initial_x := initial_x a; initial_y := initial_y a;
     mwm_decor := mwm_decor a; mwm_funcs := mwm_funcs a;
     root_window := root_window a; screen := screen a; tiles := tiles a;
     tile_size := tile_size a; verbose := verbose a |}.

Definition set_initial_x (v : Z) (a : app) : app :=
  {| above_all := above_all a; all_desktops := all_desktops a;
     bg_image := bg_image a; daemon_mode := daemon_mode a;
     display := display a; dock_window := dock_window a;
     horizontal := horizontal a; initial_x := v; initial_y := initial_y a;
     mwm_decor := mwm_decor a; mwm_funcs := mwm_funcs a;
     root_window := root_window a; screen := screen a; tiles := tiles a;
     tile_size := tile_size a; verbose := verbose a |}.

Definition set_initial_y (v : Z) (a : app) : app :=
  {| above_all := above_all a; all_desktops := all_desktops a;
     bg_image := bg_image a; daemon_mode := daemon_mode a;
     display := display a; dock_window := dock_window a;
     horizontal := horizontal a; initial_x := initial_x a; initial_y := v;
     mwm_decor := mwm_decor a; mwm_funcs := mwm_funcs a;
     root_window := root_window a; screen := screen a; tiles := tiles a;
     tile_size := tile_size a; verbose := verbose a |}.

Definition set_mwm_decor (v : Z) (a : app) : app :=
  {| above_all := above_all a; all_desktops := all_desktops a;
     bg_image := bg_image a; daemon_mode := daemon_mode a;
     display := display a; dock_window := dock_window a;
     horizontal := horizontal a; initial_x := initial_x a;
     initial_y := initial_y a; mwm_decor := v; mwm_funcs := mwm_funcs a;
     root_window := root_window a; screen := screen a; tiles := tiles a;
     tile_size := tile_size a; verbose := verbose a |}.

Definition set_mwm_funcs (v : Z) (a : app) : app :=
  {| above_all := above_all a; all_desktops := all_desktops a;
     bg_image := bg_image a; daemon_mode := daemon_mode a;
     display := display a; dock_window := dock_window a;
     horizontal := horizontal a; initial_x := initial_x a;
     initial_y := initial_y a; mwm_decor := mwm_decor a; mwm_funcs := v;
     root_window := root_window a; screen := screen a; tiles := tiles a;
     tile_size := tile_size a; verbose := verbose a |}.

Definition set_root_window (v : Window) (a : app) : app :=
  {| above_all := above_all a; all_desktops := all_desktops a;
     bg_image := bg_image a; daemon_mode := daemon_mode a;
     display := display a; dock_window := dock_window a;
     horizontal := horizontal a; initial_x := initial_x a;
     initial_y := initial_y a; mwm_decor := mwm_decor a;
     mwm_funcs := mwm_funcs a; root_window := v; screen := screen a;
     tiles := tiles a; tile_size := tile_size a; verbose := verbose a |}.

Definition set_screen (v : Z) (a : app) : app :=
  {| above_all := above_all a; all_desktops := all_desktops a;
     bg_image := bg_image a; daemon_mode := daemon_mode a;
     display := display a; dock_window := dock_window a;
     horizontal := horizontal a; initial_x := initial_x a;
     initial_y := initial_y a; mwm_decor := mwm_decor a;
     mwm_funcs := mwm_funcs a; root_window := root_window a; screen := v;
     tiles := tiles a; tile_size := tile_size a; verbose := verbose a |}.

Definition set_tile_size (v : Z) (a : app) : app :=
  {| above_all := above_all a; all_desktops := all_desktops a;
     bg_image := bg_image a; daemon_mode := daemon_mode a;
     display := display a; dock_window := dock_window a;
     horizontal := horizontal a; initial_x := initial_x a;
     initial_y := initial_y a; mwm_decor := mwm_decor a;
     mwm_funcs := mwm_funcs a; root_window := root_window a;
     screen := screen a; tiles := tiles a; tile_size := v;
     verbose := verbose a |}.

Definition set_verbose (v : bool) (a : app) : app :=
  {| above_all := above_all a; all_desktops := all_desktops a;
     bg_image := bg_image a; daemon_mode := daemon_mode a;
     display := display a; dock_window := dock_window a;
     horizontal := horizontal a; initial_x := initial_x a;
     initial_y := initial_y a; mwm_decor := mwm_decor a;
     mwm_funcs := mwm_funcs a; root_window := root_window a;
     screen := screen a; tiles := tiles a; tile_size := tile_size a;
     verbose := v |}.

Definition set_window (w : Window) (t : tile) : tile :=
  {| command := command t; icon := icon t; pid := pid t;
     res_name := res_name t; type := type t; window := w |}.

(** ** Tile geometry *)

(** [get_tile_position]: the product is an [unsigned] product, the zero of
    the other branch is converted to [unsigned] with it, and the result is
    stored into an [int] field. *)
Definition get_tile_position (a : app) (index : Z) : position :=
  {| x := C.to_int (if horizontal a
                    then C.to_unsigned (index * tile_size a) else 0);
     y := C.to_int (if horizontal a
                    then 0 else C.to_unsigned (index * tile_size a)) |}.

(** ** The outside world

    What the program includes from <X11/X.h>, <X11/Xutil.h>,
    <X11/Xproto.h> and <signal.h>. *)

Module Xlib.

Definition Success : Z := 0.
Definition BadWindow : Z := 3.
Definition X_ReparentWindow : Z := 7.
Definition X_GetProperty : Z := 20.
Definition IconWindowHint : Z := Z.shiftl 1 3.
Definition ButtonPressMask : Z := Z.shiftl 1 2.
Definition ExposureMask : Z := Z.shiftl 1 15.
Definition StructureNotifyMask : Z := Z.shiftl 1 17.
Definition SubstructureNotifyMask : Z := Z.shiftl 1 19.

Record XWMHints := mk_XWMHints { flags : Z; icon_window : Window }.

Record XClassHint := mk_XClassHint { res_name : string; res_class : string }.

Record XErrorEvent := mk_XErrorEvent {
  resourceid : Z;
  error_code : Z;
  request_code : Z;
  minor_code : Z
}.

End Xlib.

Inductive signal := SIGUSR1 | SIGTERM.

(** The target of a [kill]: [getppid()] or a recorded child. *)
Inductive process := Parent | Child (pid : Z).

(** An argument of a format string; [ArgP] is a [char *] that may be
    [NULL]. *)
Inductive arg := ArgZ (z : Z) | ArgS (s : string) | ArgP (p : option string).

(** An item of the data of a property: a number, or the atom of a name. *)
Inductive item := Cardinal (z : Z) | AtomOf (name : string).

(** Calls that leave the program, with their arguments.  The display is
    left out of every Xlib call, and so are arguments that are the same
    constant at every call: the border width 0 and the pixels of
    [XCreateSimpleWindow], the format 32 and the mode PropModeReplace of
    [XChangeProperty], whose property and type are atoms, written by their
    names.  A Window or a pointer that a call returns is an answer of the
    outside world. *)
Inductive call :=
| fprintf_stderr (fmt : string) (args : list arg)
| vfprintf_stderr (fmt : string) (args : list arg)
| XInternAtom (name : string)
| XGetWindowProperty (w : Window) (property : string)
| XFree
| XGetWMHints (w : Window)
| XGetClassHint (w : Window)
| XGetGeometry (w : Window)
| XGetErrorText (code : Z)
| XSetWindowBorderWidth (w : Window) (border : Z)
| XUnmapWindow (w : Window)
| XReparentWindow (w parent : Window) (x y : Z)
| XMapRaised (w : Window)
| XMapWindow (w : Window)
| XFlush
| XSelectInput (w : Window) (mask : Z)
| XOpenDisplay
| XSetErrorHandler
| XSetIOErrorHandler
| XCreateSimpleWindow (parent : Window) (x y width height : Z)
| XStoreName (w : Window) (name : string)
| XChangeProperty (w : Window) (property type : string) (data : list item)
| XSetClassHint (w : Window) (name class : string)
| XMoveResizeWindow (w : Window) (x y width height : Z)
| imlib_context_set_display
| imlib_context_set_visual
| imlib_context_set_colormap
| imlib_context_set_drawable (d : Window)
| imlib_context_set_image (image : Imlib_Image)
| imlib_image_get_width
| imlib_image_get_height
| imlib_render_image_on_drawable (x y : Z)
| imlib_load_image (path : string)
| usleep (usec : Z)
| kill (target : process) (sig : signal)
| fork
| execl_sh (cmd : option string)
| signal_handler (sig : signal)
| pause
| setsid
| close (fd : Z)
| open_dev_null
| dup2 (fd fd2 : Z).

Global Instance signal_eq_dec : EqDecision signal.
Proof. solve_decision. Defined.

Global Instance process_eq_dec : EqDecision process.
Proof. solve_decision. Defined.

Global Instance arg_eq_dec : EqDecision arg.
Proof. solve_decision. Defined.

Global Instance item_eq_dec : EqDecision item.
Proof. solve_decision. Defined.

Global Instance call_eq_dec : EqDecision call.
Proof. solve_decision. Defined.

(** Answers of the X server, of Imlib2 and of the kernel while one event is
    handled. *)
Record replies := mk_replies {
  (** [XGetClassHint]: [None] when it returns 0. *)
  class_hint : Window -> option Xlib.XClassHint;
  (** [XGetWindowProperty] of _NET_SUPPORTING_WM_CHECK on the root window:
      the status and the [data] pointer. *)
  wm_check_property : Z * Z;
  (** [XGetWMHints], by the number of the attempt: [None] when it returns
      [NULL]. *)
  wm_hints : nat -> Window -> option Xlib.XWMHints;
  (** [XGetGeometry]: [None] when it returns 0. *)
  geometry : Window -> option size;
  (** The border width and the depth it gives with the size. *)
  border_depth : Window -> Z * Z;
  (** [imlib_image_get_width] and [imlib_image_get_height]. *)
  image_size : Imlib_Image -> size;
  (** The value [fork] returns. *)
  fork_result : Z;
  (** Whether [execl] returns, which it does only when it fails. *)
  execl_returns : bool
}.

(** ** Logging *)

Definition newline : string := String (Ascii.ascii_of_nat 10) EmptyString.

Definition pm_fprintf (prefix fmt : string) (args : list arg) : list call :=
  [fprintf_stderr "%s" [ArgS prefix];
   vfprintf_stderr fmt args;
   fprintf_stderr newline []].

Definition pm_debug (a : app) (fmt : string) (args : list arg) : list call :=
  if verbose a then pm_fprintf "pmdock (DEBUG): " fmt args else [].

Definition pm_warn (fmt : string) (args : list arg) : list call :=
  pm_fprintf "pmdock (WARNING): " fmt args.

Definition pm_error (fmt : string) (args : list arg) : list call :=
  pm_fprintf "pmdock (ERROR): " fmt args.

(** ** Window properties *)

Definition check_window_manager (r : replies) (a : app) : bool * list call :=
  let status := fst (wm_check_property r) in
  let data := snd (wm_check_property r) in
  let t := [XInternAtom "_NET_SUPPORTING_WM_CHECK";
            XGetWindowProperty (root_window a) "_NET_SUPPORTING_WM_CHECK"] in
  if bool_decide (status = Xlib.Success) && negb (bool_decide (data = 0))
  then (true, t ++ [XFree])
  else (false, t).

(** [attempt] numbers the queries of one discovery, for the replies. *)
Definition get_icon_window (r : replies) (attempt : nat) (w : Window)
  : Window * list call :=
  match wm_hints r attempt w with
  | None => (XNone, [XGetWMHints w])
  | Some wm_hints =>
      let ret :=
        if bool_decide (Z.land (Xlib.flags wm_hints) Xlib.IconWindowHint = 0)
        then XNone else Xlib.icon_window wm_hints in
      (ret, [XGetWMHints w; XFree])
  end.

(** The body of the loop of [get_icon_window_waiting], from iteration [i]
    with [left] iterations to go. *)
Fixpoint get_icon_window_loop (r : replies) (a : app) (w : Window)
    (i left : nat) : Window * list call :=
  match left with
  | O => (XNone, [])
  | S left' =>
      let '(ret, t) := get_icon_window r i w in
      if bool_decide (ret = XNone)
      then
        let '(ret', t') := get_icon_window_loop r a w (S i) left' in
        (ret', t ++ pm_debug a "Waiting for icon window of 0x%lx" [ArgZ w]
                 ++ [usleep 100000] ++ t')
      else (ret, t)
  end.

Definition get_icon_window_waiting (r : replies) (a : app) (w : Window)
  : Window * list call :=
  get_icon_window_loop r a w 0 2.

Definition get_window_size (r : replies) (a : app) (w : Window)
  : size * list call :=
  match geometry r w with
  | None =>
      ({| width := 0; height := 0 |},
       [XGetGeometry w]
         ++ pm_debug a "Failed to get geometry of window 0x%lx" [ArgZ w])
  | Some ret =>
      (ret,
       [XGetGeometry w]
         ++ pm_debug a "Window 0x%lx has size %ux%u, border %u, depth %u"
              [ArgZ w; ArgZ (width ret); ArgZ (height ret);
               ArgZ (fst (border_depth r w)); ArgZ (snd (border_depth r w))])
  end.

(** ** Swallowing *)

Definition unfilled_dockapp (t : tile) : bool :=
  bool_decide (type t = TILE_TYPE_APP) && bool_decide (window t = 0).

Definition check_all_dockapps_swallowed (a : app) : bool :=
  forallb (fun t => negb (unfilled_dockapp t)) (tiles a).

(** Lines 388-389: an [int] plus half of an [unsigned] difference, added as
    [unsigned] and stored into an [int]. *)
Definition icon_offset (a : app) (tile_coord extent : Z) : Z :=
  C.to_int (C.to_unsigned
    (C.to_unsigned tile_coord + C.to_unsigned (tile_size a - extent) / 2)).

Definition swallow_dockapp (r : replies) (main_window : Window) (index : nat)
    (a : app) : app * list call :=
  let t_enter :=
    pm_debug a "Swallowing dockapp with main window 0x%lx at index %d"
      [ArgZ main_window; ArgZ (Z.of_nat index)] in
  let '(wm_running, t_wm) := check_window_manager r a in
  let t_wait :=
    if wm_running
    then pm_warn "Window manager detected, swallowing dockapp with workaround" []
           ++ [usleep 100000]
    else [] in
  let '(icon_window, t_icon) := get_icon_window_waiting r a main_window in
  if bool_decide (icon_window = XNone)
  then
    (a, t_enter ++ t_wm ++ t_wait ++ t_icon
          ++ pm_warn "Window 0x%lx has no icon window, skipping"
               [ArgZ main_window])
  else
    let a' := set_tiles (alter (set_window icon_window) index (tiles a)) a in
    let '(size, t_size) := get_window_size r a' icon_window in
    let tile_pos := get_tile_position a' (Z.of_nat index) in
    let icon_x := icon_offset a' (x tile_pos) (width size) in
    let icon_y := icon_offset a' (y tile_pos) (height size) in
    let main_x := if horizontal a' then icon_x
                  else C.to_int (C.to_int (tile_size a') * 2) in
    let main_y := if horizontal a' then C.to_int (C.to_int (tile_size a') * 2)
                  else icon_y in
    let dock := dock_window a' in
    let t_workaround :=
      if wm_running
      then [XUnmapWindow main_window;
            XUnmapWindow icon_window;
            XFlush;
            usleep 50000;
            XReparentWindow main_window dock main_x main_y;
            XReparentWindow icon_window dock icon_x icon_y;
            XFlush;
            usleep 50000]
      else [] in
    let t_embed :=
      [XReparentWindow main_window dock main_x main_y;
       XReparentWindow icon_window dock icon_x icon_y;
       XMapRaised main_window;
       XMapRaised icon_window;
       XFlush] in
    let t_done :=
      if check_all_dockapps_swallowed a'
      then pm_debug a' "All dockapps swallowed" []
             ++ [XSelectInput (root_window a') 0]
             ++ (if daemon_mode a' then [kill Parent SIGUSR1] else [])
      else [] in
    (a', t_enter ++ t_wm ++ t_wait ++ t_icon
           ++ [XSetWindowBorderWidth icon_window 0] ++ t_size
           ++ t_workaround ++ t_embed
           ++ pm_debug a' "Swallowed window 0x%lx at %ux%u"
                [ArgZ icon_window; ArgZ icon_x; ArgZ icon_y]
           ++ t_done).

(** ** Event handlers *)

(** The condition of the loop of [handle_create_event]. *)
Definition tile_accepts (name : string) (t : tile) : bool :=
  bool_decide (window t = 0)
  && match res_name t with
     | Some tile_name => String.eqb name tile_name
     | None => false
     end.

Definition handle_create_event (r : replies) (w : Window) (a : app)
  : app * list call :=
  match class_hint r w with
  | None => (a, [XGetClassHint w])
  | Some hint =>
      let t_hint :=
        [XGetClassHint w]
          ++ pm_debug a "Created window 0x%lx with res_name '%s'"
               [ArgZ w; ArgS (Xlib.res_name hint)] in
      let '(a', t_swallow) :=
        match list_find (tile_accepts (Xlib.res_name hint)) (tiles a) with
        | Some (i, _) => swallow_dockapp r w i a
        | None => (a, [])
        end in
      (a', t_hint ++ t_swallow ++ [XFree; XFree])
  end.

(** Lines 536-537: the offset of a launcher icon inside its own window. *)
Definition launcher_icon_offset (a : app) (extent : Z) : Z :=
  C.to_int (if extent <? tile_size a
            then C.to_unsigned (tile_size a - extent) / 2 else 0).

Definition handle_expose_event (r : replies) (w : Window) (a : app)
  : list call :=
  concat (imap (fun i t =>
    let pos := get_tile_position a (Z.of_nat i) in
    if bool_decide (w = dock_window a)
       && negb (bool_decide (type t = TILE_TYPE_LAUNCHER))
    then [imlib_context_set_drawable (dock_window a);
          imlib_context_set_image (bg_image a);
          imlib_render_image_on_drawable (x pos) (y pos)]
    else if bool_decide (w = window t)
            && bool_decide (type t = TILE_TYPE_LAUNCHER)
    then
      let width := C.to_unsigned (width (image_size r (icon t))) in
      let height := C.to_unsigned (height (image_size r (icon t))) in
      [imlib_context_set_image (bg_image a);
       imlib_context_set_drawable (window t);
       imlib_render_image_on_drawable 0 0;
       imlib_context_set_image (icon t);
       imlib_image_get_width;
       imlib_image_get_height;
       imlib_render_image_on_drawable
         (launcher_icon_offset a width) (launcher_icon_offset a height)]
    else []) (tiles a)).

(** ** Processes that may end

    A function that can call [exit] returns an outcome next to its trace;
    [Paused] is a process blocked in [pause] for good, and [Replaced] one
    whose image [execl] has replaced: the code of the program ends there. *)

Inductive outcome (A : Type) :=
| Return (v : A)
| Exit (status : Z)
| Paused
| Replaced.

Arguments Return {A} v.

Arguments Exit {A} status.

Arguments Paused {A}.

Arguments Replaced {A}.

Definition M (A : Type) : Type := list call * outcome A.

Definition ret {A} (v : A) : M A := ([], Return v).

Definition emit (t : list call) : M unit := (t, Return tt).

Definition exit {A} (status : Z) : M A := ([], Exit status).

Definition bind {A B} (m : M A) (k : A -> M B) : M B :=
  match m with
  | (t, Return v) => let '(t', o) := k v in (t ++ t', o)
  | (t, Exit status) => (t, Exit status)
  | (t, Paused) => (t, Paused)
  | (t, Replaced) => (t, Replaced)
  end.

Notation "'let*' x := m 'in' k" := (bind m (fun x => k))
  (at level 10, x name, m at level 100, k at level 200).

Notation "m ;;; k" := (bind m (fun _ => k))
  (at level 100, k at level 200, right associativity).

Definition pm_assert (condition : bool) (fmt : string) (args : list arg)
  : M unit :=
  if condition then ret tt
  else emit (pm_fprintf "pmdock (ERROR): " fmt args) ;;; exit 1.

Definition handle_button_press_event (r : replies) (w : Window) (a : app)
  : M unit :=
  match list_find (fun t => bool_decide (type t = TILE_TYPE_LAUNCHER)
                            && bool_decide (w = window t)) (tiles a) with
  | Some (_, t) =>
      emit [fork] ;;;
      if bool_decide (C.to_unsigned (fork_result r) = 0)
      then emit [execl_sh (command t)] ;;;
           if execl_returns r
           then pm_assert false "Failed to execute %s" [ArgP (command t)]
           else ([], Replaced)
      else ret tt
  | None => ret tt
  end.

(** ** The event loop *)

Inductive XEvent :=
| CreateNotify (w : Window)
| Expose (w : Window)
| ButtonPress (w : Window)
| OtherEvent.

(** The [switch] of [main], with the replies the handler gets. *)
Definition dispatch (e : XEvent * replies) (a : app) : M app :=
  match e with
  | (CreateNotify w, r) =>
      let '(a', t) := handle_create_event r w a in (t, Return a')
  | (Expose w, r) => (handle_expose_event r w a, Return a)
  | (ButtonPress w, r) => handle_button_press_event r w a ;;; ret a
  | (OtherEvent, _) => ret a
  end.

(** The loop of [main] over the events that arrive; the real loop goes on
    for ever, this one stops with the list. *)
Fixpoint event_loop (events : list (XEvent * replies)) (a : app) : M app :=
  match events with
  | [] => ret a
  | e :: events' => let* a' := dispatch e a in event_loop events' a'
  end.

(** ** Error handlers *)

Definition terminate_dockapps (a : app) : list call :=
  pm_debug a "Terminating dockapps" []
    ++ concat (map (fun t => if 0 <? pid t then [kill (Child (pid t)) SIGTERM]
                             else []) (tiles a)).

(** [error_text] is what [XGetErrorText] writes into the buffer. *)
Definition handle_error_event (a : app) (error_text : string)
    (error : Xlib.XErrorEvent) : M Z :=
  if bool_decide (Xlib.request_code error = 20) then ret 0
  else
    emit ([XGetErrorText (Xlib.error_code error)]
            ++ pm_debug a "X11 Error (%d, %d, 0x%lx): %s"
                 [ArgZ (Xlib.request_code error);
                  ArgZ (Xlib.minor_code error);
                  ArgZ (Xlib.resourceid error); ArgS error_text]) ;;;
    ret 0.

Definition handle_io_error_event (a : app) : M Z :=
  emit (pm_debug a "X11 IO Error" []) ;;;
  emit (terminate_dockapps a) ;;;
  exit 1.

(** ** Configuration *)

(** What [getopt] returns for one option of the command line, with
    [optarg]; an option it does not know comes out as '?'.  Its own messages
    are not part of the model. *)
Record getopt_result := mk_getopt { opt : ascii; optarg : string }.

(** libc, Imlib2 and the server at startup. *)
Record world := mk_world {
  (** [atoi], with the value of an [int]. *)
  atoi : string -> Z;
  (** [strtoul] in base 0. *)
  strtoul : string -> Z;
  (** The handle [imlib_load_image] returns, 0 on failure. *)
  load_image : string -> Imlib_Image;
  (** Whether [calloc] finds memory, and whether [XAllocClassHint] does. *)
  calloc_ok : bool;
  class_hint_ok : bool;
  (** What [fork], [setsid], [open] and [getpid] return in [daemonize]. *)
  daemon_fork : Z;
  setsid_result : Z;
  open_result : Z;
  getpid : Z;
  (** [XOpenDisplay], [DefaultScreen] and [RootWindow]. *)
  opened_display : Z;
  default_screen : Z;
  default_root : Window;
  (** The id of the panel window. *)
  created_dock : Window;
  (** The id of the window created for the launcher of a tile. *)
  created_launcher : nat -> Window;
  (** What [fork] returns for the dockapp of a tile, and whether [execl]
      returns in its child. *)
  dockapp_fork : nat -> Z;
  dockapp_execl_returns : nat -> bool
}.

Definition USAGE : string :=
  String.concat newline
    ["Usage: pmdock [OPTIONS]";
     EmptyString;
     "Options:";
     "  -a            Show on all virtual desktops";
     "  -A            Show on top of all windows";
     "  -x POSITION   X coordinate (default: 0)";
     "  -y POSITION   Y coordinate (default: 0)";
     "  -s SIZE       Tile size in pixels (default: 64)";
     "  -b IMAGE      Tile background image (default: tile-default.png)";
     "  -H            Use horizontal layout";
     "  -D DECOR      Window decorations hints (default: 0x00)";
     "  -f FUNCS      Window functions hints (default: 0x00)";
     "  -d            Daemonize after swallowing all dockapps";
     "  -r NAME       Resource name for dockapp in the next tile";
     "  -i ICON       Icon path for launcher in the next tile";
     "  -c COMMAND    Command to execute in the next tile";
     "  -t TYPE       Add tile (dockapp or launcher)";
     "  -v            Show debug messages";
     "  -h            Display this help message";
     EmptyString].

Definition DEFAULT_BG_PATH : string := "tile-default.png".

Definition exit_usage {A} (status : Z) : M A :=
  emit [fprintf_stderr "%s" [ArgS USAGE]] ;;; exit status.

(** The locals of [parse_opts] in its second pass. *)
Record parse_state := mk_parse_state {
  parsed : app;
  pending_command : option string;
  pending_icon : option string;
  pending_resname : option string;
  bg_path : string;
  current_tile : nat
}.

Definition set_parsed (a : app) (s : parse_state) : parse_state :=
  {| parsed := a; pending_command := pending_command s;
     pending_icon := pending_icon s; pending_resname := pending_resname s;
     bg_path := bg_path s; current_tile := current_tile s |}.

Definition set_pending_command (v : option string) (s : parse_state)
  : parse_state :=
  {| parsed := parsed s; pending_command := v;
     pending_icon := pending_icon s; pending_resname := pending_resname s;
     bg_path := bg_path s; current_tile := current_tile s |}.

Definition set_pending_icon (v : option string) (s : parse_state)
  : parse_state :=
  {| parsed := parsed s; pending_command := pending_command s;
     pending_icon := v; pending_resname := pending_resname s;
     bg_path := bg_path s; current_tile := current_tile s |}.

Definition set_pending_resname (v : option string) (s : parse_state)
  : parse_state :=
  {| parsed := parsed s; pending_command := pending_command s;
     pending_icon := pending_icon s; pending_resname := v;
     bg_path := bg_path s; current_tile := current_tile s |}.

Definition set_bg_path (v : string) (s : parse_state) : parse_state :=
  {| parsed := parsed s; pending_command := pending_command s;
     pending_icon := pending_icon s; pending_resname := pending_resname s;
     bg_path := v; current_tile := current_tile s |}.

(** The end of [case 't']: the next tile, nothing pending. *)
Definition next_tile (a : app) (s : parse_state) : parse_state :=
  {| parsed := a; pending_command := None; pending_icon := None;
     pending_resname := None; bg_path := bg_path s;
     current_tile := S (current_tile s) |}.

Definition make_dockapp (cmd name : string) (t : tile) : tile :=
  {| command := Some cmd; icon := icon t; pid := pid t;
     res_name := Some name; type := TILE_TYPE_APP; window := window t |}.

Definition make_launcher (cmd : string) (image : Imlib_Image) (t : tile)
  : tile :=
  {| command := Some cmd; icon := image; pid := pid t;
     res_name := res_name t; type := TILE_TYPE_LAUNCHER; window := window t |}.

Definition set_pid (p : Z) (t : tile) : tile :=
  {| command := command t; icon := icon t; pid := p;
     res_name := res_name t; type := type t; window := window t |}.

(** [case 't'] of the second pass. *)
Definition parse_tile (w : world) (s : parse_state) (kind : string)
  : M parse_state :=
  match pending_command s with
  | None =>
      emit (pm_error "Error: -t requires preceding -c to specify command" [])
      ;;; exit_usage 1
  | Some cmd =>
      let a := parsed s in
      if String.eqb kind "dockapp" then
        match pending_resname s with
        | None =>
            emit (pm_error
              "Error: dockapp type requires preceding -r to specify resource name"
              []) ;;;
            exit_usage 1
        | Some name =>
            ret (next_tile
                   (set_tiles (alter (make_dockapp cmd name) (current_tile s)
                                 (tiles a)) a) s)
        end
      else if String.eqb kind "launcher" then
        match pending_icon s with
        | None =>
            emit (pm_error
              "Error: launcher type requires preceding -i to specify icon" [])
            ;;; exit_usage 1
        | Some path =>
            emit [imlib_load_image path] ;;;
            pm_assert (negb (bool_decide (load_image w path = 0)))
              "Failed to load icon %s" [ArgS path] ;;;
            ret (next_tile
                   (set_tiles (alter (make_launcher cmd (load_image w path))
                                 (current_tile s) (tiles a)) a) s)
        end
      else
        emit (pm_error
          "Error: invalid type '%s' (must be 'dockapp' or 'launcher')"
          [ArgS kind]) ;;;
        exit_usage 1
  end.

(** One turn of the second loop of [parse_opts]. *)
Definition parse_opt (w : world) (s : parse_state) (o : getopt_result)
  : M parse_state :=
  let a := parsed s in
  match opt o with
  | "A"%char => ret (set_parsed (set_above_all true a) s)
  | "a"%char => ret (set_parsed (set_all_desktops true a) s)
  | "v"%char => ret (set_parsed (set_verbose true a) s)
  | "x"%char =>
      ret (set_parsed (set_initial_x (C.to_int (atoi w (optarg o))) a) s)
  | "y"%char =>
      ret (set_parsed (set_initial_y (C.to_int (atoi w (optarg o))) a) s)
  | "s"%char =>
      let size := C.to_int (atoi w (optarg o)) in
      if size <=? 0
      then emit (pm_error "Invalid tile size: %s" [ArgS (optarg o)]) ;;;
           exit_usage 1
      else ret (set_parsed (set_tile_size (C.to_unsigned size) a) s)
  | "H"%char => ret (set_parsed (set_horizontal true a) s)
  | "r"%char => ret (set_pending_resname (Some (optarg o)) s)
  | "i"%char => ret (set_pending_icon (Some (optarg o)) s)
  | "c"%char => ret (set_pending_command (Some (optarg o)) s)
  | "t"%char => parse_tile w s (optarg o)
  | "b"%char => ret (set_bg_path (optarg o) s)
  | "d"%char => ret (set_parsed (set_daemon_mode true a) s)
  | "f"%char => ret (set_parsed (set_mwm_funcs (strtoul w (optarg o)) a) s)
  | "D"%char => ret (set_parsed (set_mwm_decor (strtoul w (optarg o)) a) s)
  | "h"%char => exit_usage 0
  | _ => ret s
  end.

Fixpoint parse_loop (w : world) (opts : list getopt_result) (s : parse_state)
  : M parse_state :=
  match opts with
  | [] => ret s
  | o :: opts' => let* s' := parse_opt w s o in parse_loop w opts' s'
  end.

(** The first loop of [parse_opts]. *)
Definition count_tiles (opts : list getopt_result) : nat :=
  length (filter (fun o => opt o = "t"%char) opts).

(** The locals at the start of the second pass, with the tiles the first
    one allocated. *)
Definition parse_start (tile_count : nat) : parse_state :=
  {| parsed := set_tiles (replicate tile_count zero_tile) app_init;
     pending_command := None; pending_icon := None;
     pending_resname := None; bg_path := DEFAULT_BG_PATH;
     current_tile := 0 |}.

Definition parse_opts (w : world) (opts : list getopt_result) : M app :=
  let tile_count := count_tiles opts in
  (if bool_decide (0 < tile_count)%nat
   then pm_assert (calloc_ok w) "Failed to allocate memory" []
   else ret tt) ;;;
  let* s := parse_loop w opts (parse_start tile_count) in
  if bool_decide (tile_count = 0%nat)
  then emit (pm_error "No tiles specified" []) ;;; exit_usage 1
  else
    emit [imlib_load_image (bg_path s)] ;;;
    pm_assert (negb (bool_decide (load_image w (bg_path s) = 0)))
      "Failed to load background image: %s" [ArgS (bg_path s)] ;;;
    ret (set_bg_image (load_image w (bg_path s)) (parsed s)).

(** ** Startup *)

Definition handle_sigusr1 (a : app) : M unit :=
  emit (pm_debug a "Exiting parent process" []) ;;; exit 0.

Definition handle_sigterm (a : app) : M unit :=
  emit (terminate_dockapps a) ;;; exit 0.

(** [daemonize], in whichever of the two processes [fork] returns: the
    parent installs its handler and stays in [pause], the child goes on. *)
Definition daemonize (w : world) (a : app) : M unit :=
  let pid := daemon_fork w in
  emit [fork] ;;;
  pm_assert (0 <=? pid) "Failed to fork" [] ;;;
  if 0 <? pid
  then emit [signal_handler SIGUSR1; pause] ;;; ([], Paused)
  else
    emit [setsid] ;;;
    pm_assert (0 <=? setsid_result w) "Failed to create new session" [] ;;;
    emit [close 0; open_dev_null] ;;;
    pm_assert (0 <=? open_result w) "Failed to open /dev/null" [] ;;;
    emit [dup2 (open_result w) 0] ;;;
    (if 2 <? open_result w then emit [close (open_result w)] else ret tt) ;;;
    emit (pm_debug a "Daemonized child process %d" [ArgZ (getpid w)]).

Definition setup_display (w : world) (a : app) : M app :=
  emit [XOpenDisplay] ;;;
  pm_assert (negb (bool_decide (opened_display w = 0)))
    "Cannot open display" [] ;;;
  emit [XSetErrorHandler; XSetIOErrorHandler] ;;;
  let a := set_root_window (default_root w)
             (set_screen (default_screen w)
                (set_display (opened_display w) a)) in
  emit [XSelectInput (root_window a) Xlib.SubstructureNotifyMask;
        imlib_context_set_display;
        imlib_context_set_visual;
        imlib_context_set_colormap] ;;;
  ret a.

Definition set_mwm_hints (w : Window) (flags funcs decor : Z) : list call :=
  [XInternAtom "_MOTIF_WM_HINTS";
   XChangeProperty w "_MOTIF_WM_HINTS" "_MOTIF_WM_HINTS"
     [Cardinal flags; Cardinal funcs; Cardinal decor; Cardinal 0;
      Cardinal 0]].

Definition set_wm_class_hint (wd : world) (w : Window) (name class : string)
  : M unit :=
  pm_assert (class_hint_ok wd) "Failed to allocate class hint" [] ;;;
  emit [XSetClassHint w name class; XFree].

Definition set_wm_desktop_hint (a : app) (w : Window) (value : Z)
  : list call :=
  [XInternAtom "_NET_WM_DESKTOP";
   XChangeProperty w "_NET_WM_DESKTOP" "CARDINAL" [Cardinal value]]
    ++ pm_debug a "Set _NET_WM_DESKTOP hint for window 0x%lx to %d"
         [ArgZ w; ArgZ value].

Definition set_wm_above_hint (a : app) (w : Window) : list call :=
  [XInternAtom "_NET_WM_STATE"; XInternAtom "_NET_WM_STATE_ABOVE";
   XChangeProperty w "_NET_WM_STATE" "ATOM" [AtomOf "_NET_WM_STATE_ABOVE"]]
    ++ pm_debug a "Set _NET_WM_STATE_ABOVE hint for window 0x%lx" [ArgZ w].

Definition create_dock_window (w : world) (a : app) : M app :=
  let along := C.to_unsigned (Z.of_nat (tile_count a) * tile_size a) in
  let width := if horizontal a then along else tile_size a in
  let height := if horizontal a then tile_size a else along in
  let x := initial_x a in
  let y := initial_y a in
  emit [XCreateSimpleWindow (root_window a) x y width height] ;;;
  let a := set_dock_window (created_dock w) a in
  let dock := dock_window a in
  emit [XStoreName dock "PMDock"] ;;;
  emit (set_mwm_hints dock 3 (mwm_funcs a) (mwm_decor a)) ;;;
  set_wm_class_hint w dock "pmdock" "PMDock" ;;;
  emit (if above_all a then set_wm_above_hint a dock else []) ;;;
  emit (if all_desktops a then set_wm_desktop_hint a dock (-1) else []) ;;;
  emit [XMapWindow dock; XMoveResizeWindow dock x y width height;
        XSelectInput dock
          (Z.lor Xlib.ExposureMask Xlib.StructureNotifyMask)] ;;;
  emit (pm_debug a "Created dock window 0x%lx at %ux%u+%d+%d"
          [ArgZ dock; ArgZ width; ArgZ height; ArgZ x; ArgZ y]) ;;;
  ret a.

Definition create_launchers (w : world) (a : app) : app * list call :=
  (set_tiles
     (imap (fun i t =>
        if bool_decide (type t = TILE_TYPE_LAUNCHER)
        then set_window (created_launcher w i) t else t) (tiles a)) a,
   concat (imap (fun i t =>
     if bool_decide (type t = TILE_TYPE_LAUNCHER)
     then
       let pos := get_tile_position a (Z.of_nat i) in
       let win := created_launcher w i in
       [XCreateSimpleWindow (dock_window a) (x pos) (y pos)
          (tile_size a) (tile_size a);
        XSelectInput win (Z.lor Xlib.ExposureMask Xlib.ButtonPressMask);
        XMapWindow win]
         ++ pm_debug a "Created launcher window 0x%lx at %ux%u"
              [ArgZ win; ArgZ (x pos); ArgZ (y pos)]
     else []) (tiles a))).

(** The loop of [start_dockapps] from tile [i] on. *)
Fixpoint start_dockapps_from (w : world) (a : app) (i : nat)
    (ts : list tile) : M (list tile) :=
  match ts with
  | [] => ret []
  | t :: ts' =>
      let* t' :=
        (if bool_decide (type t = TILE_TYPE_APP)
         then
           let pid := dockapp_fork w i in
           emit [fork] ;;;
           pm_assert (0 <=? pid) "Failed to fork" [] ;;;
           (if bool_decide (pid = 0)
            then emit [execl_sh (command t)] ;;;
                 if dockapp_execl_returns w i then exit 1
                 else ([], Replaced)
            else ret tt) ;;;
           emit (pm_debug a "Started dockapp %s with pid %d"
                   [ArgP (command t); ArgZ pid]) ;;;
           ret (set_pid pid t)
         else ret t) in
      let* rest := start_dockapps_from w a (S i) ts' in
      ret (t' :: rest)
  end.

Definition start_dockapps (w : world) (a : app) : M app :=
  let* ts := start_dockapps_from w a 0 (tiles a) in
  ret (set_tiles ts a).

(** [main] up to its loop. *)
Definition startup (w : world) (opts : list getopt_result) : M app :=
  let* a := parse_opts w opts in
  (if daemon_mode a then daemonize w a else ret tt) ;;;
  emit [signal_handler SIGTERM] ;;;
  let* a := setup_display w a in
  let* a := create_dock_window w a in
  emit (snd (create_launchers w a)) ;;;
  let a := fst (create_launchers w a) in
  emit [XFlush] ;;;
  start_dockapps w a.

Definition main (w : world) (opts : list getopt_result)
    (events : list (XEvent * replies)) : M app :=
  let* a := startup w opts in
  event_loop events a.

(** * Vocabulary of the properties *)

(** ** Tile positions *)

(** The offset the contract of the tile model asks for, over unbounded
    integers. *)
Definition ideal_tile_position (a : app) (index : Z) : position :=
  if horizontal a
  then {| x := index * tile_size a; y := 0 |}
  else {| x := 0; y := index * tile_size a |}.

(** Position of a tile along the layout axis. *)
Definition layout_coord (a : app) (p : position) : Z :=
  if horizontal a then x p else y p.

(** Position of a tile across the layout axis. *)
Definition cross_coord (a : app) (p : position) : Z :=
  if horizontal a then y p else x p.

(** ** Kinds of calls *)

Definition is_reparent_or_map (c : call) : bool :=
  match c with
  | XReparentWindow _ _ _ _ | XMapRaised _ | XMapWindow _ => true
  | _ => false
  end.

Definition is_window_op (c : call) : bool :=
  match c with
  | XUnmapWindow _ | XReparentWindow _ _ _ _ | XMapRaised _ | XMapWindow _ =>
      true
  | _ => false
  end.

Definition is_handshake (c : call) : bool :=
  match c with
  | kill Parent SIGUSR1 => true
  | _ => false
  end.

(** The queries and pauses of an icon-window discovery. *)
Definition is_query_or_pause (c : call) : bool :=
  match c with
  | XGetWMHints _ | usleep _ => true
  | _ => false
  end.

Definition is_wm_hints_query (c : call) : bool :=
  match c with
  | XGetWMHints _ => true
  | _ => false
  end.

(** Calls that change nothing outside the program: messages on stderr,
    queries, frees and pauses. *)
Definition is_passive (c : call) : bool :=
  match c with
  | fprintf_stderr _ _ | vfprintf_stderr _ _
  | XInternAtom _ | XGetWindowProperty _ _ | XFree | XGetWMHints _
  | XGetClassHint _ | XGetGeometry _ | XGetErrorText _ | usleep _ => true
  | _ => false
  end.

Definition passive (t : list call) : Prop :=
  Forall (fun c => is_passive c = true) t.

(** A trace free of calls of one kind. *)
Definition free_of (kind : call -> bool) (t : list call) : Prop :=
  Forall (fun c => kind c = false) t.

(** *** The window tree of the server

    Modelled from the X protocol, for the calls of the swallow: a window has
    a parent, a place in it and a mapped flag; unmapping clears the flag,
    reparenting moves the window and puts it on top of the stacking order,
    [XMapRaised] sets the flag and raises the window.  Nobody else touches
    the windows. *)

Record xwindow := mk_xwindow {
  parent : Window;
  place : Z * Z;
  mapped : bool
}.

Record xserver := mk_xserver {
  windows : Window -> xwindow;
  stacking : list Window
}.

Definition update_window (w : Window) (f : xwindow -> xwindow)
    (ws : Window -> xwindow) : Window -> xwindow :=
  fun v => if bool_decide (v = w) then f (ws v) else ws v.

Definition raise (w : Window) (order : list Window) : list Window :=
  w :: filter (fun v => v <> w) order.

Definition xserver_step (s : xserver) (c : call) : xserver :=
  match c with
  | XUnmapWindow w =>
      {| windows := update_window w (fun old =>
           {| parent := parent old; place := place old; mapped := false |})
           (windows s);
         stacking := stacking s |}
  | XReparentWindow w p x y =>
      {| windows := update_window w (fun old =>
           {| parent := p; place := (x, y); mapped := mapped old |})
           (windows s);
         stacking := raise w (stacking s) |}
  | XMapRaised w =>
      {| windows := update_window w (fun old =>
           {| parent := parent old; place := place old; mapped := true |})
           (windows s);
         stacking := raise w (stacking s) |}
  | XMapWindow w =>
      {| windows := update_window w (fun old =>
           {| parent := parent old; place := place old; mapped := true |})
           (windows s);
         stacking := stacking s |}
  | _ => s
  end.

Definition xserver_run (t : list call) (s : xserver) : xserver :=
  fold_left xserver_step t s.

(** Two servers with the same windows in the same order. *)
Definition same_windows (s1 s2 : xserver) : Prop :=
  (forall w, windows s1 w = windows s2 w) /\ stacking s1 = stacking s2.

(** ** Changes of a tile *)

(** The one way a tile changes after startup: its window goes from unset to
    the icon window of a swallow. *)
Definition filled_from (t t' : tile) : Prop :=
  window t = 0 /\ exists icon_window,
    icon_window <> XNone /\ t' = set_window icon_window t.

(** ** Messages and the daemon's parent *)

Definition is_stderr (c : call) : bool :=
  match c with
  | fprintf_stderr _ _ | vfprintf_stderr _ _ => true
  | _ => false
  end.

(** Whether a trace writes a message. *)
Definition logs (t : list call) : bool := existsb is_stderr t.

(** The parent left in [pause] by [daemonize], for a child that ran with the
    trace [child]: the only signal it handles is the SIGUSR1 of the child's
    handshake, and its handler ends it. *)
Definition daemon_parent (a : app) (child : list call) : M unit :=
  if existsb is_handshake child then handle_sigusr1 a else ([], Paused).

(** ** Processes *)

(** Every call of a process is of a given kind, however it ends. *)
Definition calls_only {A} (P : call -> Prop) (m : M A) : Prop :=
  Forall P (fst m).

(** ** Configuration *)

(** Calls that option parsing makes: messages and image loads. *)
Definition is_config_call (c : call) : bool :=
  match c with
  | fprintf_stderr _ _ | vfprintf_stderr _ _ | imlib_load_image _ => true
  | _ => false
  end.




Definition config_calls {A} (m : M A) : Prop :=
  calls_only (fun c => is_config_call c = true) m.

Definition tile_configured (t : tile) : Prop :=
  window t = 0 /\ (is_Some (res_name t) -> type t = TILE_TYPE_APP).

Definition parse_inv (s : parse_state) : Prop :=
  Forall tile_configured (tiles (parsed s))
  /\ forall j t, (current_tile s <= j)%nat ->
       tiles (parsed s) !! j = Some t -> res_name t = None.

(** ** Tiles at startup and after *)

(** A tile when the event loop starts: only a dockapp has a resource name,
    and no dockapp has a window yet. *)
Definition tile_ready (t : tile) : Prop :=
  (is_Some (res_name t) -> type t = TILE_TYPE_APP)
  /\ (type t = TILE_TYPE_APP -> window t = 0).

(** What the event loop keeps of that: only a dockapp has a resource name. *)
Definition tile_named (t : tile) : Prop :=
  is_Some (res_name t) -> type t = TILE_TYPE_APP.

Definition no_handshake {A} (m : M A) : Prop :=
  calls_only (fun c => is_handshake c = false) m.

(** A call that is neither the handshake nor a reparent or map. *)
Definition quiet_call (c : call) : Prop :=
  is_handshake c = false /\ is_reparent_or_map c = false.

(** [default] when the process does not return. *)
Definition returned {A} (default : A) (m : M A) : A :=
  match snd m with
  | Return v => v
  | _ => default
  end.

(** ** Further kinds of calls *)

Definition is_reparent (c : call) : bool :=
  match c with
  | XReparentWindow _ _ _ _ => true
  | _ => false
  end.

Definition is_render (c : call) : bool :=
  match c with
  | imlib_render_image_on_drawable _ _ => true
  | _ => false
  end.

Definition is_fork (c : call) : bool :=
  match c with
  | fork => true
  | _ => false
  end.

Definition is_kill (c : call) : bool :=
  match c with
  | kill _ _ => true
  | _ => false
  end.

(** The size [swallow_dockapp] works with: what [XGetGeometry] gives, and
    0x0 when it fails. *)
Definition size_or_zero (r : replies) (w : Window) : size :=
  match geometry r w with
  | Some sz => sz
  | None => {| width := 0; height := 0 |}
  end.

(** Whether a button press on [w] finds a launcher. *)
Definition launcher_at (w : Window) (t : tile) : bool :=
  bool_decide (type t = TILE_TYPE_LAUNCHER) && bool_decide (w = window t).

(** The square of edge [edge] at [p] lies inside a window of the given
    size. *)
Definition square_inside (p : position) (edge width height : Z) : Prop :=
  0 <= x p /\ x p + edge <= width /\ 0 <= y p /\ y p + edge <= height.

(** Two squares of edge [edge] share no pixel. *)
Definition squares_apart (p q : position) (edge : Z) : Prop :=
  x p + edge <= x q \/ x q + edge <= x p
  \/ y p + edge <= y q \/ y q + edge <= y p.

(** Two tiles that differ at most in their window. *)
Definition same_but_window (t t' : tile) : Prop :=
  t' = set_window (window t') t.

(** ** What the command line asks for *)

(** Whether the command line has the option [c]. *)
Definition has_flag (c : ascii) (opts : list getopt_result) : bool :=
  existsb (fun o => bool_decide (opt o = c)) opts.

(** A tile as the second pass of [parse_opts] leaves it at its [-t]: a
    command, no child and no window yet; a dockapp has a resource name and
    no icon, a launcher an icon that was loaded and no resource name. *)
Definition tile_initialised (t : tile) : Prop :=
  is_Some (command t) /\ pid t = 0 /\ window t = 0
  /\ match type t with
     | TILE_TYPE_APP => is_Some (res_name t) /\ icon t = 0
     | TILE_TYPE_LAUNCHER => res_name t = None /\ icon t <> 0
     end.

(** The tiles in the course of the second pass: those before the current
    one are initialised, the others are as [calloc] left them. *)
Definition parse_filled (s : parse_state) : Prop :=
  (forall j t, (j < current_tile s)%nat -> tiles (parsed s) !! j = Some t ->
     tile_initialised t)
  /\ (forall j t, (current_tile s <= j)%nat ->
        tiles (parsed s) !! j = Some t -> t = zero_tile)
  /\ 0 < tile_size (parsed s) <= C.INT_MAX.

(** The flags of the configuration. *)
Definition flags (a : app) : list bool :=
  [above_all a; all_desktops a; daemon_mode a; horizontal a; verbose a].

Definition flags_asked (opts : list getopt_result) : list bool :=
  [has_flag "A" opts; has_flag "a" opts; has_flag "d" opts;
   has_flag "H" opts; has_flag "v" opts].

(** ** The state when the event loop starts *)

(** What the startup makes of a tile of the configuration: a dockapp gets
    the pid of its child, a launcher the window created for it. *)
Definition started_tile (w : world) (j : nat) (t : tile) : tile :=
  match type t with
  | TILE_TYPE_APP => set_pid (dockapp_fork w j) t
  | TILE_TYPE_LAUNCHER => set_window (created_launcher w j) t
  end.

(** The SIGTERM signals owed to the dockapps of a panel. *)
Definition dockapp_kills (w : world) (a : app) : list call :=
  concat (imap (fun j t =>
    if bool_decide (type t = TILE_TYPE_APP)
    then [kill (Child (dockapp_fork w j)) SIGTERM] else []) (tiles a)).

Definition is_create (c : call) : bool :=
  match c with
  | XCreateSimpleWindow _ _ _ _ _ => true
  | _ => false
  end.

Definition is_property_change (c : call) : bool :=
  match c with
  | XChangeProperty _ _ _ _ | XStoreName _ _ | XSetClassHint _ _ _ => true
  | _ => false
  end.

(** The properties the panel window is given, for a configuration: its
    name, the Motif hints, its class, and, when asked for, the state above
    other windows and the desktop -1, which stands for all desktops. *)
Definition panel_properties (dock : Window) (a : app) : list call :=
  [XStoreName dock "PMDock";
   XChangeProperty dock "_MOTIF_WM_HINTS" "_MOTIF_WM_HINTS"
     [Cardinal 3; Cardinal (mwm_funcs a); Cardinal (mwm_decor a); Cardinal 0;
      Cardinal 0];
   XSetClassHint dock "pmdock" "PMDock"]
    ++ (if above_all a
        then [XChangeProperty dock "_NET_WM_STATE" "ATOM"
                [AtomOf "_NET_WM_STATE_ABOVE"]]
        else [])
    ++ (if all_desktops a
        then [XChangeProperty dock "_NET_WM_DESKTOP" "CARDINAL"
                [Cardinal (-1)]]
        else []).

(** ** Icon windows *)

(** The icon window that the WM hints of query [attempt] name: the window of
    the hints when they exist and have bit 3, the flag IconWindowHint, set. *)
Definition hinted_icon_window (r : replies) (attempt : nat) (w : Window)
  : Window :=
  match wm_hints r attempt w with
  | Some hints =>
      if Z.testbit (Xlib.flags hints) 3 then Xlib.icon_window hints else XNone
  | None => XNone
  end.

(** ** Values of the command line *)

(** The argument of the last option [c] of the command line. *)
Definition last_arg (c : ascii) (opts : list getopt_result) : option string :=
  fold_left (fun found o => if Ascii.eqb (opt o) c then Some (optarg o)
                            else found) opts None.

(** * Sample inputs *)

(** *** The scenario of the specification

    Tile size 64, one dockapp tile for xclock in slot 0, a row. *)

Definition xclock_tile : tile :=
  {| command := Some "xclock"; icon := 0; pid := 4242;
     res_name := Some "xclock"; type := TILE_TYPE_APP; window := 0 |}.

Definition xclock_app : app :=
  {| above_all := false; all_desktops := false; bg_image := 1;
     daemon_mode := true; display := 1; dock_window := 20;
     horizontal := true; initial_x := 0; initial_y := 0;
     mwm_decor := 0; mwm_funcs := 0; root_window := 10; screen := 0;
     tiles := [xclock_tile]; tile_size := 64; verbose := false |}.

(** A server on which every window has class [name], the icon window 101
    shows up at the query numbered [found_at] and has the given extent. *)
Definition xclock_replies (name : string) (wm_running : bool)
    (found_at : nat) (extent : Z) : replies :=
  {| class_hint := fun _ => Some (Xlib.mk_XClassHint name "XClock");
     wm_check_property := if wm_running then (Xlib.Success, 1)
                          else (Xlib.Success, 0);
     wm_hints := fun attempt _ =>
       if bool_decide (attempt = found_at)
       then Some (Xlib.mk_XWMHints Xlib.IconWindowHint 101) else None;
     geometry := fun _ => Some {| width := extent; height := extent |};
     image_size := fun _ => {| width := 32; height := 32 |};
     border_depth := fun _ => (0, 24);
     fork_result := 4243; execl_returns := false |}.

(** Two tiles for xclock, the first one filled. *)
Definition two_clocks : app :=
  set_tiles [set_window 101 xclock_tile; xclock_tile] xclock_app.

Definition two_clocks_filled : app :=
  set_tiles [set_window 101 xclock_tile; set_window 103 xclock_tile]
    xclock_app.

Definition second_clock_appears : list (XEvent * replies) :=
  [(CreateNotify 102,
    {| class_hint := fun _ => Some (Xlib.mk_XClassHint "xclock" "XClock");
       wm_check_property := (Xlib.Success, 0);
       wm_hints := fun _ _ =>
         Some (Xlib.mk_XWMHints Xlib.IconWindowHint 103);
       geometry := fun _ => Some {| width := 48; height := 48 |};
       image_size := fun _ => {| width := 32; height := 32 |};
       border_depth := fun _ => (0, 24);
       fork_result := 4243; execl_returns := false |})].

Definition xclock_app_verbose : app :=
  {| above_all := false; all_desktops := false; bg_image := 1;
     daemon_mode := true; display := 1; dock_window := 20;
     horizontal := true; initial_x := 0; initial_y := 0;
     mwm_decor := 0; mwm_funcs := 0; root_window := 10; screen := 0;
     tiles := [xclock_tile]; tile_size := 64; verbose := true |}.

(** A BadWindow error of a reparent request on window 100. *)
Definition bad_window_on_reparent : Xlib.XErrorEvent :=
  {| Xlib.resourceid := 100; Xlib.error_code := Xlib.BadWindow;
     Xlib.request_code := Xlib.X_ReparentWindow; Xlib.minor_code := 0 |}.

(** A BadAtom error (code 5) of a property query. *)
Definition bad_atom_on_get_property : Xlib.XErrorEvent :=
  {| Xlib.resourceid := 0; Xlib.error_code := 5;
     Xlib.request_code := Xlib.X_GetProperty; Xlib.minor_code := 0 |}.

Definition opt_c (cmd : string) : getopt_result := mk_getopt "c" cmd.

Definition opt_r (name : string) : getopt_result := mk_getopt "r" name.

Definition opt_i (path : string) : getopt_result := mk_getopt "i" path.

Definition opt_t (kind : string) : getopt_result := mk_getopt "t" kind.

Definition opt_flag (c : ascii) : getopt_result := mk_getopt c EmptyString.

(** A machine on which nothing fails; the process followed is the child of
    [daemonize]. *)
Definition good_world : world :=
  {| atoi := fun _ => 64; strtoul := fun _ => 0; load_image := fun _ => 7;
     calloc_ok := true; class_hint_ok := true; getpid := 4001;
     daemon_fork := 0; setsid_result := 1;
     open_result := 0; opened_display := 1; default_screen := 0;
     default_root := 10; created_dock := 20;
     created_launcher := fun i => 30 + Z.of_nat i;
     dockapp_fork := fun i => 4242 + Z.of_nat i;
     dockapp_execl_returns := fun _ => false |}.

(** The same machine with an [atoi] that reads 1073741824. *)
Definition huge_world : world :=
  {| atoi := fun _ => 1073741824; strtoul := strtoul good_world;
     load_image := load_image good_world; calloc_ok := true;
     class_hint_ok := true; getpid := 4001;
     daemon_fork := 0; setsid_result := 1; open_result := 0;
     opened_display := 1; default_screen := 0; default_root := 10;
     created_dock := 20; created_launcher := created_launcher good_world;
     dockapp_fork := dockapp_fork good_world;
     dockapp_execl_returns := fun _ => false |}.

(** A row of five launchers with tiles of edge 2^30:
    [-H -s 1073741824] and five times [-i term.png -c xterm -t launcher]. *)
Definition huge_opts : list getopt_result :=
  [opt_flag "H"; mk_getopt "s" "1073741824";
   opt_i "term.png"; opt_c "xterm"; opt_t "launcher";
   opt_i "term.png"; opt_c "xterm"; opt_t "launcher";
   opt_i "term.png"; opt_c "xterm"; opt_t "launcher";
   opt_i "term.png"; opt_c "xterm"; opt_t "launcher";
   opt_i "term.png"; opt_c "xterm"; opt_t "launcher"].

(** A panel of two launchers, run as a daemon. *)
Definition launcher_opts : list getopt_result :=
  [opt_flag "d"; opt_i "term.png"; opt_c "xterm"; opt_t "launcher";
   opt_i "web.png"; opt_c "firefox"; opt_t "launcher"].

(** A panel with a dockapp and a launcher, run as a daemon. *)
Definition xclock_opts : list getopt_result :=
  [opt_flag "d"; opt_flag "H"; opt_r "xclock"; opt_c "xclock";
   opt_t "dockapp"; opt_i "term.png"; opt_c "xterm"; opt_t "launcher"].

(** The clock's window appears, twice, and the panel is exposed. *)
Definition xclock_events : list (XEvent * replies) :=
  [(CreateNotify 100, xclock_replies "xclock" false 1 48);
   (CreateNotify 102, xclock_replies "xclock" false 1 48);
   (Expose 20, xclock_replies "xclock" false 1 48)].

Definition app_huge_tiles : app :=
  Eval vm_compute in returned app_init (startup huge_world huge_opts).

Definition launcher_cfg_trace : list call :=
  Eval vm_compute in fst (parse_opts good_world launcher_opts).

Definition launcher_cfg : app :=
  Eval vm_compute in returned app_init (parse_opts good_world launcher_opts).

Definition xclock_run_trace : list call :=
  Eval vm_compute in fst (main good_world xclock_opts xclock_events).

Definition xclock_run_state : app :=
  Eval vm_compute in
    returned app_init (main good_world xclock_opts xclock_events).

(** The panel of two launchers when its event loop starts. *)
Definition two_launchers : app :=
  Eval vm_compute in returned app_init (startup good_world launcher_opts).

Definition firefox_launcher : tile :=
  {| command := Some "firefox"; icon := 7; pid := 0; res_name := None;
     type := TILE_TYPE_LAUNCHER; window := 31 |}.

(** Replies of a machine on which [fork] fails. *)
Definition fork_fails : replies :=
  {| class_hint := fun _ => None;
     wm_check_property := (Xlib.Success, 0);
     wm_hints := fun _ _ => None;
     geometry := fun _ => None;
     image_size := fun _ => {| width := 32; height := 32 |};
     border_depth := fun _ => (0, 24);
     fork_result := -1; execl_returns := false |}.

(** Replies in the child of a [fork]. *)
Definition in_child : replies :=
  {| class_hint := fun _ => None;
     wm_check_property := (Xlib.Success, 0);
     wm_hints := fun _ _ => None;
     geometry := fun _ => None;
     image_size := fun _ => {| width := 32; height := 32 |};
     border_depth := fun _ => (0, 24);
     fork_result := 0; execl_returns := true |}.

(** The machine of [good_world], followed in the parent of [daemonize]. *)
Definition parent_world : world :=
  {| atoi := atoi good_world; strtoul := strtoul good_world;
     load_image := load_image good_world; calloc_ok := true;
     class_hint_ok := true; getpid := 4001;
     daemon_fork := 4000; setsid_result := 1; open_result := 0;
     opened_display := 1; default_screen := 0; default_root := 10;
     created_dock := 20; created_launcher := created_launcher good_world;
     dockapp_fork := dockapp_fork good_world;
     dockapp_execl_returns := fun _ => false |}.

(** The same machine without a server to connect to. *)
Definition headless_world : world :=
  {| atoi := atoi good_world; strtoul := strtoul good_world;
     load_image := load_image good_world; calloc_ok := true;
     class_hint_ok := true; getpid := 4001;
     daemon_fork := 0; setsid_result := 1; open_result := 0;
     opened_display := 0; default_screen := 0; default_root := 10;
     created_dock := 20; created_launcher := created_launcher good_world;
     dockapp_fork := dockapp_fork good_world;
     dockapp_execl_returns := fun _ => false |}.

(** A panel with a dockapp and a launcher, not a daemon. *)
Definition plain_opts : list getopt_result :=
  [opt_r "xclock"; opt_c "xclock"; opt_t "dockapp";
   opt_i "term.png"; opt_c "xterm"; opt_t "launcher"].

Definition plain_cfg_trace : list call :=
  Eval vm_compute in fst (parse_opts good_world plain_opts).

Definition plain_cfg : app :=
  Eval vm_compute in returned app_init (parse_opts good_world plain_opts).

Definition plain_start_trace : list call :=
  Eval vm_compute in fst (startup good_world plain_opts).

Definition plain_start : app :=
  Eval vm_compute in returned app_init (startup good_world plain_opts).

Definition xclock_start_trace : list call :=
  Eval vm_compute in fst (startup good_world xclock_opts).

Definition xclock_start : app :=
  Eval vm_compute in returned app_init (startup good_world xclock_opts).

(** A command line that sets everything twice. *)
Definition twice_opts : list getopt_result :=
  [mk_getopt "x" "10"; mk_getopt "s" "48"; mk_getopt "b" "a.png";
   opt_r "xclock"; opt_c "xclock"; opt_t "dockapp";
   mk_getopt "x" "20"; mk_getopt "s" "64"; mk_getopt "b" "b.png"].

Definition twice_cfg_trace : list call :=
  Eval vm_compute in fst (parse_opts good_world twice_opts).

Definition twice_cfg : app :=
  Eval vm_compute in returned app_init (parse_opts good_world twice_opts).

(** * Properties *)

(** ** Machine integers *)

Lemma to_unsigned_small z : 0 <= z < C.UINT_RANGE -> C.to_unsigned z = z.
Proof. intros Hz. unfold C.to_unsigned. by apply Z.mod_small. Qed.

Lemma to_int_small z : 0 <= z <= C.INT_MAX -> C.to_int z = z.
Proof.
  intros Hz. unfold C.to_int, C.INT_MAX, C.UINT_RANGE in *.
  rewrite Z.mod_small by lia.
  destruct (Z.leb_spec z (2 ^ 31 - 1)); lia.
Qed.

(** ** Tile positions *)

Section tile_geometry.

Variable a : app.

Lemma get_tile_position_wraps index :
  get_tile_position a index =
    if horizontal a
    then {| x := C.to_int (index * tile_size a); y := 0 |}
    else {| x := 0; y := C.to_int (index * tile_size a) |}.
Proof.
  unfold get_tile_position, C.to_int, C.to_unsigned.
  destruct (horizontal a); rewrite Z.mod_mod by (unfold C.UINT_RANGE; lia);
    reflexivity.
Qed.

Lemma get_tile_position_in_range index :
  0 <= index * tile_size a <= C.INT_MAX ->
  get_tile_position a index = ideal_tile_position a index.
Proof.
  intros Hr. rewrite get_tile_position_wraps. unfold ideal_tile_position.
  by rewrite to_int_small.
Qed.

End tile_geometry.

(** C7, as stated, fails: in a row of five tiles of edge 2^30 the unsigned
    product of index 4 wraps to 0, so tile 4 is not at (4*S, 0) and lands on
    tile 0. *)
Lemma get_tile_position_overflow :
  snd (startup huge_world huge_opts) = Return app_huge_tiles /\
  length (tiles app_huge_tiles) = 5%nat /\
  0 < tile_size app_huge_tiles /\
  get_tile_position app_huge_tiles 4 <> ideal_tile_position app_huge_tiles 4 /\
  get_tile_position app_huge_tiles 4 = get_tile_position app_huge_tiles 0.
Proof.
  split; [reflexivity|]. split; [reflexivity|]. split; [done|].
  split; [|reflexivity]. intros [=].
Qed.

(** C7 (amended): while (i+1)*S stays within a 32-bit [int], tile i is at
    (i*S, 0) in a row and at (0, i*S) in a column; the next tile is exactly S
    further along the layout axis and at the same place across it, so
    positions increase strictly and consecutive tiles do not overlap. *)
Theorem get_tile_position_spacing (a : app) (i : Z) :
  0 <= i -> 0 < tile_size a -> (i + 1) * tile_size a <= C.INT_MAX ->
  get_tile_position a i = ideal_tile_position a i /\
  layout_coord a (get_tile_position a (i + 1))
    - layout_coord a (get_tile_position a i) = tile_size a /\
  cross_coord a (get_tile_position a (i + 1))
    - cross_coord a (get_tile_position a i) = 0 /\
  layout_coord a (get_tile_position a i)
    < layout_coord a (get_tile_position a (i + 1)) /\
  layout_coord a (get_tile_position a i) + tile_size a
    <= layout_coord a (get_tile_position a (i + 1)).
Proof.
  intros Hi HS Hmax.
  assert (0 <= i * tile_size a <= C.INT_MAX) as H0 by nia.
  assert (0 <= (i + 1) * tile_size a <= C.INT_MAX) as H1 by nia.
  rewrite !get_tile_position_in_range by done.
  unfold ideal_tile_position, layout_coord, cross_coord.
  destruct (horizontal a); simpl; repeat split; lia.
Qed.

Lemma get_tile_position_spacing_witness :
  get_tile_position app_init 3 = {| x := 0; y := 192 |} /\
  layout_coord app_init (get_tile_position app_init 4)
    - layout_coord app_init (get_tile_position app_init 3) = 64.
Proof.
  destruct (get_tile_position_spacing app_init 3) as (H1 & H2 & _);
    [lia | simpl; lia | vm_compute; discriminate |].
  split; [exact H1 | exact H2].
Defined.

(** ** Passive calls *)

Lemma free_of_app kind t1 t2 :
  free_of kind (t1 ++ t2) <-> free_of kind t1 /\ free_of kind t2.
Proof. apply Forall_app. Qed.

Lemma passive_app t1 t2 : passive (t1 ++ t2) <-> passive t1 /\ passive t2.
Proof. apply Forall_app. Qed.

Lemma passive_free_of kind t :
  (forall c, is_passive c = true -> kind c = false) ->
  passive t -> free_of kind t.
Proof. intros Hkind Ht. eapply Forall_impl; [exact Ht | exact Hkind]. Qed.

Lemma pm_fprintf_passive prefix fmt args : passive (pm_fprintf prefix fmt args).
Proof. by repeat constructor. Qed.

Lemma pm_debug_passive a fmt args : passive (pm_debug a fmt args).
Proof.
  unfold pm_debug. destruct (verbose a);
    [apply pm_fprintf_passive | constructor].
Qed.

Lemma pm_warn_passive fmt args : passive (pm_warn fmt args).
Proof. apply pm_fprintf_passive. Qed.

Lemma pm_debug_no_queries a fmt args :
  filter (fun c => is_query_or_pause c = true) (pm_debug a fmt args) = [].
Proof. unfold pm_debug. by destruct (verbose a). Qed.

Lemma get_icon_window_passive r i w : passive (snd (get_icon_window r i w)).
Proof.
  unfold get_icon_window. destruct (wm_hints r i w); by repeat constructor.
Qed.

Lemma get_icon_window_queries r i w :
  filter (fun c => is_query_or_pause c = true) (snd (get_icon_window r i w))
  = [XGetWMHints w].
Proof. unfold get_icon_window. by destruct (wm_hints r i w). Qed.

Lemma get_icon_window_loop_passive r a w i left :
  passive (snd (get_icon_window_loop r a w i left)).
Proof.
  revert i. induction left as [|left IH]; intros i; cbn [get_icon_window_loop].
  { constructor. }
  pose proof (get_icon_window_passive r i w) as Hq.
  destruct (get_icon_window r i w) as [ret t].
  case_bool_decide; [|done].
  specialize (IH (S i)).
  destruct (get_icon_window_loop r a w (S i) left) as [ret' t'].
  cbn [snd] in *. rewrite !passive_app. repeat split; try done.
  - apply pm_debug_passive.
  - by repeat constructor.
Qed.

Lemma get_icon_window_waiting_passive r a w :
  passive (snd (get_icon_window_waiting r a w)).
Proof. apply get_icon_window_loop_passive. Qed.

Lemma check_window_manager_passive r a :
  passive (snd (check_window_manager r a)).
Proof.
  unfold check_window_manager. destruct (_ && _); by repeat constructor.
Qed.

Lemma get_window_size_passive r a w : passive (snd (get_window_size r a w)).
Proof.
  unfold get_window_size. destruct (geometry r w); cbn [snd];
    (apply passive_app; split;
       [by repeat constructor | apply pm_debug_passive]).
Qed.

(** ** The swallowing protocol *)

Lemma tile_accepts_spec name t :
  tile_accepts name t = true <-> window t = 0 /\ res_name t = Some name.
Proof.
  unfold tile_accepts. rewrite andb_true_iff, bool_decide_eq_true.
  destruct (res_name t) as [tile_name|].
  - rewrite String.eqb_eq. split.
    + intros [Hw ->]. done.
    + intros [Hw [= ->]]. done.
  - split; [intros [_ [=]] | intros [_ [=]]].
Qed.

(** What [swallow_dockapp] does to the program state: nothing when the
    discovery fails, and else it records the icon window on tile [index]. *)
Lemma swallow_dockapp_state r main_window index a :
  let icon_window := fst (get_icon_window_waiting r a main_window) in
  fst (swallow_dockapp r main_window index a) =
    if bool_decide (icon_window = XNone) then a
    else set_tiles (alter (set_window icon_window) index (tiles a)) a.
Proof.
  unfold swallow_dockapp.
  destruct (check_window_manager r a) as [wm_running t_wm].
  destruct (get_icon_window_waiting r a main_window) as [icon_window t_icon].
  simpl. case_bool_decide; [done|].
  by destruct (get_window_size r _ icon_window).
Qed.

(** A swallow whose discovery fails only asks, waits and warns. *)
Lemma swallow_dockapp_aborted r main_window index a :
  fst (get_icon_window_waiting r a main_window) = XNone ->
  passive (snd (swallow_dockapp r main_window index a)).
Proof.
  unfold swallow_dockapp.
  pose proof (check_window_manager_passive r a) as Hwm.
  destruct (check_window_manager r a) as [wm_running t_wm].
  pose proof (get_icon_window_waiting_passive r a main_window) as Hdisc.
  destruct (get_icon_window_waiting r a main_window) as [icon_window t_icon].
  cbn [fst snd] in *. intros ->. rewrite bool_decide_eq_true_2 by done.
  cbn [snd]. rewrite !passive_app. repeat split; try done.
  - apply pm_debug_passive.
  - destruct wm_running; [|constructor].
    apply passive_app. split; [apply pm_warn_passive | by repeat constructor].
  - apply pm_warn_passive.
Qed.

(** C8: a creation event whose window has no class hints, or whose resource
    name is the name of no unfilled tile, leaves the whole program state (so
    every field of every tile) as it was and issues no reparent or map
    call. *)
Theorem handle_create_event_no_match (r : replies) (w : Window) (a : app) :
  (class_hint r w = None \/
   exists hint, class_hint r w = Some hint /\
     forall t, t ∈ tiles a -> window t = 0 ->
       res_name t <> Some (Xlib.res_name hint)) ->
  fst (handle_create_event r w a) = a /\
  free_of is_reparent_or_map (snd (handle_create_event r w a)).
Proof.
  unfold handle_create_event. intros [-> | (hint & -> & Hnone)].
  { split; [done | by repeat constructor]. }
  assert (list_find (tile_accepts (Xlib.res_name hint)) (tiles a) = None)
    as ->.
  { apply list_find_None, Forall_forall. intros t Ht Hacc.
    apply Is_true_true, tile_accepts_spec in Hacc as [Hw Hn].
    by apply (Hnone t). }
  split; [done|]. cbn [snd]. apply passive_free_of; [by intros []|].
  rewrite !passive_app. repeat split.
  - by repeat constructor.
  - apply pm_debug_passive.
  - constructor.
  - by repeat constructor.
Qed.

Lemma handle_create_event_no_match_witness :
  fst (handle_create_event (xclock_replies "xterm" false 0 48) 100 xclock_app)
    = xclock_app /\
  free_of is_reparent_or_map
    (snd (handle_create_event (xclock_replies "xterm" false 0 48) 100
            xclock_app)).
Proof.
  apply handle_create_event_no_match. right.
  exists (Xlib.mk_XClassHint "xterm" "XClock"). split; [reflexivity|].
  intros t Ht _. apply list_elem_of_singleton in Ht. subst t.
  simpl. discriminate.
Defined.

(** What the discovery of an icon window asks and returns: one query when
    the first names an icon window, and else a pause, a second query and,
    when that names none either, a second pause. *)
Lemma get_icon_window_waiting_queries r a w :
  let first := fst (get_icon_window r 0 w) in
  let second := fst (get_icon_window r 1 w) in
  filter (fun c => is_query_or_pause c = true)
    (snd (get_icon_window_waiting r a w))
  = (if bool_decide (first <> XNone) then [XGetWMHints w]
     else if bool_decide (second <> XNone)
     then [XGetWMHints w; usleep 100000; XGetWMHints w]
     else [XGetWMHints w; usleep 100000; XGetWMHints w; usleep 100000])
  /\ fst (get_icon_window_waiting r a w)
     = (if bool_decide (first <> XNone) then first else second).
Proof.
  assert (forall t0 t1 : list call,
    filter (fun c => is_query_or_pause c = true)
      (t0 ++ pm_debug a "Waiting for icon window of 0x%lx" [ArgZ w]
          ++ [usleep 100000] ++ t1)
    = filter (fun c => is_query_or_pause c = true) t0
        ++ usleep 100000 :: filter (fun c => is_query_or_pause c = true) t1)
    as Hskip.
  { intros t0 t1. by rewrite !filter_app, pm_debug_no_queries. }
  pose proof (get_icon_window_queries r 0 w) as Hq0.
  pose proof (get_icon_window_queries r 1 w) as Hq1.
  unfold get_icon_window_waiting. cbn [get_icon_window_loop].
  destruct (get_icon_window r 0 w) as [ret0 t0].
  destruct (get_icon_window r 1 w) as [ret1 t1].
  cbn [fst snd] in *. cbv zeta.
  destruct (decide (ret0 = XNone)) as [H0|H0].
  - rewrite (bool_decide_eq_true_2 _ H0).
    rewrite (bool_decide_eq_false_2 (ret0 <> XNone)) by (by intros []).
    destruct (decide (ret1 = XNone)) as [H1|H1].
    + rewrite (bool_decide_eq_true_2 _ H1).
      rewrite (bool_decide_eq_false_2 (ret1 <> XNone)) by (by intros []).
      cbn [fst snd]. by rewrite Hskip, Hq0, Hskip, Hq1.
    + rewrite (bool_decide_eq_false_2 _ H1).
      rewrite (bool_decide_eq_true_2 (ret1 <> XNone)) by done.
      cbn [fst snd]. by rewrite Hskip, Hq0, Hq1.
  - rewrite (bool_decide_eq_false_2 _ H0).
    by rewrite (bool_decide_eq_true_2 (ret0 <> XNone)) by done.
Qed.

Lemma pm_fprintf_no_wm_hints_query prefix fmt args :
  free_of is_wm_hints_query (pm_fprintf prefix fmt args).
Proof. by repeat constructor. Qed.

Lemma pm_debug_no_wm_hints_query a fmt args :
  free_of is_wm_hints_query (pm_debug a fmt args).
Proof.
  unfold pm_debug. destruct (verbose a);
    [apply pm_fprintf_no_wm_hints_query | constructor].
Qed.

(** C6: a swallow asks for the WM hints of the candidate window once or
    twice, and not more often: its calls are those before the discovery, the
    discovery, and those after it, with no query of WM hints before or after.
    The discovery is one query when that names an icon window; else it is a
    query, a pause of 100000 microseconds and a second query, and when the
    second query names no icon window either, a second pause of 100000
    microseconds.  In that last case the swallow stops there: all that
    follows is the warning, the program state (so the tile's window field)
    is as before, and no reparent or map call was issued. *)
Theorem icon_discovery_bounded (r : replies) (a : app) (main_window : Window)
    (index : nat) :
  let query := XGetWMHints main_window in
  let first := fst (get_icon_window r 0 main_window) in
  let second := fst (get_icon_window r 1 main_window) in
  exists before discovery after,
    snd (swallow_dockapp r main_window index a)
    = before ++ discovery ++ after
    /\ free_of is_wm_hints_query before
    /\ free_of is_wm_hints_query after
    /\ filter (fun c => is_query_or_pause c = true) discovery
       = (if bool_decide (first <> XNone) then [query]
          else if bool_decide (second <> XNone)
          then [query; usleep 100000; query]
          else [query; usleep 100000; query; usleep 100000])
    /\ (first = XNone -> second = XNone ->
        after = pm_warn "Window 0x%lx has no icon window, skipping"
                  [ArgZ main_window]
        /\ fst (swallow_dockapp r main_window index a) = a
        /\ free_of is_reparent_or_map
             (snd (swallow_dockapp r main_window index a))).
Proof.
  intros query first second. subst query first second.
  destruct (get_icon_window_waiting_queries r a main_window)
    as [Hqueries Hfound].
  pose proof (swallow_dockapp_state r main_window index a) as Hstate.
  pose proof (swallow_dockapp_aborted r main_window index a) as Habort.
  cbv zeta in Hstate.
  assert (free_of is_wm_hints_query (snd (check_window_manager r a))) as Hwm.
  { unfold check_window_manager. destruct (_ && _); by repeat constructor. }
  unfold swallow_dockapp in *.
  destruct (check_window_manager r a) as [wm_running t_wm].
  destruct (get_icon_window_waiting r a main_window) as [icon_window t_icon].
  cbn [fst snd] in *.
  assert (free_of is_wm_hints_query
            (pm_debug a "Swallowing dockapp with main window 0x%lx at index %d"
               [ArgZ main_window; ArgZ (Z.of_nat index)]
             ++ t_wm
             ++ (if wm_running
                 then pm_warn
                        "Window manager detected, swallowing dockapp with workaround"
                        [] ++ [usleep 100000]
                 else [])))
    as Hbefore.
  { rewrite !free_of_app. split; [apply pm_debug_no_wm_hints_query|].
    split; [done|]. destruct wm_running; by repeat constructor. }
  set (before :=
         pm_debug a "Swallowing dockapp with main window 0x%lx at index %d"
           [ArgZ main_window; ArgZ (Z.of_nat index)]
         ++ t_wm
         ++ (if wm_running
             then pm_warn
                    "Window manager detected, swallowing dockapp with workaround"
                    [] ++ [usleep 100000]
             else [])) in *.
  case_bool_decide as Hnone.
  - exists before, t_icon,
      (pm_warn "Window 0x%lx has no icon window, skipping" [ArgZ main_window]).
    split; [subst before; cbn [snd]; by rewrite <- !(assoc_L (++))|].
    split; [exact Hbefore|]. split; [apply pm_fprintf_no_wm_hints_query|].
    split; [done|]. intros _ _. split; [done|]. split; [done|].
    apply passive_free_of; [by intros []|]. by apply Habort.
  - clear Hstate Habort.
    destruct (get_window_size r _ icon_window) as [size t_size] eqn:Hsize.
    assert (free_of is_wm_hints_query t_size) as Hsz.
    { unfold get_window_size in Hsize.
      destruct (geometry r icon_window); injection Hsize as _ <-;
        (constructor; [done | apply pm_debug_no_wm_hints_query]). }
    cbn [snd].
    match goal with
    | |- exists _ _ _, _ ++ _ ++ _ ++ _ ++ ?rest = _ /\ _ =>
        exists before, t_icon, rest
    end.
    split; [subst before; by rewrite <- !(assoc_L (++))|].
    split; [exact Hbefore|]. split.
    { repeat match goal with
             | |- free_of _ (if ?b then _ else _) => destruct b
             | |- free_of _ (_ ++ _) => apply free_of_app; split
             | |- free_of _ (pm_debug _ _ _) =>
                 apply pm_debug_no_wm_hints_query
             | |- free_of _ t_size => exact Hsz
             | |- free_of _ _ => by repeat constructor
             end. }
    split; [done|]. intros H0 H1.
    rewrite H0, H1 in Hfound. destruct Hnone.
    rewrite Hfound. by case_bool_decide.
Qed.

Lemma icon_discovery_bounded_witness :
  exists before discovery after,
    snd (swallow_dockapp (xclock_replies "xclock" false 2 48) 100 0
           xclock_app)
    = before ++ discovery ++ after
    /\ free_of is_wm_hints_query before
    /\ free_of is_wm_hints_query after
    /\ filter (fun c => is_query_or_pause c = true) discovery
       = [XGetWMHints 100; usleep 100000; XGetWMHints 100; usleep 100000]
    /\ (XNone = XNone -> XNone = XNone ->
        after = pm_warn "Window 0x%lx has no icon window, skipping" [ArgZ 100]
        /\ fst (swallow_dockapp (xclock_replies "xclock" false 2 48) 100 0
                  xclock_app)
           = xclock_app
        /\ free_of is_reparent_or_map
             (snd (swallow_dockapp (xclock_replies "xclock" false 2 48) 100 0
                     xclock_app))).
Proof.
  exact (icon_discovery_bounded (xclock_replies "xclock" false 2 48)
           xclock_app 100 0).
Defined.

(** ** The window tree after a swallow *)

Lemma xserver_run_app t1 t2 s :
  xserver_run (t1 ++ t2) s = xserver_run t2 (xserver_run t1 s).
Proof. apply fold_left_app. Qed.

Lemma xserver_run_inert t s :
  free_of is_window_op t -> xserver_run t s = s.
Proof.
  intros Ht. revert s. induction Ht as [|c t Hc _ IH]; intros s; [done|].
  cbn [xserver_run fold_left]. fold (xserver_run t (xserver_step s c)).
  rewrite IH. by destruct c.
Qed.

Lemma filter_ne_absorb (a b : Window) (l : list Window) :
  filter (fun v => v <> a) (filter (fun v => v <> b)
    (filter (fun v => v <> a) l))
  = filter (fun v => v <> a) (filter (fun v => v <> b) l).
Proof.
  induction l as [|v l IH]; [done|].
  repeat (rewrite filter_cons; case_decide); try done;
    first [ by rewrite IH | by rewrite <- IH ].
Qed.

Lemma filter_ne_idem (a : Window) (l : list Window) :
  filter (fun v => v <> a) (filter (fun v => v <> a) l)
  = filter (fun v => v <> a) l.
Proof.
  induction l as [|v l IH]; [done|].
  rewrite !filter_cons. destruct (decide (v <> a)); [|done].
  rewrite filter_cons. case_decide; [|done]. by rewrite IH.
Qed.

Lemma raise_idem a l : raise a (raise a l) = raise a l.
Proof.
  unfold raise. rewrite filter_cons. case_decide; [done|].
  by rewrite filter_ne_idem.
Qed.

Lemma raise_absorb a b l : raise a (raise b (raise a l)) = raise a (raise b l).
Proof.
  destruct (decide (a = b)) as [->|Hab]; [by rewrite !raise_idem|].
  unfold raise.
  repeat (rewrite filter_cons; case_decide); try done; try congruence.
  by rewrite filter_ne_absorb.
Qed.

Lemma workaround_then_embed_same main_window icon_window dock main_x main_y
    icon_x icon_y s :
  same_windows
    (xserver_run
       ([XUnmapWindow main_window; XUnmapWindow icon_window; XFlush;
         usleep 50000;
         XReparentWindow main_window dock main_x main_y;
         XReparentWindow icon_window dock icon_x icon_y;
         XFlush; usleep 50000]
        ++ [XReparentWindow main_window dock main_x main_y;
            XReparentWindow icon_window dock icon_x icon_y;
            XMapRaised main_window; XMapRaised icon_window; XFlush]) s)
    (xserver_run
       [XReparentWindow main_window dock main_x main_y;
        XReparentWindow icon_window dock icon_x icon_y;
        XMapRaised main_window; XMapRaised icon_window; XFlush] s).
Proof.
  split.
  - intros w. cbn. unfold update_window.
    repeat case_bool_decide; try done; congruence.
  - cbn. by rewrite raise_absorb, raise_idem.
Qed.

(** C3: once an icon window is found, the calls of a swallow are, in this
    order: calls that touch no window's mapping or parent; if a window manager
    was detected, unmap main and icon, flush, pause 50000 microseconds,
    reparent both into the panel at their offsets, flush, pause 50000
    microseconds; then always reparent both into the panel at the same
    offsets, map both raised, flush; then calls that again touch no window.
    The windows of the server end up as the last five calls alone leave
    them, with or without a window manager. *)
Theorem swallow_dockapp_sequence (r : replies) (a : app)
    (main_window : Window) (index : nat) :
  let wm_running := fst (check_window_manager r a) in
  let icon_window := fst (get_icon_window_waiting r a main_window) in
  let size := fst (get_window_size r a icon_window) in
  let tile_pos := get_tile_position a (Z.of_nat index) in
  let icon_x := icon_offset a (x tile_pos) (width size) in
  let icon_y := icon_offset a (y tile_pos) (height size) in
  let parked := C.to_int (C.to_int (tile_size a) * 2) in
  let main_x := if horizontal a then icon_x else parked in
  let main_y := if horizontal a then parked else icon_y in
  let dock := dock_window a in
  icon_window <> XNone ->
  exists before after,
    let workaround :=
      [XUnmapWindow main_window; XUnmapWindow icon_window; XFlush;
       usleep 50000;
       XReparentWindow main_window dock main_x main_y;
       XReparentWindow icon_window dock icon_x icon_y;
       XFlush; usleep 50000] in
    let embed :=
      [XReparentWindow main_window dock main_x main_y;
       XReparentWindow icon_window dock icon_x icon_y;
       XMapRaised main_window; XMapRaised icon_window; XFlush] in
    snd (swallow_dockapp r main_window index a)
      = before ++ (if wm_running then workaround else []) ++ embed ++ after
    /\ free_of is_window_op before
    /\ free_of is_window_op after
    /\ forall s,
         same_windows
           (xserver_run (snd (swallow_dockapp r main_window index a)) s)
           (xserver_run embed s).
Proof.
  intros wm_running icon_window size tile_pos icon_x icon_y parked main_x
    main_y dock Hicon.
  subst wm_running icon_window size tile_pos icon_x icon_y parked main_x
    main_y dock.
  unfold swallow_dockapp.
  pose proof (check_window_manager_passive r a) as Hwm.
  destruct (check_window_manager r a) as [wm_running t_wm].
  pose proof (get_icon_window_waiting_passive r a main_window) as Hdisc.
  destruct (get_icon_window_waiting r a main_window) as [icon_window t_icon].
  cbn [fst snd] in *.
  rewrite bool_decide_eq_false_2 by done.
  set (a' := set_tiles _ a).
  assert (get_window_size r a' icon_window = get_window_size r a icon_window)
    as -> by done.
  pose proof (get_window_size_passive r a icon_window) as Hsize.
  destruct (get_window_size r a icon_window) as [size t_size].
  cbn [fst snd] in *.
  change (get_tile_position a' (Z.of_nat index))
    with (get_tile_position a (Z.of_nat index)).
  change (icon_offset a') with (icon_offset a).
  change (dock_window a') with (dock_window a).
  set (tile_pos := get_tile_position a (Z.of_nat index)).
  set (icon_x := icon_offset a (x tile_pos) (width size)).
  set (icon_y := icon_offset a (y tile_pos) (height size)).
  change (horizontal a') with (horizontal a).
  change (tile_size a') with (tile_size a).
  set (main_x := if horizontal a then icon_x else _).
  set (main_y := if horizontal a then _ else icon_y).
  set (t_done := if check_all_dockapps_swallowed a' then _ else _).
  set (t_swallowed := pm_debug a' "Swallowed window 0x%lx at %ux%u" _).
  set (t_enter := pm_debug a _ _).
  set (t_wait := if wm_running then pm_warn _ _ ++ _ else []).
  set (before := t_enter ++ t_wm ++ t_wait ++ t_icon
                   ++ [XSetWindowBorderWidth icon_window 0] ++ t_size).
  exists before, (t_swallowed ++ t_done).
  cbv zeta.
  assert (free_of is_window_op before) as Hbefore.
  { subst before. rewrite !free_of_app. repeat split.
    - apply passive_free_of; [by intros []|apply pm_debug_passive].
    - apply passive_free_of; [by intros []|done].
    - subst t_wait. destruct wm_running; [|constructor].
      apply passive_free_of; [by intros []|].
      apply passive_app.
      split; [apply pm_warn_passive | by repeat constructor].
    - apply passive_free_of; [by intros []|done].
    - by repeat constructor.
    - apply passive_free_of; [by intros []|done]. }
  assert (free_of is_window_op (t_swallowed ++ t_done)) as Hafter.
  { rewrite free_of_app. split.
    - apply passive_free_of; [by intros []|apply pm_debug_passive].
    - subst t_done. destruct (check_all_dockapps_swallowed a'); [|constructor].
      rewrite !free_of_app. repeat split.
      + apply passive_free_of; [by intros []|apply pm_debug_passive].
      + by repeat constructor.
      + destruct (daemon_mode a'); by repeat constructor. }
  assert (forall mid : list call,
            t_enter ++ t_wm ++ t_wait ++ t_icon
              ++ [XSetWindowBorderWidth icon_window 0] ++ t_size
              ++ mid
            = before ++ mid) as Hassoc.
  { intros mid. subst before. by rewrite <- !(assoc_L (++)). }
  split; [|split; [done|split; [done|]]].
  - rewrite Hassoc. reflexivity.
  - intros s. rewrite Hassoc.
    rewrite xserver_run_app, (xserver_run_inert before) by done.
    assert (forall t1 t2 t3 t4 : list call,
              t1 ++ t2 ++ t3 ++ t4 = (t1 ++ t2) ++ (t3 ++ t4)) as ->
      by (intros; by rewrite <- !(assoc_L (++))).
    rewrite xserver_run_app, (xserver_run_inert (t_swallowed ++ t_done))
      by done.
    destruct wm_running; [apply workaround_then_embed_same|].
    by split.
Qed.

Lemma swallow_dockapp_sequence_witness :
  exists before after,
    snd (swallow_dockapp (xclock_replies "xclock" true 1 48) 100 0 xclock_app)
    = before
        ++ [XUnmapWindow 100; XUnmapWindow 101; XFlush; usleep 50000;
            XReparentWindow 100 20 8 128; XReparentWindow 101 20 8 8;
            XFlush; usleep 50000]
        ++ [XReparentWindow 100 20 8 128; XReparentWindow 101 20 8 8;
            XMapRaised 100; XMapRaised 101; XFlush]
        ++ after
    /\ free_of is_window_op before /\ free_of is_window_op after.
Proof.
  destruct (swallow_dockapp_sequence (xclock_replies "xclock" true 1 48)
              xclock_app 100 0)
    as (before & after & H & Hbefore & Hafter & _).
  { vm_compute. discriminate. }
  exists before, after.
  split; [exact H | split; [exact Hbefore | exact Hafter]].
Defined.

(** ** The tile model under creation events *)

Lemma handle_create_event_state r w a :
  fst (handle_create_event r w a) = a \/
  exists hint i t icon_window,
    class_hint r w = Some hint
    /\ list_find (tile_accepts (Xlib.res_name hint)) (tiles a) = Some (i, t)
    /\ icon_window = fst (get_icon_window_waiting r a w)
    /\ icon_window <> XNone
    /\ fst (handle_create_event r w a)
       = set_tiles (alter (set_window icon_window) i (tiles a)) a.
Proof.
  unfold handle_create_event.
  destruct (class_hint r w) as [hint|]; [|by left].
  destruct (list_find _ (tiles a)) as [[i t]|] eqn:Hfind; [|by left].
  pose proof (swallow_dockapp_state r w i a) as Hstate. cbv zeta in Hstate.
  destruct (swallow_dockapp r w i a) as [a' t_swallow]. cbn [fst] in *.
  case_bool_decide as Hicon; [by left|].
  right. by exists hint, i, t, (fst (get_icon_window_waiting r a w)).
Qed.

Lemma list_find_accepts name ts i t :
  list_find (tile_accepts name) ts = Some (i, t) ->
  ts !! i = Some t /\ tile_accepts name t = true
  /\ forall j t', ts !! j = Some t' -> (j < i)%nat -> tile_accepts name t' = false.
Proof.
  intros (Hi & Hacc & Hfirst)%list_find_Some. split; [done|].
  split; [by apply Is_true_true|].
  intros j t' Hj Hlt. specialize (Hfirst j t' Hj Hlt).
  by destruct (tile_accepts name t').
Qed.

Lemma dispatch_state e a tr a' :
  dispatch e a = (tr, Return a') ->
  a' = a \/
  exists i t icon_window,
    tiles a !! i = Some t /\ window t = 0 /\ icon_window <> XNone
    /\ a' = set_tiles (alter (set_window icon_window) i (tiles a)) a.
Proof.
  destruct e as [[w|w|w|] r]; cbn [dispatch].
  - destruct (handle_create_event_state r w a)
      as [Hsame | (hint & i & t & icon_window & _ & Hfind & _ & Hicon & Hset)];
      destruct (handle_create_event r w a) as [a1 t1]; cbn [fst] in *;
      intros [= _ <-]; [by left|].
    right. exists i, t, icon_window.
    apply list_find_accepts in Hfind as (Hi & Hacc & _).
    apply tile_accepts_spec in Hacc as [Hw _]. done.
  - intros [= _ <-]. by left.
  - unfold handle_button_press_event, bind, emit, ret, pm_assert, exit.
    destruct (list_find _ (tiles a)) as [[i t]|]; [|intros [= _ <-]; by left].
    case_bool_decide; [destruct (execl_returns r); cbn; discriminate|].
    cbn. intros [= _ <-]. by left.
  - intros [= _ <-]. by left.
Qed.

Lemma dispatch_tile e a tr a' j t :
  dispatch e a = (tr, Return a') -> tiles a !! j = Some t ->
  tiles a' !! j = Some t \/
  exists t', tiles a' !! j = Some t' /\ filled_from t t'.
Proof.
  intros [-> | (i & ti & icon_window & Hi & Hw & Hicon & ->)]%dispatch_state Hj;
    [by left|].
  cbn [tiles set_tiles]. destruct (decide (i = j)) as [->|Hne].
  - right. exists (set_window icon_window t).
    rewrite list_lookup_alter_eq, Hj. split; [done|].
    assert (ti = t) as -> by congruence. split; [done|]. by exists icon_window.
  - left. by rewrite list_lookup_alter_ne.
Qed.

Lemma event_loop_cons e events a tr a' :
  event_loop (e :: events) a = (tr, Return a') ->
  exists tr1 a1 tr2,
    dispatch e a = (tr1, Return a1)
    /\ event_loop events a1 = (tr2, Return a') /\ tr = tr1 ++ tr2.
Proof.
  cbn [event_loop]. unfold bind.
  destruct (dispatch e a) as [tr1 [a1| | |]]; [|discriminate..].
  destruct (event_loop events a1) as [tr2 o] eqn:Hrest.
  intros [= <- ->]. by exists tr1, a1, tr2.
Qed.

Lemma event_loop_tile events a tr a' j t :
  event_loop events a = (tr, Return a') -> tiles a !! j = Some t ->
  tiles a' !! j = Some t \/
  exists t', tiles a' !! j = Some t' /\ filled_from t t'.
Proof.
  revert a tr t. induction events as [|e events IH]; intros a tr t.
  { intros [= _ <-] Hj. by left. }
  intros (tr1 & a1 & tr2 & He & Hrest & _)%event_loop_cons Hj.
  destruct (dispatch_tile e a tr1 a1 j t He Hj)
    as [Hsame | (t1 & Ht1 & Hw & icon_window & Hicon & ->)].
  { by apply (IH a1 tr2). }
  destruct (IH a1 tr2 _ Hrest Ht1)
    as [Hsame | (t2 & Ht2 & Hw2 & _)].
  - right. exists (set_window icon_window t). split; [done|].
    split; [done|]. by exists icon_window.
  - by destruct Hicon.
Qed.

(** C2: over any sequence of events, a tile is at the end as at the start,
    or its window was unset at the start and is a nonzero icon window at the
    end, nothing else of it having changed; a tile whose window is set is
    therefore never cleared nor overwritten, from whichever point of a run one
    starts to look.  And a creation event whose resource name several unfilled
    tiles carry touches at most the first of them in index order. *)
Theorem window_set_at_most_once :
  (forall events a tr a' j t,
     event_loop events a = (tr, Return a') -> tiles a !! j = Some t ->
     (window t <> 0 -> tiles a' !! j = Some t)
     /\ (tiles a' !! j = Some t \/
         exists t', tiles a' !! j = Some t' /\ filled_from t t'))
  /\ (forall r w a hint i t,
        class_hint r w = Some hint ->
        tiles a !! i = Some t ->
        tile_accepts (Xlib.res_name hint) t = true ->
        (forall j t', (j < i)%nat -> tiles a !! j = Some t' ->
                      tile_accepts (Xlib.res_name hint) t' = false) ->
        let a' := fst (handle_create_event r w a) in
        (forall j, j <> i -> tiles a' !! j = tiles a !! j)
        /\ (tiles a' !! i = Some t \/
            exists t', tiles a' !! i = Some t' /\ filled_from t t')).
Proof.
  split.
  - intros events a tr a' j t Hrun Hj.
    pose proof (event_loop_tile events a tr a' j t Hrun Hj) as Hcases.
    split; [|done]. intros Hset.
    destruct Hcases as [?|(t' & _ & Hw & _)]; [done|by destruct Hset].
  - intros r w a hint i t Hhint Hi Hacc Hfirst a'. subst a'.
    assert (list_find (tile_accepts (Xlib.res_name hint)) (tiles a)
            = Some (i, t)) as Hfind.
    { apply list_find_Some. split; [done|]. split; [by apply Is_true_true|].
      intros j t' Hj Hlt Hacc'. apply Is_true_true in Hacc'.
      by rewrite (Hfirst j t' Hlt Hj) in Hacc'. }
    destruct (handle_create_event_state r w a)
      as [-> | (hint' & i' & t' & icon_window & Hhint' & Hfind' & _ & Hicon
                & ->)].
    { split; [done | by left]. }
    assert (hint' = hint) as -> by congruence.
    assert (i' = i /\ t' = t) as [-> ->] by (split; congruence).
    cbn [tiles set_tiles]. split.
    + intros j Hne. by rewrite list_lookup_alter_ne.
    + right. exists (set_window icon_window t).
      rewrite list_lookup_alter_eq, Hi. split; [done|].
      apply tile_accepts_spec in Hacc as [Hw _].
      split; [done|]. by exists icon_window.
Qed.

Lemma window_set_at_most_once_witness :
  tiles two_clocks_filled !! 0%nat = Some (set_window 101 xclock_tile).
Proof.
  refine (proj1 (proj1 window_set_at_most_once
    second_clock_appears two_clocks
    (fst (event_loop second_clock_appears two_clocks))
    two_clocks_filled 0%nat (set_window 101 xclock_tile) _ _) _).
  - reflexivity.
  - reflexivity.
  - simpl. lia.
Defined.

(** ** Icon placement *)

Lemma half_bounds n : 0 <= n -> 0 <= n / 2 <= n.
Proof.
  intros Hn. split; [apply Z.div_pos; lia|].
  apply Z.div_le_upper_bound; lia.
Qed.

(** A swallowed icon no larger than the tile is centred in it. *)
Lemma icon_offset_centered a tile_coord extent :
  0 <= extent <= tile_size a -> 0 <= tile_coord ->
  tile_coord + tile_size a <= C.INT_MAX ->
  icon_offset a tile_coord extent = tile_coord + (tile_size a - extent) / 2.
Proof.
  intros He Hc Hmax. unfold icon_offset.
  pose proof (half_bounds (tile_size a - extent)) as Hhalf.
  unfold C.INT_MAX in *.
  rewrite (to_unsigned_small tile_coord) by (unfold C.UINT_RANGE; lia).
  rewrite (to_unsigned_small (tile_size a - extent))
    by (unfold C.UINT_RANGE; lia).
  rewrite to_unsigned_small by (unfold C.UINT_RANGE; lia).
  apply to_int_small. unfold C.INT_MAX. lia.
Qed.

(** A launcher icon is centred in its tile when it is smaller and drawn at
    the origin of the tile when it is not. *)
Lemma launcher_icon_offset_clamped a extent :
  0 < tile_size a <= C.INT_MAX -> 0 <= extent ->
  launcher_icon_offset a extent =
    if bool_decide (extent <= tile_size a)
    then (tile_size a - extent) / 2 else 0.
Proof.
  intros HS He. unfold launcher_icon_offset.
  destruct (Z.ltb_spec extent (tile_size a)) as [Hlt|Hge].
  - rewrite bool_decide_eq_true_2 by lia.
    pose proof (half_bounds (tile_size a - extent)) as Hhalf.
    unfold C.INT_MAX in *.
    rewrite to_unsigned_small by (unfold C.UINT_RANGE; lia).
    apply to_int_small. unfold C.INT_MAX. lia.
  - case_bool_decide as Hle; [|done].
    assert (extent = tile_size a) as -> by lia.
    by rewrite Z.sub_diag.
Qed.

(** C1 at a failing input: with tiles of 64 pixels, an icon window of
    128x128 is reparented 2147483616 pixels right of and below the origin of
    its tile, where clamping asks for the origin itself: the difference
    64 - 128 is taken in [unsigned] and wraps.  A launcher icon of that size
    is drawn at the origin of its tile. *)
Theorem swallow_oversized_icon_offset :
  get_tile_position xclock_app 0 = {| x := 0; y := 0 |}
  /\ icon_offset xclock_app 0 128 = 2147483616
  /\ filter (fun c => is_reparent_or_map c = true)
       (snd (swallow_dockapp (xclock_replies "xclock" false 0 128) 100 0
               xclock_app))
     = [XReparentWindow 100 20 2147483616 128;
        XReparentWindow 101 20 2147483616 2147483616;
        XMapRaised 100; XMapRaised 101]
  /\ launcher_icon_offset xclock_app 128 = 0.
Proof. repeat split; vm_compute; reflexivity. Qed.

(** ** The protocol error handler *)

(** The protocol error handler returns 0 to its caller, whatever the error
    is; it never ends the process. *)
Lemma handle_error_event_returns a error_text error :
  snd (handle_error_event a error_text error) = Return 0.
Proof. unfold handle_error_event. by case_bool_decide. Qed.

(** What it writes depends on the request code alone: nothing for an error
    of a GetProperty request, and else, with debug messages on, a message
    whatever the class of the error. *)
Lemma handle_error_event_by_request a error_text error :
  logs (fst (handle_error_event a error_text error))
  = negb (bool_decide (Xlib.request_code error = Xlib.X_GetProperty))
    && verbose a.
Proof.
  unfold handle_error_event, Xlib.X_GetProperty. case_bool_decide; [done|].
  unfold pm_debug. by destruct (verbose a).
Qed.

(** C5 at two failing inputs: the handler tests the request code against
    20, the opcode of GetProperty, and not the error code against BadWindow.
    With debug messages on, a BadWindow error of a reparent request is
    written to stderr, and an error of another class of a property query is
    dropped without a message.  Both calls return 0. *)
Theorem handle_error_event_tests_request_code :
  Xlib.error_code bad_window_on_reparent = Xlib.BadWindow
  /\ logs (fst (handle_error_event xclock_app_verbose "BadWindow"
                  bad_window_on_reparent)) = true
  /\ Xlib.error_code bad_atom_on_get_property <> Xlib.BadWindow
  /\ handle_error_event xclock_app_verbose "BadAtom" bad_atom_on_get_property
     = ([], Return 0)
  /\ snd (handle_error_event xclock_app_verbose "BadWindow"
            bad_window_on_reparent) = Return 0.
Proof. repeat split; vm_compute; congruence. Qed.

(** ** Reasoning about processes *)

Lemma bind_Return {A B} (m : M A) (k : A -> M B) tr v :
  bind m k = (tr, Return v) ->
  exists t1 a t2, m = (t1, Return a) /\ k a = (t2, Return v) /\ tr = t1 ++ t2.
Proof.
  unfold bind. destruct m as [t1 [a| | |]]; [|discriminate..].
  destruct (k a) as [t2 o] eqn:Hk. intros [= <- ->]. by exists t1, a, t2.
Qed.

Lemma calls_only_bind {A B} P (m : M A) (k : A -> M B) :
  calls_only P m -> (forall a, calls_only P (k a)) -> calls_only P (bind m k).
Proof.
  unfold calls_only, bind. intros Hm Hk.
  destruct m as [t [a| | |]]; [|done..].
  specialize (Hk a). destruct (k a) as [t' o]. apply Forall_app. done.
Qed.

Lemma calls_only_ret {A} P (v : A) : calls_only P (ret v).
Proof. constructor. Qed.

Lemma calls_only_exit {A} P status : calls_only P (@exit A status).
Proof. constructor. Qed.

Lemma calls_only_emit P t : Forall P t -> calls_only P (emit t).
Proof. done. Qed.

Lemma calls_only_pm_assert P condition fmt args :
  Forall P (pm_fprintf "pmdock (ERROR): " fmt args) ->
  calls_only P (pm_assert condition fmt args).
Proof.
  intros H. unfold pm_assert. destruct condition; [constructor|].
  apply calls_only_bind; [done | intros; constructor].
Qed.

(** ** The configuration *)

Lemma pm_error_config fmt args :
  Forall (fun c => is_config_call c = true) (pm_error fmt args).
Proof. by repeat constructor. Qed.

Lemma exit_usage_config {A} status : config_calls (@exit_usage A status).
Proof. by repeat constructor. Qed.

Lemma error_usage_config {A} fmt args :
  config_calls (emit (pm_error fmt args) ;;; @exit_usage A 1).
Proof. by repeat constructor. Qed.

Lemma parse_tile_config w s kind : config_calls (parse_tile w s kind).
Proof.
  unfold parse_tile.
  destruct (pending_command s); [|apply error_usage_config].
  destruct (String.eqb kind "dockapp").
  { destruct (pending_resname s); [constructor | apply error_usage_config]. }
  destruct (String.eqb kind "launcher"); [|apply error_usage_config].
  destruct (pending_icon s) as [path|]; [|apply error_usage_config].
  destruct (negb _); by repeat constructor.
Qed.

(** What one turn of the second pass can do. *)
Lemma parse_tile_cases w s kind :
  (exists t status, parse_tile w s kind = (t, Exit status)
     /\ (pending_command s = None ->
         t = pm_error "Error: -t requires preceding -c to specify command" []
               ++ [fprintf_stderr "%s" [ArgS USAGE]]
         /\ status = 1))
  \/ (exists t f,
        parse_tile w s kind
        = (t, Return (next_tile (set_tiles (alter f (current_tile s)
                                              (tiles (parsed s))) (parsed s)) s))
        /\ is_Some (pending_command s)
        /\ forall old, window (f old) = window old
             /\ (is_Some (res_name (f old)) -> res_name old = None ->
                 type (f old) = TILE_TYPE_APP)).
Proof.
  unfold parse_tile.
  destruct (pending_command s) as [cmd|].
  2:{ left. by eexists _, _. }
  destruct (String.eqb kind "dockapp").
  { destruct (pending_resname s) as [name|].
    - right. exists [], (make_dockapp cmd name). split; [done|].
      split; [done|]. intros old. done.
    - left. eexists _, _. split; [reflexivity | discriminate]. }
  destruct (String.eqb kind "launcher").
  2:{ left. eexists _, _. split; [reflexivity | discriminate]. }
  destruct (pending_icon s) as [path|].
  2:{ left. eexists _, _. split; [reflexivity | discriminate]. }
  destruct (negb (bool_decide (load_image w path = 0))) eqn:Hload.
  - right. exists [imlib_load_image path],
      (make_launcher cmd (load_image w path)).
    unfold bind, emit, pm_assert, ret. cbn.
    split; [done|]. split; [done|]. intros old. split; [done|].
    cbn. intros [name Hname] Hold. congruence.
  - left. unfold bind, emit, pm_assert, ret, exit. cbn.
    eexists _, _. split; [reflexivity | discriminate].
Qed.

Lemma parse_opt_type w s o :
  opt o = "t"%char -> parse_opt w s o = parse_tile w s (optarg o).
Proof. unfold parse_opt. by intros ->. Qed.

Lemma parse_opt_other w s o :
  opt o <> "t"%char ->
  config_calls (parse_opt w s o)
  /\ ((exists t status, parse_opt w s o = (t, Exit status))
      \/ (exists s',
            parse_opt w s o = ([], Return s')
            /\ tiles (parsed s') = tiles (parsed s)
            /\ current_tile s' = current_tile s
            /\ pending_command s'
               = if bool_decide (opt o = "c"%char) then Some (optarg o)
                 else pending_command s)).
Proof.
  unfold parse_opt. intros Ht.
  destruct (opt o) as [[] [] [] [] [] [] [] []]; try (by destruct Ht);
    first [ rewrite (bool_decide_eq_true_2 _ eq_refl)
          | rewrite bool_decide_eq_false_2 by discriminate ];
    try destruct (_ <=? 0);
    (split;
     [ first [ by constructor | apply exit_usage_config
             | apply error_usage_config ]
     | first [ right; eexists; by repeat split | left; by eexists _, _ ] ]).
Qed.

(** One turn of the second pass ends the run or goes on with the pending
    command the option leaves. *)
Lemma parse_opt_pending w s o :
  config_calls (parse_opt w s o)
  /\ ((exists t status, parse_opt w s o = (t, Exit status)
         /\ (opt o = "t"%char -> pending_command s = None ->
             t = pm_error "Error: -t requires preceding -c to specify command"
                   [] ++ [fprintf_stderr "%s" [ArgS USAGE]]
             /\ status = 1))
      \/ (exists t s',
            parse_opt w s o = (t, Return s')
            /\ (opt o = "t"%char -> is_Some (pending_command s))
            /\ pending_command s'
               = if bool_decide (opt o = "t"%char) then None
                 else if bool_decide (opt o = "c"%char) then Some (optarg o)
                 else pending_command s)).
Proof.
  destruct (decide (opt o = "t"%char)) as [Ht|Ht].
  - rewrite (parse_opt_type _ _ _ Ht), (bool_decide_eq_true_2 _ Ht).
    split; [apply parse_tile_config|].
    destruct (parse_tile_cases w s (optarg o))
      as [(t & status & -> & Hmsg) | (t & f & -> & Hcmd & _)].
    + left. exists t, status. auto.
    + right. eexists _, _. split; [reflexivity|]. by split.
  - rewrite (bool_decide_eq_false_2 _ Ht).
    destruct (parse_opt_other w s o Ht) as [Hcalls Hcases].
    split; [exact Hcalls|].
    destruct Hcases as [(t & status & ->) | (s' & -> & _ & _ & Hpending)].
    + left. exists t, status. split; [done|]. by intros ?.
    + right. exists [], s'. split; [done|]. by split.
Qed.

Lemma parse_loop_config w opts s : config_calls (parse_loop w opts s).
Proof.
  revert s. induction opts as [|o opts IH]; intros s; [constructor|].
  cbn [parse_loop]. apply calls_only_bind; [|done].
  apply parse_opt_pending.
Qed.




Lemma parse_start_inv n : parse_inv (parse_start n).
Proof.
  split; cbn.
  - apply Forall_replicate. split; [done|]. by intros [? [=]].
  - by intros j t _ [-> _]%lookup_replicate.
Qed.

Lemma parse_opt_inv w s o t s' :
  parse_inv s -> parse_opt w s o = (t, Return s') -> parse_inv s'.
Proof.
  intros [Hcfg Hfresh] Hopt.
  destruct (decide (opt o = "t"%char)) as [Ht|Ht].
  - rewrite (parse_opt_type _ _ _ Ht) in Hopt.
    destruct (parse_tile_cases w s (optarg o))
      as [(? & ? & Heq & _) | (? & f & Heq & _ & Hf)];
      rewrite Heq in Hopt; [done|]. injection Hopt as _ <-.
    split; cbn.
    + apply Forall_alter; [done|]. intros old Hold [Hw Hname].
      destruct (Hf old) as [Hfw Hfn]. split; [congruence|].
      intros Hsome. apply Hfn; [done|]. by apply (Hfresh (current_tile s)).
    + intros j tl Hj. rewrite list_lookup_alter_ne by lia.
      apply Hfresh. lia.
  - destruct (parse_opt_other w s o Ht)
      as [_ [(? & ? & Heq) | (s1 & Heq & Htiles & Hcur & _)]];
      rewrite Heq in Hopt; [done|]. injection Hopt as _ <-.
    unfold parse_inv. by rewrite Htiles, Hcur.
Qed.

Lemma parse_loop_inv w opts s t s' :
  parse_inv s -> parse_loop w opts s = (t, Return s') -> parse_inv s'.
Proof.
  revert s t. induction opts as [|o opts IH]; intros s t Hinv.
  { by intros [= _ <-]. }
  cbn [parse_loop].
  intros (t1 & s1 & t2 & Hopt & Hrest & _)%bind_Return.
  eapply IH; [|exact Hrest]. by eapply parse_opt_inv.
Qed.

Lemma parse_opts_config w opts : config_calls (parse_opts w opts).
Proof.
  unfold parse_opts.
  apply calls_only_bind.
  { case_bool_decide; [|constructor].
    apply calls_only_pm_assert. by repeat constructor. }
  intros _. apply calls_only_bind; [apply parse_loop_config|].
  intros s. case_bool_decide; [apply error_usage_config|].
  apply calls_only_bind; [by repeat constructor|]. intros _.
  apply calls_only_bind; [|intros; constructor].
  apply calls_only_pm_assert. by repeat constructor.
Qed.

Lemma parse_opts_configured w opts t a :
  parse_opts w opts = (t, Return a) -> Forall tile_configured (tiles a).
Proof.
  unfold parse_opts.
  intros (t0 & [] & t1 & _ & Hrest & _)%bind_Return.
  apply bind_Return in Hrest as (t2 & s & t3 & Hloop & Hrest & _).
  apply parse_loop_inv in Hloop as [Hcfg _]; [|apply parse_start_inv].
  case_bool_decide; [done|].
  apply bind_Return in Hrest as (? & [] & ? & _ & Hrest & _).
  apply bind_Return in Hrest as (? & [] & ? & _ & Hrest & _).
  by injection Hrest as _ <-.
Qed.



Lemma count_tiles_app opts1 opts2 :
  count_tiles (opts1 ++ opts2) = (count_tiles opts1 + count_tiles opts2)%nat.
Proof. unfold count_tiles. by rewrite filter_app, length_app. Qed.

(** ** The startup *)

Lemma passive_no_handshake t :
  passive t -> Forall (fun c => is_handshake c = false) t.
Proof. apply passive_free_of. by intros []. Qed.

(** One step in showing that a process makes no handshake call. *)
Ltac handshake_free :=
  match goal with
  | |- no_handshake _ => unfold no_handshake
  | |- calls_only _ (bind _ _) => apply calls_only_bind; [|intros ?]
  | |- calls_only _ (pm_assert _ _ _) => apply calls_only_pm_assert
  | |- calls_only _ (emit _) => apply calls_only_emit
  | |- calls_only _ (ret _) => apply calls_only_ret
  | |- calls_only _ (exit _) => apply calls_only_exit
  | |- calls_only _ (if ?b then _ else _) => destruct b
  | |- calls_only _ (_, _) => unfold calls_only; cbn [fst]
  | |- Forall _ (pm_debug _ _ _) => apply passive_no_handshake, pm_debug_passive
  | |- Forall _ (_ ++ _) => apply Forall_app; split
  | |- Forall _ (if ?b then _ else _) => destruct b
  | |- Forall _ _ => by repeat constructor
  end.

Lemma Forall_concat_imap {A B} (P : B -> Prop) (f : nat -> A -> list B) l :
  (forall i v, Forall P (f i v)) -> Forall P (concat (imap f l)).
Proof.
  intros Hf. revert f Hf. induction l as [|v l IH]; intros f Hf; [constructor|].
  rewrite imap_cons. cbn [concat]. apply Forall_app. split; [apply Hf|].
  apply IH. intros i. apply Hf.
Qed.

Lemma daemonize_no_handshake w a : no_handshake (daemonize w a).
Proof.
  unfold daemonize.
  repeat handshake_free.
Qed.

Lemma setup_display_no_handshake w a : no_handshake (setup_display w a).
Proof.
  unfold setup_display.
  repeat handshake_free.
Qed.

Lemma setup_display_tiles w a t a' :
  setup_display w a = (t, Return a') -> tiles a' = tiles a.
Proof.
  unfold setup_display, pm_assert. destruct (negb _); [|done].
  by intros [= _ <-].
Qed.

Lemma create_dock_window_no_handshake w a :
  no_handshake (create_dock_window w a).
Proof.
  unfold create_dock_window, set_wm_class_hint, set_wm_above_hint,
    set_wm_desktop_hint.
  repeat handshake_free.
Qed.

Lemma create_dock_window_tiles w a t a' :
  create_dock_window w a = (t, Return a') -> tiles a' = tiles a.
Proof.
  unfold create_dock_window, set_wm_class_hint, pm_assert.
  destruct (class_hint_ok w); [|done]. by intros [= _ <-].
Qed.

Lemma create_launchers_no_handshake w a :
  Forall (fun c => is_handshake c = false) (snd (create_launchers w a)).
Proof.
  cbn [create_launchers snd]. apply Forall_concat_imap. intros i t.
  case_bool_decide; [|constructor].
  apply Forall_app. split; [by repeat constructor|].
  apply passive_no_handshake, pm_debug_passive.
Qed.

Lemma create_launchers_ready w a :
  Forall tile_configured (tiles a) ->
  Forall tile_ready (tiles (fst (create_launchers w a))).
Proof.
  intros Hcfg. cbn [create_launchers fst tiles set_tiles].
  apply Forall_lookup. intros i t'.
  rewrite list_lookup_imap. destruct (tiles a !! i) as [t|] eqn:Hi; [|done].
  intros [= <-]. apply (Forall_lookup_1 _ _ _ _ Hcfg) in Hi as [Hw Hname].
  case_bool_decide as Hty; [|by split].
  split; [done|]. cbn. congruence.
Qed.

Lemma start_dockapps_from_no_handshake w a i ts :
  no_handshake (start_dockapps_from w a i ts).
Proof.
  revert i. induction ts as [|t ts IH]; intros i; [constructor|].
  cbn [start_dockapps_from].
  apply calls_only_bind; [|intros t'; apply calls_only_bind;
                            [apply IH | intros; constructor]].
  case_bool_decide; [|constructor].
  repeat handshake_free.
Qed.

Lemma start_dockapps_from_ready w a i ts t ts' :
  start_dockapps_from w a i ts = (t, Return ts') ->
  Forall tile_ready ts -> Forall tile_ready ts'.
Proof.
  revert i t ts'. induction ts as [|tl ts IH]; intros i t ts'.
  { by intros [= _ <-]. }
  cbn [start_dockapps_from].
  intros (t1 & tl' & t2 & Htl & Hrest & _)%bind_Return.
  apply bind_Return in Hrest as (t3 & rest & ? & Hrest & [= _ <-] & _).
  intros [Hready Hothers]%Forall_cons. constructor; [|by eapply IH].
  case_bool_decide; [|by injection Htl as _ <-].
  apply bind_Return in Htl as (? & [] & ? & _ & Htl & _).
  apply bind_Return in Htl as (? & [] & ? & _ & Htl & _).
  apply bind_Return in Htl as (? & [] & ? & _ & Htl & _).
  apply bind_Return in Htl as (? & [] & ? & _ & Htl & _).
  by injection Htl as _ <-.
Qed.

Lemma startup_no_handshake w opts : no_handshake (startup w opts).
Proof.
  unfold startup.
  apply calls_only_bind.
  { eapply Forall_impl; [apply parse_opts_config|]. by intros []. }
  intros a0. apply calls_only_bind.
  { destruct (daemon_mode a0); [apply daemonize_no_handshake | constructor]. }
  intros _. apply calls_only_bind; [by repeat constructor|].
  intros _. apply calls_only_bind; [apply setup_display_no_handshake|].
  intros a1. apply calls_only_bind; [apply create_dock_window_no_handshake|].
  intros a2. apply calls_only_bind; [apply create_launchers_no_handshake|].
  intros _. apply calls_only_bind; [by repeat constructor|].
  intros _. unfold start_dockapps.
  apply calls_only_bind; [apply start_dockapps_from_no_handshake|].
  intros; constructor.
Qed.

Lemma startup_ready w opts t a :
  startup w opts = (t, Return a) ->
  Forall tile_ready (tiles a)
  /\ exists a0 t0, parse_opts w opts = (t0, Return a0)
       /\ daemon_mode a = daemon_mode a0.
Proof.
  unfold startup.
  intros (t0 & a0 & ? & Hparse & Hrest & _)%bind_Return.
  apply bind_Return in Hrest as (? & [] & ? & _ & Hrest & _).
  apply bind_Return in Hrest as (? & [] & ? & _ & Hrest & _).
  apply bind_Return in Hrest as (? & a1 & ? & Hdisplay & Hrest & _).
  apply bind_Return in Hrest as (? & a2 & ? & Hdock & Hrest & _).
  apply bind_Return in Hrest as (? & [] & ? & _ & Hrest & _).
  apply bind_Return in Hrest as (? & [] & ? & _ & Hrest & _).
  unfold start_dockapps in Hrest.
  apply bind_Return in Hrest as (? & ts & ? & Hstart & [= _ <-] & _).
  apply parse_opts_configured in Hparse as Hcfg.
  rewrite <- (setup_display_tiles _ _ _ _ Hdisplay),
    <- (create_dock_window_tiles _ _ _ _ Hdock) in Hcfg.
  apply (create_launchers_ready w) in Hcfg.
  apply start_dockapps_from_ready in Hstart; [|done].
  split; [done|]. exists a0, t0. split; [done|].
  cbn.
  unfold setup_display, pm_assert in Hdisplay.
  destruct (negb _) in Hdisplay; [|done]. injection Hdisplay as _ <-.
  unfold create_dock_window, set_wm_class_hint, pm_assert in Hdock.
  destruct (class_hint_ok w) in Hdock; [|done]. by injection Hdock as _ <-.
Qed.

(** ** The event loop up to and after the last swallow *)

Lemma check_all_dockapps_swallowed_spec a :
  check_all_dockapps_swallowed a = true
  <-> Forall (fun t => type t = TILE_TYPE_APP -> window t <> 0) (tiles a).
Proof.
  unfold check_all_dockapps_swallowed.
  induction (tiles a) as [|t ts IH]; [done|].
  cbn [forallb]. rewrite andb_true_iff, Forall_cons, IH.
  unfold unfilled_dockapp. rewrite negb_true_iff, andb_false_iff,
    !bool_decide_eq_false. intuition.
  destruct (decide (type t = TILE_TYPE_APP)); [right|left]; auto.
Qed.

(** With every dockapp tile filled, no tile takes a new window. *)
Lemma all_swallowed_no_match a name :
  Forall tile_named (tiles a) ->
  check_all_dockapps_swallowed a = true ->
  list_find (tile_accepts name) (tiles a) = None.
Proof.
  intros Hnamed Hall%check_all_dockapps_swallowed_spec.
  apply list_find_None, Forall_forall. intros t Ht Hacc.
  apply Is_true_true, tile_accepts_spec in Hacc as [Hw Hname].
  rewrite Forall_forall in Hnamed, Hall.
  apply (Hall t Ht); [|done]. apply (Hnamed t Ht). by rewrite Hname.
Qed.

(** The calls of a swallow that finds its icon window, up to its end. *)
Lemma swallow_dockapp_completion r main_window index a :
  let icon_window := fst (get_icon_window_waiting r a main_window) in
  let a' := fst (swallow_dockapp r main_window index a) in
  icon_window <> XNone ->
  exists body log,
    snd (swallow_dockapp r main_window index a)
    = body ++ [XMapRaised main_window; XMapRaised icon_window; XFlush]
        ++ log
        ++ (if check_all_dockapps_swallowed a'
            then [XSelectInput (root_window a') 0]
                   ++ (if daemon_mode a' then [kill Parent SIGUSR1] else [])
            else [])
    /\ passive log
    /\ free_of is_handshake body.
Proof.
  intros icon_window a' Hicon. subst a'.
  rewrite swallow_dockapp_state. fold icon_window.
  rewrite bool_decide_eq_false_2 by done. subst icon_window.
  unfold swallow_dockapp.
  pose proof (check_window_manager_passive r a) as Hwm.
  destruct (check_window_manager r a) as [wm_running t_wm].
  pose proof (get_icon_window_waiting_passive r a main_window) as Hdisc.
  destruct (get_icon_window_waiting r a main_window) as [icon_window t_icon].
  cbn [fst snd] in *.
  rewrite bool_decide_eq_false_2 by done.
  set (a' := set_tiles _ a).
  pose proof (get_window_size_passive r a' icon_window) as Hsize.
  destruct (get_window_size r a' icon_window) as [size t_size].
  cbn [fst snd] in *.
  set (icon_x := icon_offset a' _ (width size)).
  set (icon_y := icon_offset a' _ (height size)).
  set (main_x := if horizontal a' then icon_x else _).
  set (main_y := if horizontal a' then _ else icon_y).
  set (t_swallowed := pm_debug a' "Swallowed window 0x%lx at %ux%u" _).
  set (t_enter := pm_debug a _ _).
  set (t_wait := if wm_running then pm_warn _ _ ++ _ else []).
  set (t_workaround := if wm_running then _ :: _ else []).
  exists (t_enter ++ t_wm ++ t_wait ++ t_icon
            ++ [XSetWindowBorderWidth icon_window 0] ++ t_size
            ++ t_workaround
            ++ [XReparentWindow main_window (dock_window a') main_x main_y;
                XReparentWindow icon_window (dock_window a') icon_x icon_y]),
    (t_swallowed
       ++ if check_all_dockapps_swallowed a'
          then pm_debug a' "All dockapps swallowed" [] else []).
  split; [|split].
  - clearbody t_enter t_wait t_workaround t_swallowed main_x main_y icon_x
      icon_y.
    destruct (check_all_dockapps_swallowed a');
      rewrite <- ?(assoc_L (++)); simpl; by rewrite ?(right_id_L [] (++)).
  - apply passive_app. split; [apply pm_debug_passive|].
    destruct (check_all_dockapps_swallowed a');
      [apply pm_debug_passive | constructor].
  - rewrite !free_of_app. repeat split.
    + apply passive_no_handshake, pm_debug_passive.
    + by apply passive_no_handshake.
    + subst t_wait. destruct wm_running; [|constructor].
      apply passive_no_handshake, passive_app.
      split; [apply pm_warn_passive | by repeat constructor].
    + by apply passive_no_handshake.
    + by repeat constructor.
    + by apply passive_no_handshake.
    + subst t_workaround. destruct wm_running; by repeat constructor.
    + by repeat constructor.
Qed.

(** Traces built from queries, pauses and messages are passive. *)
Ltac solve_passive :=
  unfold passive;
  repeat match goal with
  | |- Forall _ (pm_debug _ _ _) => apply pm_debug_passive
  | |- Forall _ (pm_warn _ _) => apply pm_warn_passive
  | |- Forall _ (_ ++ _) => apply Forall_app; split
  | |- Forall _ (_ :: _) => constructor; [reflexivity|]
  | |- Forall _ [] => constructor
  | H : passive ?t |- Forall _ ?t => exact H
  end.

Lemma passive_quiet t : passive t -> Forall quiet_call t.
Proof.
  intros Ht. eapply Forall_impl; [exact Ht|]. by intros [].
Qed.

Lemma Forall_quiet_call t :
  Forall quiet_call t <-> free_of is_handshake t /\ free_of is_reparent_or_map t.
Proof. apply Forall_and. Qed.

Lemma handle_expose_event_quiet r w a :
  Forall quiet_call (handle_expose_event r w a).
Proof.
  unfold handle_expose_event. apply Forall_concat_imap. intros i t.
  repeat (match goal with |- context [if ?b then _ else _] => destruct b end);
    by repeat constructor.
Qed.

Lemma handle_button_press_event_quiet r w a :
  calls_only quiet_call (handle_button_press_event r w a).
Proof.
  unfold handle_button_press_event.
  destruct (list_find _ (tiles a)) as [[i t]|]; [|constructor].
  apply calls_only_bind; [by repeat constructor|]. intros _.
  case_bool_decide; [|constructor].
  apply calls_only_bind; [by repeat constructor|]. intros _.
  destruct (execl_returns r); [|constructor].
  apply calls_only_pm_assert. by repeat constructor.
Qed.

Lemma tiles_named_alter icon_window i ts :
  Forall tile_named ts -> Forall tile_named (alter (set_window icon_window) i ts).
Proof. intros Hnamed. apply Forall_alter; [done|]. by intros t _ Ht. Qed.

Lemma dispatch_named e a tr a' :
  dispatch e a = (tr, Return a') ->
  Forall tile_named (tiles a) -> Forall tile_named (tiles a').
Proof.
  intros [-> | (i & t & icon_window & _ & _ & _ & ->)]%dispatch_state;
    [done|].
  apply tiles_named_alter.
Qed.

(** Once every dockapp tile is filled, an event changes nothing and causes
    neither a handshake nor a reparent or map, however its handler ends. *)
Lemma dispatch_quiet e a :
  Forall tile_named (tiles a) ->
  check_all_dockapps_swallowed a = true ->
  calls_only quiet_call (dispatch e a)
  /\ forall tr a', dispatch e a = (tr, Return a') -> a' = a.
Proof.
  intros Hnamed Hall. destruct e as [[w|w|w|] r]; cbn [dispatch].
  - unfold handle_create_event.
    destruct (class_hint r w) as [hint|].
    2:{ split; [by repeat constructor | by intros ?? [= _ <-]]. }
    rewrite (all_swallowed_no_match _ _ Hnamed Hall).
    split; [|by intros ?? [= _ <-]].
    unfold calls_only. cbn [fst]. apply passive_quiet. solve_passive.
  - split; [apply handle_expose_event_quiet | by intros ?? [= _ <-]].
  - split.
    + apply calls_only_bind;
        [apply handle_button_press_event_quiet | constructor].
    + by intros tr a' (? & [] & ? & _ & [= _ <-] & _)%bind_Return.
  - split; [constructor | by intros ?? [= _ <-]].
Qed.

Lemma event_loop_quiet events a :
  Forall tile_named (tiles a) ->
  check_all_dockapps_swallowed a = true ->
  calls_only quiet_call (event_loop events a)
  /\ forall tr a', event_loop events a = (tr, Return a') -> a' = a.
Proof.
  intros Hnamed Hall. induction events as [|e events [IHcalls IHstate]].
  { split; [constructor | by intros ?? [= _ <-]]. }
  destruct (dispatch_quiet e a Hnamed Hall) as [Hcalls Hstate].
  cbn [event_loop]. split.
  - unfold calls_only, bind in *.
    destruct (dispatch e a) as [t1 [a1| | |]]; [|done..].
    rewrite (Hstate t1 a1 eq_refl).
    destruct (event_loop events a) as [t2 o]. by apply Forall_app.
  - intros tr a' (t1 & a1 & t2 & He & Hrest & _)%bind_Return.
    rewrite (Hstate _ _ He) in Hrest. by eapply IHstate.
Qed.

(** An event before that: it leaves the state alone and makes no handshake,
    or it is a creation event that fills the first tile that accepts it. *)
Lemma dispatch_progress e a tr a' :
  dispatch e a = (tr, Return a') ->
  (a' = a /\ free_of is_handshake tr)
  \/ (exists i t main_window icon_window body log,
        tiles a !! i = Some t
        /\ is_Some (res_name t)
        /\ a' = set_tiles (alter (set_window icon_window) i (tiles a)) a
        /\ tr = body
                  ++ [XMapRaised main_window; XMapRaised icon_window; XFlush]
                  ++ log
                  ++ (if check_all_dockapps_swallowed a'
                      then [XSelectInput (root_window a') 0]
                             ++ (if daemon_mode a'
                                 then [kill Parent SIGUSR1] else [])
                      else [])
                  ++ [XFree; XFree]
        /\ passive log
        /\ free_of is_handshake body).
Proof.
  destruct e as [[w|w|w|] r]; cbn [dispatch].
  - unfold handle_create_event.
    destruct (class_hint r w) as [hint|].
    2:{ intros [= <- <-]. left. split; [done | by repeat constructor]. }
    destruct (list_find _ (tiles a)) as [[i t]|] eqn:Hfind.
    2:{ intros [= <- <-]. left. split; [done|].
        apply passive_no_handshake. solve_passive. }
    apply list_find_accepts in Hfind as (Hi & Hacc & _).
    apply tile_accepts_spec in Hacc as [Hw Hname].
    pose proof (swallow_dockapp_state r w i a) as Hstate.
    pose proof (swallow_dockapp_aborted r w i a) as Habort.
    pose proof (swallow_dockapp_completion r w i a) as Hdone.
    cbv zeta in Hstate, Hdone.
    destruct (swallow_dockapp r w i a) as [a1 t1]. cbn [fst snd] in *.
    intros [= <- <-].
    case_bool_decide as Hicon.
    + left. split; [done|]. apply passive_no_handshake.
      specialize (Habort Hicon). solve_passive.
    + right. destruct (Hdone Hicon) as (body & log & -> & Hlog & Hbody).
      exists i, t, w, (fst (get_icon_window_waiting r a w)),
        (([XGetClassHint w]
            ++ pm_debug a "Created window 0x%lx with res_name '%s'"
                 [ArgZ w; ArgS (Xlib.res_name hint)]) ++ body), log.
      split; [done|]. split; [by rewrite Hname|]. split; [done|].
      split; [by rewrite <- !(assoc_L (++))|]. split; [done|].
      rewrite !free_of_app. repeat split; [by repeat constructor| |done].
      apply passive_no_handshake, pm_debug_passive.
  - intros [= <- <-]. left. split; [done|].
    by apply Forall_quiet_call, handle_expose_event_quiet.
  - intros Hpress. left.
    pose proof (handle_button_press_event_quiet r w a) as Hquiet.
    apply bind_Return in Hpress as (t1 & [] & ? & Hpress & [= <- <-] & ->).
    rewrite Hpress in Hquiet. split; [done|].
    rewrite (right_id_L [] (++)). by apply Forall_quiet_call.
  - intros [= <- <-]. left. split; [done | constructor].
Qed.

Lemma event_loop_named events a tr a' :
  event_loop events a = (tr, Return a') ->
  Forall tile_named (tiles a) -> Forall tile_named (tiles a').
Proof.
  revert a tr. induction events as [|e events IH]; intros a tr.
  { by intros [= _ <-]. }
  intros (t1 & a1 & t2 & He & Hrest & _)%event_loop_cons Hnamed.
  eapply IH; [exact Hrest|]. by eapply dispatch_named.
Qed.

(** From the first state with an unfilled dockapp tile to the first one
    without: the trace, split at the end of the last swallow. *)
Lemma event_loop_progress events a tr a' :
  Forall tile_named (tiles a) ->
  check_all_dockapps_swallowed a = false ->
  event_loop events a = (tr, Return a') ->
  check_all_dockapps_swallowed a' = true ->
  exists tr1 main_window icon_window log tr2,
    tr = tr1 ++ [XMapRaised main_window; XMapRaised icon_window; XFlush]
           ++ log
           ++ [XSelectInput (root_window a') 0]
           ++ (if daemon_mode a' then [kill Parent SIGUSR1] else [])
           ++ tr2
    /\ passive log
    /\ free_of is_handshake tr1
    /\ Forall quiet_call tr2
    /\ exists t, t ∈ tiles a' /\ type t = TILE_TYPE_APP
                 /\ window t = icon_window.
Proof.
  revert a tr. induction events as [|e events IH]; intros a tr Hnamed Hnot.
  { intros [= _ <-] Hall. congruence. }
  intros (t1 & a1 & t2 & He & Hrest & ->)%event_loop_cons Hall.
  pose proof (dispatch_named _ _ _ _ He Hnamed) as Hnamed1.
  assert (check_all_dockapps_swallowed a1 = false ->
          free_of is_handshake t1 ->
          exists tr1 main_window icon_window log tr2,
            t1 ++ t2
            = tr1 ++ [XMapRaised main_window; XMapRaised icon_window; XFlush]
                ++ log
                ++ [XSelectInput (root_window a') 0]
                ++ (if daemon_mode a' then [kill Parent SIGUSR1] else [])
                ++ tr2
            /\ passive log
            /\ free_of is_handshake tr1
            /\ Forall quiet_call tr2
            /\ exists t, t ∈ tiles a' /\ type t = TILE_TYPE_APP
                         /\ window t = icon_window) as Hlater.
  { intros Hnot1 Hfree.
    destruct (IH a1 t2 Hnamed1 Hnot1 Hrest Hall)
      as (tr1 & main_window & icon_window & log & tr2 & -> & Hlog & Hfree1
          & Hquiet & Htile).
    exists (t1 ++ tr1), main_window, icon_window, log, tr2.
    split; [by rewrite <- (assoc_L (++))|]. split; [done|].
    split; [by apply free_of_app|]. done. }
  destruct (dispatch_progress _ _ _ _ He)
    as [[-> Hfree] | (i & t & main_window & icon_window & body & log & Hi
                      & Hname & Ha1 & -> & Hlog & Hbody)].
  { by apply Hlater. }
  destruct (check_all_dockapps_swallowed a1) eqn:Hall1.
  2:{ apply Hlater; [done|]. rewrite !free_of_app. repeat split; try done.
      - by repeat constructor.
      - by apply passive_no_handshake.
      - constructor.
      - by repeat constructor. }
  destruct (event_loop_quiet events a1 Hnamed1 Hall1) as [Hcalls Hstate].
  pose proof (Hstate _ _ Hrest) as ->.
  rewrite Hrest in Hcalls.
  exists body, main_window, icon_window, log, ([XFree; XFree] ++ t2).
  split; [by rewrite <- !(assoc_L (++))|]. split; [done|]. split; [done|].
  split; [apply Forall_app; split; [by repeat constructor | done]|].
  exists (set_window icon_window t). subst a1. cbn [tiles set_tiles].
  split; [|split; [|done]].
  - apply list_elem_of_lookup. exists i.
    by rewrite list_lookup_alter_eq, Hi.
  - cbn. by apply (Forall_lookup_1 _ _ _ _ Hnamed Hi).
Qed.

Lemma event_loop_tile_back events a tr a' j t' :
  event_loop events a = (tr, Return a') -> tiles a' !! j = Some t' ->
  exists t, tiles a !! j = Some t /\ type t' = type t
            /\ res_name t' = res_name t.
Proof.
  revert a tr. induction events as [|e events IH]; intros a tr.
  { intros [= _ <-] Hj. by exists t'. }
  intros (t1 & a1 & t2 & He & Hrest & _)%event_loop_cons Hj.
  destruct (IH _ _ Hrest Hj) as (tl & Hj1 & Hty & Hname).
  apply dispatch_state in He
    as [-> | (i & ti & icon_window & Hi & _ & _ & ->)]; [by exists tl|].
  cbn [tiles set_tiles] in Hj1. rewrite list_lookup_alter in Hj1.
  case_decide as Hij; [|by exists tl]. subst j. rewrite Hi in Hj1.
  injection Hj1 as <-. exists ti. by rewrite Hty, Hname.
Qed.

(** ** Launchers only *)

Lemma create_launchers_types w a :
  type <$> tiles (fst (create_launchers w a)) = type <$> tiles a.
Proof.
  cbn [create_launchers fst tiles set_tiles]. apply list_eq. intros i.
  rewrite !list_lookup_fmap, list_lookup_imap.
  destruct (tiles a !! i) as [t|]; [|done]. cbn. by case_bool_decide.
Qed.

Lemma start_dockapps_from_types w a i ts t ts' :
  start_dockapps_from w a i ts = (t, Return ts') ->
  type <$> ts' = type <$> ts.
Proof.
  revert i t ts'. induction ts as [|tl ts IH]; intros i t ts'.
  { by intros [= _ <-]. }
  cbn [start_dockapps_from].
  intros (t1 & tl' & t2 & Htl & Hrest & _)%bind_Return.
  apply bind_Return in Hrest as (t3 & rest & ? & Hrest & [= _ <-] & _).
  rewrite !fmap_cons, (IH _ _ _ Hrest). f_equal.
  case_bool_decide; [|by injection Htl as _ <-].
  apply bind_Return in Htl as (? & [] & ? & _ & Htl & _).
  apply bind_Return in Htl as (? & [] & ? & _ & Htl & _).
  apply bind_Return in Htl as (? & [] & ? & _ & Htl & _).
  apply bind_Return in Htl as (? & [] & ? & _ & Htl & _).
  by injection Htl as _ <-.
Qed.

(** The tiles keep the types of the configuration through the startup. *)
Lemma startup_types w opts t a t0 cfg :
  startup w opts = (t, Return a) -> parse_opts w opts = (t0, Return cfg) ->
  type <$> tiles a = type <$> tiles cfg /\ daemon_mode a = daemon_mode cfg.
Proof.
  unfold startup. intros Hstart Hparse. rewrite Hparse in Hstart.
  apply bind_Return in Hstart as (? & a0 & ? & [= _ <-] & Hrest & _).
  apply bind_Return in Hrest as (? & [] & ? & _ & Hrest & _).
  apply bind_Return in Hrest as (? & [] & ? & _ & Hrest & _).
  apply bind_Return in Hrest as (? & a1 & ? & Hdisplay & Hrest & _).
  apply bind_Return in Hrest as (? & a2 & ? & Hdock & Hrest & _).
  apply bind_Return in Hrest as (? & [] & ? & _ & Hrest & _).
  apply bind_Return in Hrest as (? & [] & ? & _ & Hrest & _).
  unfold start_dockapps in Hrest.
  apply bind_Return in Hrest as (? & ts & ? & Hstart & [= _ <-] & _).
  cbn [tiles set_tiles daemon_mode].
  rewrite (start_dockapps_from_types _ _ _ _ _ _ Hstart),
    create_launchers_types, (create_dock_window_tiles _ _ _ _ Hdock),
    (setup_display_tiles _ _ _ _ Hdisplay).
  split; [done|].
  unfold setup_display, pm_assert in Hdisplay.
  destruct (negb _) in Hdisplay; [|done]. injection Hdisplay as _ <-.
  unfold create_dock_window, set_wm_class_hint, pm_assert in Hdock.
  destruct (class_hint_ok w) in Hdock; [|done]. by injection Hdock as _ <-.
Qed.

Lemma filter_free_of kind t :
  free_of kind t -> filter (fun c => kind c = true) t = [].
Proof.
  intros Ht. induction Ht as [|c t Hc _ IH]; [done|].
  rewrite filter_cons_False by congruence. done.
Qed.

Lemma existsb_free_of kind t : free_of kind t -> existsb kind t = false.
Proof.
  intros Ht. induction Ht as [|c t Hc _ IH]; [done|].
  cbn. by rewrite Hc, IH.
Qed.

(** C10: when the configuration has launcher tiles only and daemon mode is
    on, no run of the program, over whatever events, sends the handshake
    signal, and the parent stays in [pause].  No creation event gets as far
    as [swallow_dockapp], the one place of the completion check: in the
    state the loop starts in no tile accepts any resource name, and no event
    changes that state. *)
Theorem launchers_only_no_handshake (w : world) (opts : list getopt_result)
    (events : list (XEvent * replies)) (t0 : list call) (cfg : app) :
  parse_opts w opts = (t0, Return cfg) ->
  daemon_mode cfg = true ->
  Forall (fun t => type t = TILE_TYPE_LAUNCHER) (tiles cfg) ->
  free_of is_handshake (fst (main w opts events))
  /\ (forall a, snd (daemon_parent a (fst (main w opts events))) = Paused)
  /\ (forall t1 a0, startup w opts = (t1, Return a0) ->
        daemon_mode a0 = true
        /\ (forall name, list_find (tile_accepts name) (tiles a0) = None)
        /\ forall tr a, event_loop events a0 = (tr, Return a) -> a = a0).
Proof.
  intros Hparse Hdaemon Hlaunchers.
  assert (forall t1 a0, startup w opts = (t1, Return a0) ->
            daemon_mode a0 = true /\ Forall tile_named (tiles a0)
            /\ check_all_dockapps_swallowed a0 = true) as Hstart.
  { intros t1 a0 Hstart.
    destruct (startup_types _ _ _ _ _ _ Hstart Hparse) as [Htypes Hmode].
    destruct (startup_ready _ _ _ _ Hstart) as [Hready _].
    split; [congruence|]. split.
    - eapply Forall_impl; [exact Hready|]. by intros t [Hname _].
    - apply check_all_dockapps_swallowed_spec, Forall_lookup.
      intros i t Hi Happ.
      assert ((type <$> tiles cfg) !! i = Some TILE_TYPE_APP) as Hcfg.
      { by rewrite <- Htypes, list_lookup_fmap, Hi, <- Happ. }
      rewrite list_lookup_fmap in Hcfg.
      destruct (tiles cfg !! i) as [tc|] eqn:Hc; [|done].
      apply (Forall_lookup_1 _ _ _ _ Hlaunchers) in Hc.
      cbn in Hcfg. congruence. }
  assert (free_of is_handshake (fst (main w opts events))) as Hfree.
  { pose proof (startup_no_handshake w opts) as Hcalls.
    unfold main, bind, no_handshake, calls_only in *.
    destruct (startup w opts) as [t1 [a0| | |]] eqn:Hs; [|done..].
    destruct (Hstart t1 a0 eq_refl) as (_ & Hnamed & Hall).
    destruct (event_loop_quiet events a0 Hnamed Hall) as [Hquiet _].
    unfold calls_only in Hquiet.
    destruct (event_loop events a0) as [t2 o]. cbn [fst] in *.
    apply free_of_app. split; [done|]. by apply Forall_quiet_call. }
  split; [done|]. split.
  - intros a. unfold daemon_parent. by rewrite (existsb_free_of _ _ Hfree).
  - intros t1 a0 Hs. destruct (Hstart t1 a0 Hs) as (Hmode & Hnamed & Hall).
    split; [done|]. split.
    + intros name. by apply all_swallowed_no_match.
    + by apply event_loop_quiet.
Qed.

(** ** The last swallow *)

(** C4: take a run that started with a dockapp tile and has them all filled
    at its end.  Its trace is, in this order: calls without a handshake; the
    map-raised calls and the flush that end a swallow, whose icon window is
    on a dockapp tile; messages; the call that stops listening on the root
    window; in daemon mode the one SIGUSR1 to the parent; and calls free of
    any handshake, reparent or map.  So the whole run sends the handshake
    exactly once in daemon mode, and never otherwise. *)
Theorem last_swallow_ends_listening (w : world) (opts : list getopt_result)
    (events : list (XEvent * replies)) (tr : list call) (a : app) :
  main w opts events = (tr, Return a) ->
  (exists t, t ∈ tiles a /\ type t = TILE_TYPE_APP) ->
  check_all_dockapps_swallowed a = true ->
  exists tr1 main_window icon_window log tr2,
    tr = tr1 ++ [XMapRaised main_window; XMapRaised icon_window; XFlush]
           ++ log
           ++ [XSelectInput (root_window a) 0]
           ++ (if daemon_mode a then [kill Parent SIGUSR1] else [])
           ++ tr2
    /\ passive log
    /\ free_of is_handshake tr1
    /\ free_of is_handshake tr2
    /\ free_of is_reparent_or_map tr2
    /\ (exists t, t ∈ tiles a /\ type t = TILE_TYPE_APP
                  /\ window t = icon_window)
    /\ length (filter (fun c => is_handshake c = true) tr)
       = if daemon_mode a then 1%nat else 0%nat.
Proof.
  unfold main.
  intros (t0 & a0 & t1 & Hstart & Hloop & ->)%bind_Return
    (t' & [j Hj]%list_elem_of_lookup & Happ) Hall.
  destruct (startup_ready _ _ _ _ Hstart) as [Hready _].
  pose proof (startup_no_handshake w opts) as Hcalls.
  unfold no_handshake, calls_only in Hcalls. rewrite Hstart in Hcalls.
  cbn [fst] in Hcalls.
  assert (Forall tile_named (tiles a0)) as Hnamed.
  { eapply Forall_impl; [exact Hready|]. by intros t [Hname _]. }
  assert (check_all_dockapps_swallowed a0 = false) as Hnot.
  { destruct (event_loop_tile_back _ _ _ _ _ _ Hloop Hj)
      as (t & Hj0 & Hty & _).
    destruct (check_all_dockapps_swallowed a0) eqn:Hall0; [|done].
    apply check_all_dockapps_swallowed_spec in Hall0.
    pose proof (Forall_lookup_1 _ _ _ _ Hall0 Hj0) as Hfilled.
    pose proof (Forall_lookup_1 _ _ _ _ Hready Hj0) as [_ Hunset].
    exfalso. apply Hfilled; [congruence|]. apply Hunset. congruence. }
  destruct (event_loop_progress _ _ _ _ Hnamed Hnot Hloop Hall)
    as (tr1 & main_window & icon_window & log & tr2 & -> & Hlog & Hfree1
        & [Hfree2 Hquiet2]%Forall_quiet_call & Htile).
  exists (t0 ++ tr1), main_window, icon_window, log, tr2.
  assert (free_of is_handshake (t0 ++ tr1)) as Hfree by by apply free_of_app.
  split; [by rewrite <- (assoc_L (++))|].
  do 5 (split; [done|]).
  rewrite !filter_app, !length_app.
  rewrite (filter_free_of _ t0), (filter_free_of _ tr1),
    (filter_free_of _ tr2), (filter_free_of _ log);
    [|by apply passive_no_handshake|done..].
  by destruct (daemon_mode a).
Qed.

Lemma launchers_only_no_handshake_witness :
  parse_opts good_world launcher_opts = (launcher_cfg_trace, Return launcher_cfg)
  /\ free_of is_handshake (fst (main good_world launcher_opts xclock_events)).
Proof.
  split; [reflexivity|].
  refine (proj1 (launchers_only_no_handshake good_world launcher_opts
                   xclock_events launcher_cfg_trace launcher_cfg _ _ _)).
  - reflexivity.
  - reflexivity.
  - by repeat constructor.
Defined.

Lemma last_swallow_ends_listening_witness :
  main good_world xclock_opts xclock_events
  = (xclock_run_trace, Return xclock_run_state)
  /\ length (filter (fun c => is_handshake c = true) xclock_run_trace) = 1%nat.
Proof.
  split; [reflexivity|].
  destruct (last_swallow_ends_listening good_world xclock_opts xclock_events
              xclock_run_trace xclock_run_state)
    as (tr1 & main_window & icon_window & log & tr2 & _ & _ & _ & _ & _ & _
        & Hcount).
  - reflexivity.
  - eexists. split; [apply list_elem_of_here | reflexivity].
  - reflexivity.
  - exact Hcount.
Defined.

(** * Further properties *)

(** ** Placement of a swallowed dockapp *)

Lemma filter_passive kind t :
  (forall c, is_passive c = true -> kind c = false) ->
  passive t -> filter (fun c => kind c = true) t = [].
Proof. intros Hkind Ht. by apply filter_free_of, passive_free_of. Qed.

(** X1: a swallow that finds an icon window no larger than the tile, on a
    tile whose far edge (index+1)*S is within an [int], and with 2*S within
    an [int] as well, reparents it centred in the tile: every reparent of the
    icon window is at the tile's position plus ((S-w)/2, (S-h)/2), with 0x0
    for the size when the geometry query fails.  The main window goes to the
    same offset along the layout axis and to 2*S across it.  With a window
    manager the pair of reparents occurs twice, and else once. *)
Theorem swallow_dockapp_centres_icon (r : replies) (a : app)
    (main_window : Window) (index : nat) :
  let icon_window := fst (get_icon_window_waiting r a main_window) in
  let sz := size_or_zero r icon_window in
  let pos := ideal_tile_position a (Z.of_nat index) in
  let icon_x := x pos + (tile_size a - width sz) / 2 in
  let icon_y := y pos + (tile_size a - height sz) / 2 in
  let main_x := if horizontal a then icon_x else 2 * tile_size a in
  let main_y := if horizontal a then 2 * tile_size a else icon_y in
  let pair := [XReparentWindow main_window (dock_window a) main_x main_y;
               XReparentWindow icon_window (dock_window a) icon_x icon_y] in
  icon_window <> XNone ->
  0 <= width sz <= tile_size a -> 0 <= height sz <= tile_size a ->
  0 < tile_size a ->
  (Z.of_nat index + 1) * tile_size a <= C.INT_MAX ->
  2 * tile_size a <= C.INT_MAX ->
  filter (fun c => is_reparent c = true)
    (snd (swallow_dockapp r main_window index a))
  = (if fst (check_window_manager r a) then pair else []) ++ pair.
Proof.
  intros icon_window sz pos icon_x icon_y main_x main_y pair Hicon Hw Hh HS
    Hmax Hpark.
  subst pair main_x main_y icon_x icon_y pos sz icon_window.
  unfold swallow_dockapp.
  pose proof (check_window_manager_passive r a) as Hwm.
  destruct (check_window_manager r a) as [wm_running t_wm].
  pose proof (get_icon_window_waiting_passive r a main_window) as Hdisc.
  destruct (get_icon_window_waiting r a main_window) as [icon_window t_icon].
  cbn [fst snd] in *.
  rewrite bool_decide_eq_false_2 by done.
  set (a' := set_tiles _ a).
  assert (fst (get_window_size r a' icon_window) = size_or_zero r icon_window)
    as Hsz.
  { unfold get_window_size, size_or_zero. by destruct (geometry r icon_window). }
  pose proof (get_window_size_passive r a' icon_window) as Hsize.
  destruct (get_window_size r a' icon_window) as [size t_size].
  cbn [fst snd] in *. subst size.
  change (get_tile_position a' (Z.of_nat index))
    with (get_tile_position a (Z.of_nat index)).
  change (icon_offset a') with (icon_offset a).
  change (dock_window a') with (dock_window a).
  change (horizontal a') with (horizontal a).
  change (tile_size a') with (tile_size a).
  assert (0 <= Z.of_nat index * tile_size a <= C.INT_MAX) as Hpos by nia.
  rewrite (get_tile_position_in_range a _ Hpos).
  assert (0 <= x (ideal_tile_position a (Z.of_nat index))
          /\ x (ideal_tile_position a (Z.of_nat index)) + tile_size a
             <= C.INT_MAX
          /\ 0 <= y (ideal_tile_position a (Z.of_nat index))
          /\ y (ideal_tile_position a (Z.of_nat index)) + tile_size a
             <= C.INT_MAX) as (Hx0 & Hx1 & Hy0 & Hy1).
  { unfold ideal_tile_position. destruct (horizontal a); cbn; nia. }
  rewrite !icon_offset_centered by done.
  assert (C.to_int (C.to_int (tile_size a) * 2) = 2 * tile_size a) as ->.
  { rewrite (to_int_small (tile_size a)) by nia. rewrite to_int_small; nia. }
  assert (forall fmt args,
            filter (fun c => is_reparent c = true) (pm_debug a' fmt args) = [])
    as Hdebug.
  { intros. apply filter_passive; [by intros []|apply pm_debug_passive]. }
  rewrite !filter_app, Hdebug.
  rewrite (filter_passive _ (pm_debug a _ _)), (filter_passive _ t_wm),
    (filter_passive _ t_icon), (filter_passive _ t_size);
    try done; try (by intros []); [|apply pm_debug_passive].
  assert (filter (fun c => is_reparent c = true)
            (if wm_running
             then pm_warn
                    "Window manager detected, swallowing dockapp with workaround"
                    [] ++ [usleep 100000]
             else []) = []) as ->.
  { destruct wm_running; [|done]. apply filter_passive; [by intros []|].
    solve_passive. }
  assert (filter (fun c => is_reparent c = true)
            (if check_all_dockapps_swallowed a'
             then pm_debug a' "All dockapps swallowed" []
                    ++ [XSelectInput (root_window a') 0]
                    ++ (if daemon_mode a' then [kill Parent SIGUSR1] else [])
             else []) = []) as ->.
  { destruct (check_all_dockapps_swallowed a'); [|done].
    rewrite !filter_app, Hdebug. by destruct (daemon_mode a'). }
  destruct wm_running; by destruct (horizontal a).
Qed.

Lemma swallow_dockapp_centres_icon_witness :
  filter (fun c => is_reparent c = true)
    (snd (swallow_dockapp (xclock_replies "xclock" false 1 48) 100 0
            xclock_app))
  = [XReparentWindow 100 20 8 128; XReparentWindow 101 20 8 8].
Proof.
  apply (swallow_dockapp_centres_icon (xclock_replies "xclock" false 1 48)
           xclock_app 100 0); vm_compute; intuition discriminate.
Defined.

(** ** The panel and its tiles *)

Lemma fst_bind_emit {B} t (k : unit -> M B) :
  fst (bind (emit t) k) = t ++ fst (k tt).
Proof. unfold bind, emit. by destruct (k tt). Qed.

(** X2: while the panel's length n*S fits an [int], [create_dock_window]
    asks first for a window of n*S by S pixels (S by n*S in a column) at the
    initial position, every tile's square lies inside that window, and the
    squares of two different tiles share no pixel: the tiles cover the panel
    exactly. *)
Theorem dock_window_holds_tiles (w : world) (a : app) :
  0 < tile_size a ->
  Z.of_nat (tile_count a) * tile_size a <= C.INT_MAX ->
  exists width height rest,
    fst (create_dock_window w a)
    = XCreateSimpleWindow (root_window a) (initial_x a) (initial_y a)
        width height :: rest
    /\ width * height = Z.of_nat (tile_count a) * tile_size a * tile_size a
    /\ (forall i, (i < tile_count a)%nat ->
          square_inside (get_tile_position a (Z.of_nat i)) (tile_size a)
            width height)
    /\ (forall i j, (i < j < tile_count a)%nat ->
          squares_apart (get_tile_position a (Z.of_nat i))
            (get_tile_position a (Z.of_nat j)) (tile_size a)).
Proof.
  intros HS Hmax.
  assert (C.to_unsigned (Z.of_nat (tile_count a) * tile_size a)
          = Z.of_nat (tile_count a) * tile_size a) as Halong.
  { apply to_unsigned_small. unfold C.INT_MAX, C.UINT_RANGE in *. nia. }
  assert (forall i, (i < tile_count a)%nat ->
            get_tile_position a (Z.of_nat i)
            = ideal_tile_position a (Z.of_nat i)) as Hpos.
  { intros i Hi. apply get_tile_position_in_range. nia. }
  unfold create_dock_window. rewrite fst_bind_emit, Halong.
  eexists _, _, _. split; [reflexivity|].
  split; [destruct (horizontal a); lia|].
  split.
  - intros i Hi. rewrite (Hpos i Hi).
    unfold square_inside, ideal_tile_position.
    destruct (horizontal a); cbn; nia.
  - intros i j Hij. rewrite (Hpos i), (Hpos j) by lia.
    unfold squares_apart, ideal_tile_position.
    destruct (horizontal a); cbn; nia.
Qed.

Lemma dock_window_holds_tiles_witness :
  exists width height rest,
    fst (create_dock_window good_world two_launchers)
    = XCreateSimpleWindow 10 0 0 width height :: rest
    /\ width * height = 2 * 64 * 64
    /\ (forall i, (i < 2)%nat ->
          square_inside (get_tile_position two_launchers (Z.of_nat i)) 64
            width height)
    /\ (forall i j, (i < j < 2)%nat ->
          squares_apart (get_tile_position two_launchers (Z.of_nat i))
            (get_tile_position two_launchers (Z.of_nat j)) 64).
Proof.
  apply (dock_window_holds_tiles good_world two_launchers);
    vm_compute; [reflexivity | discriminate].
Defined.

(** ** Expose events *)

Lemma concat_imap_nil {A B} (f : nat -> A -> list B) (l : list A) :
  (forall i t, l !! i = Some t -> f i t = []) -> concat (imap f l) = [].
Proof.
  revert f. induction l as [|t l IH]; intros f Hf; [done|].
  cbn. rewrite (Hf 0%nat t eq_refl), IH; [done|].
  intros i t' Hi. by apply (Hf (S i)).
Qed.

Lemma concat_imap_single {A B} (f : nat -> A -> list B) (l : list A) i t :
  l !! i = Some t ->
  (forall j t', j <> i -> l !! j = Some t' -> f j t' = []) ->
  concat (imap f l) = f i t.
Proof.
  revert f i. induction l as [|t0 l IH]; intros f i Hi Hf; [done|].
  cbn. destruct i as [|i].
  - injection Hi as ->. rewrite concat_imap_nil; [by rewrite (right_id_L [] (++))|].
    intros j t' Hj. by apply (Hf (S j)).
  - rewrite (Hf 0%nat t0) by done. cbn.
    apply (IH (f ∘ S) i Hi). intros j t' Hne Hj. apply (Hf (S j)); [lia|done].
Qed.

(** X3: an expose event for a window that is neither the panel nor the
    window of a launcher draws nothing; in particular the program never
    paints into the icon window of a swallowed dockapp. *)
Theorem handle_expose_event_foreign (r : replies) (w : Window) (a : app) :
  w <> dock_window a ->
  Forall (fun t => window t = w -> type t = TILE_TYPE_APP) (tiles a) ->
  handle_expose_event r w a = [].
Proof.
  intros Hdock Htiles. unfold handle_expose_event.
  apply concat_imap_nil. intros i t Hi.
  rewrite (bool_decide_eq_false_2 (w = dock_window a)) by done. cbn.
  case_bool_decide as Hw; [|done].
  rewrite bool_decide_eq_false_2; [done|].
  rewrite (Forall_lookup_1 _ _ _ _ Htiles Hi); done.
Qed.

Lemma handle_expose_event_foreign_witness :
  handle_expose_event (xclock_replies "xclock" false 1 48) 101 two_clocks = [].
Proof.
  apply handle_expose_event_foreign; [discriminate|]. by repeat constructor.
Defined.

(** X4: an expose event for the window of a launcher, a window no other
    tile has, makes seven Imlib calls and no other call: it sets the
    background image and the launcher's window as drawable and renders at the
    origin of that window, then sets the launcher's icon, asks for its width
    and its height, and renders it.  The icon is at an offset that is never
    negative: centred when it is no larger than the tile, so that it lies
    inside the tile, and at the origin of the tile when it is larger. *)
Theorem handle_expose_event_launcher (r : replies) (a : app) (i : nat)
    (t : tile) :
  let image := image_size r (icon t) in
  tiles a !! i = Some t -> type t = TILE_TYPE_LAUNCHER ->
  window t <> dock_window a ->
  (forall j t', j <> i -> tiles a !! j = Some t' -> window t' <> window t) ->
  0 < tile_size a <= C.INT_MAX ->
  0 <= width image < C.UINT_RANGE -> 0 <= height image < C.UINT_RANGE ->
  exists dx dy,
    handle_expose_event r (window t) a
    = [imlib_context_set_image (bg_image a);
       imlib_context_set_drawable (window t);
       imlib_render_image_on_drawable 0 0;
       imlib_context_set_image (icon t);
       imlib_image_get_width;
       imlib_image_get_height;
       imlib_render_image_on_drawable dx dy]
    /\ 0 <= dx /\ 0 <= dy
    /\ (width image <= tile_size a ->
        dx = (tile_size a - width image) / 2
        /\ dx + width image <= tile_size a)
    /\ (height image <= tile_size a ->
        dy = (tile_size a - height image) / 2
        /\ dy + height image <= tile_size a)
    /\ (tile_size a < width image -> dx = 0)
    /\ (tile_size a < height image -> dy = 0).
Proof.
  intros image Hi Hty Hdock Hothers HS Hw Hh.
  assert (forall extent, 0 <= extent ->
            0 <= launcher_icon_offset a extent
            /\ (extent <= tile_size a ->
                launcher_icon_offset a extent = (tile_size a - extent) / 2
                /\ launcher_icon_offset a extent + extent <= tile_size a)
            /\ (tile_size a < extent -> launcher_icon_offset a extent = 0))
    as Hoff.
  { intros extent He. rewrite launcher_icon_offset_clamped by done.
    pose proof (half_bounds (tile_size a - extent)) as Hhalf.
    case_bool_decide; [|lia].
    repeat split; [lia | | lia].
    assert ((tile_size a - extent) / 2 <= tile_size a - extent) by lia.
    lia. }
  exists (launcher_icon_offset a (width image)),
    (launcher_icon_offset a (height image)).
  destruct (Hoff (width image)) as (? & ? & ?); [lia|].
  destruct (Hoff (height image)) as (? & ? & ?); [lia|].
  split; [|done].
  unfold handle_expose_event.
  rewrite (concat_imap_single _ _ i t Hi).
  - rewrite (bool_decide_eq_false_2 (window t = dock_window a)) by done.
    rewrite !bool_decide_eq_true_2 by done. cbn [andb].
    fold image. by rewrite !to_unsigned_small by done.
  - intros j t' Hne Hj.
    rewrite (bool_decide_eq_false_2 (window t = dock_window a)) by done.
    rewrite (bool_decide_eq_false_2 (window t = window t')); [done|].
    intros Heq. by apply (Hothers j t' Hne Hj).
Qed.

Lemma handle_expose_event_launcher_witness :
  exists dx dy,
    handle_expose_event fork_fails 31 two_launchers
    = [imlib_context_set_image 7; imlib_context_set_drawable 31;
       imlib_render_image_on_drawable 0 0; imlib_context_set_image 7;
       imlib_image_get_width; imlib_image_get_height;
       imlib_render_image_on_drawable dx dy]
    /\ 0 <= dx /\ 0 <= dy
    /\ (32 <= 64 -> dx = (64 - 32) / 2 /\ dx + 32 <= 64)
    /\ (32 <= 64 -> dy = (64 - 32) / 2 /\ dy + 32 <= 64)
    /\ (64 < 32 -> dx = 0)
    /\ (64 < 32 -> dy = 0).
Proof.
  apply (handle_expose_event_launcher fork_fails two_launchers 1
           firefox_launcher); try reflexivity; try discriminate;
    try (split; [reflexivity | discriminate]);
    try (split; [discriminate | reflexivity]).
  intros [|[|[|j]]] t' Hne Hj; try done.
  injection Hj as <-. discriminate.
Defined.

Lemma length_filter_concat_imap {A B} (P : B -> Prop) (Q : A -> Prop)
    `{!forall b, Decision (P b)} `{!forall t, Decision (Q t)}
    (f : nat -> A -> list B) (l : list A) :
  (forall i t, l !! i = Some t ->
     length (filter P (f i t)) = if decide (Q t) then 1%nat else 0%nat) ->
  length (filter P (concat (imap f l))) = length (filter Q l).
Proof.
  revert f. induction l as [|t l IH]; intros f Hf; [done|].
  cbn [imap concat]. rewrite filter_app, length_app, (Hf 0%nat t eq_refl).
  rewrite IH by (intros i t' Hi; by apply (Hf (S i))).
  rewrite filter_cons. by destruct (decide (Q t)).
Qed.

Lemma elem_of_concat_imap {A B} (f : nat -> A -> list B) (l : list A) i t c :
  l !! i = Some t -> c ∈ f i t -> c ∈ concat (imap f l).
Proof.
  revert f i. induction l as [|t0 l IH]; intros f i Hi Hc; [done|].
  cbn [imap concat]. apply elem_of_app. destruct i as [|i].
  - injection Hi as ->. by left.
  - right. by apply (IH (f ∘ S) i).
Qed.

(** X5: an expose event for the panel, when no launcher has the panel as
    its window, draws once per dockapp tile: as many images as there are
    dockapp tiles, among them one at the position of each dockapp tile, and
    none for a launcher tile. *)
Theorem handle_expose_event_panel (r : replies) (a : app) :
  Forall (fun t => type t = TILE_TYPE_LAUNCHER -> window t <> dock_window a)
    (tiles a) ->
  length (filter (fun c => is_render c = true)
            (handle_expose_event r (dock_window a) a))
  = length (filter (fun t => type t = TILE_TYPE_APP) (tiles a))
  /\ forall i t, tiles a !! i = Some t -> type t = TILE_TYPE_APP ->
       imlib_render_image_on_drawable
         (x (get_tile_position a (Z.of_nat i)))
         (y (get_tile_position a (Z.of_nat i)))
       ∈ handle_expose_event r (dock_window a) a.
Proof.
  intros Htiles. unfold handle_expose_event. split.
  - apply (length_filter_concat_imap _ (fun t => type t = TILE_TYPE_APP)).
    intros i t Hi. rewrite (bool_decide_eq_true_2 (dock_window a = _)) by done.
    cbn [andb].
    destruct (decide (type t = TILE_TYPE_LAUNCHER)) as [Hty|Hty].
    + rewrite !(bool_decide_eq_true_2 (type t = _)) by done. cbn [negb].
      rewrite (bool_decide_eq_false_2 (dock_window a = window t)).
      2:{ intros Heq. by apply (Forall_lookup_1 _ _ _ _ Htiles Hi). }
      by rewrite decide_False by congruence.
    + rewrite (bool_decide_eq_false_2 (type t = _)) by done. cbn [negb].
      rewrite decide_True by (by destruct (type t)). reflexivity.
  - intros i t Hi Hty. eapply elem_of_concat_imap; [exact Hi|].
    rewrite (bool_decide_eq_true_2 (dock_window a = _)) by done.
    rewrite (bool_decide_eq_false_2 (type t = _)) by congruence.
    cbn. rewrite !elem_of_cons. auto.
Qed.

Lemma handle_expose_event_panel_witness :
  length (filter (fun c => is_render c = true)
            (handle_expose_event fork_fails 20 two_clocks_filled))
  = 2%nat.
Proof.
  apply (handle_expose_event_panel fork_fails two_clocks_filled).
  by repeat constructor.
Defined.

(** ** Button presses and the life of the panel process *)

Lemma list_find_existsb {A} (f : A -> bool) (l : list A) :
  existsb f l = bool_decide (is_Some (list_find f l)).
Proof.
  induction l as [|t l IH]; [done|].
  cbn [existsb list_find]. rewrite IH. destruct (f t); cbn; [done|].
  destruct (list_find f l) as [[i t']|]; cbn; [|done].
  by rewrite !bool_decide_eq_true_2 by done.
Qed.

(** X6: in the process that goes on after [fork], and so also when [fork]
    fails (its result -1 is stored into an [unsigned] and only compared with
    0), a button press ends normally and writes no message; it calls [fork]
    once when the window is that of a launcher, and does nothing else. *)
Theorem handle_button_press_event_parent (r : replies) (w : Window) (a : app) :
  C.to_unsigned (fork_result r) <> 0 ->
  handle_button_press_event r w a
  = (if existsb (launcher_at w) (tiles a) then [fork] else [], Return tt).
Proof.
  intros Hfork. unfold handle_button_press_event.
  rewrite (list_find_existsb (launcher_at w)). unfold launcher_at.
  destruct (list_find _ (tiles a)) as [[i t]|].
  - rewrite (bool_decide_eq_true_2 (is_Some _)) by done.
    by rewrite (bool_decide_eq_false_2 (C.to_unsigned _ = 0)) by done.
  - by rewrite (bool_decide_eq_false_2 (is_Some _)) by (by intros [? [=]]).
Qed.

Lemma handle_button_press_event_parent_witness :
  handle_button_press_event fork_fails 31 two_launchers = ([fork], Return tt).
Proof.
  apply (handle_button_press_event_parent fork_fails 31 two_launchers).
  discriminate.
Defined.

Lemma handle_button_press_event_returns r w a :
  C.to_unsigned (fork_result r) <> 0 ->
  exists t, handle_button_press_event r w a = (t, Return tt).
Proof.
  intros Hfork. unfold handle_button_press_event.
  destruct (list_find _ (tiles a)) as [[i t]|]; [|by eexists].
  rewrite (bool_decide_eq_false_2 (C.to_unsigned _ = 0)) by done.
  by eexists.
Qed.

(** X7: the panel process never leaves its event loop: over any events
    whose [fork] calls return in the parent, the loop handles every event and
    returns for the next one.  Only the child of a launcher's [fork] ends
    inside a handler. *)
Theorem event_loop_goes_on (events : list (XEvent * replies)) (a : app) :
  Forall (fun e => C.to_unsigned (fork_result (snd e)) <> 0) events ->
  exists tr a', event_loop events a = (tr, Return a').
Proof.
  intros Hevents. revert a.
  induction Hevents as [|[ev r] events Hfork _ IH]; intros a.
  { by eexists _, _. }
  assert (exists t1 a1, dispatch (ev, r) a = (t1, Return a1))
    as (t1 & a1 & He).
  { destruct ev as [w|w|w|]; cbn [dispatch].
    - destruct (handle_create_event r w a). by eexists _, _.
    - by eexists _, _.
    - destruct (handle_button_press_event_returns r w a Hfork) as [t ->].
      by eexists _, _.
    - by eexists _, _. }
  destruct (IH a1) as (t2 & a' & Hrest).
  exists (t1 ++ t2), a'. cbn [event_loop]. unfold bind.
  by rewrite He, Hrest.
Qed.

Lemma event_loop_goes_on_witness :
  exists tr a', event_loop xclock_events two_clocks = (tr, Return a').
Proof.
  apply (event_loop_goes_on xclock_events two_clocks).
  by repeat constructor.
Defined.

Lemma same_but_window_refl t : same_but_window t t.
Proof. by destruct t. Qed.

Lemma same_but_window_trans t1 t2 t3 :
  same_but_window t1 t2 -> same_but_window t2 t3 -> same_but_window t1 t3.
Proof. unfold same_but_window. by intros -> ->. Qed.

Lemma Forall2_same_but_window_alter w i ts ts' :
  Forall2 same_but_window (alter (set_window w) i ts) ts' ->
  Forall2 same_but_window ts ts'.
Proof.
  revert i ts'. induction ts as [|t ts IH]; intros i ts'; [done|].
  destruct i as [|i]; cbn; intros Hall; inversion Hall as [|? t' ? k' Ht Hts];
    subst; constructor.
  - eapply same_but_window_trans; [|exact Ht]. done.
  - done.
  - done.
  - by eapply IH.
Qed.

Lemma event_loop_same_but_window events a tr a' :
  event_loop events a = (tr, Return a') ->
  Forall2 same_but_window (tiles a) (tiles a').
Proof.
  revert a tr. induction events as [|e events IH]; intros a tr.
  { intros [= _ <-]. apply Forall_Forall2_diag, Forall_forall. intros t _.
    apply same_but_window_refl. }
  intros (t1 & a1 & t2 & He & Hrest & _)%event_loop_cons.
  pose proof (IH _ _ Hrest) as Htiles.
  apply dispatch_state in He
    as [-> | (i & ti & icon_window & Hi & _ & _ & ->)]; [done|].
  cbn [tiles set_tiles] in Htiles.
  by eapply Forall2_same_but_window_alter.
Qed.

(** X8: the event loop changes nothing of the program state but the
    windows of tiles: all the settings, the ids of the root and panel
    windows, the number of tiles and each tile's command, icon, pid,
    resource name and type are at the end as at the start. *)
Theorem event_loop_keeps_configuration (events : list (XEvent * replies))
    (a : app) (tr : list call) (a' : app) :
  event_loop events a = (tr, Return a') ->
  a' = set_tiles (tiles a') a
  /\ length (tiles a') = length (tiles a)
  /\ Forall2 same_but_window (tiles a) (tiles a').
Proof.
  intros Hloop.
  pose proof (event_loop_same_but_window _ _ _ _ Hloop) as Htiles.
  split; [|split; [by rewrite (Forall2_length _ _ _ Htiles) | done]].
  clear Htiles. revert a tr Hloop.
  induction events as [|e events IH]; intros a tr.
  { intros [= _ <-]. by destruct a. }
  intros (t1 & a1 & t2 & He & Hrest & _)%event_loop_cons.
  rewrite (IH _ _ Hrest) at 1.
  by apply dispatch_state in He
    as [-> | (i & ti & icon_window & Hi & _ & _ & ->)].
Qed.

Lemma event_loop_keeps_configuration_witness :
  two_clocks_filled = set_tiles (tiles two_clocks_filled) two_clocks
  /\ length (tiles two_clocks_filled) = length (tiles two_clocks)
  /\ Forall2 same_but_window (tiles two_clocks) (tiles two_clocks_filled).
Proof.
  apply (event_loop_keeps_configuration second_clock_appears two_clocks
           (fst (event_loop second_clock_appears two_clocks))).
  reflexivity.
Defined.

(** X9: each launcher starts its own command.  When the windows the server
    creates for the launchers have different ids, a button press on the
    window created for the launcher of tile i forks, and the child hands the
    command of tile i to the shell and makes no other call: with [execl] the
    code of the program ends in the child.  When [execl] fails and returns,
    the child writes the error message that it failed to execute that
    command, and exits with status 1. *)
Theorem launcher_runs_its_command (w : world) (r : replies) (a : app)
    (i : nat) (t : tile) :
  tiles a !! i = Some t -> type t = TILE_TYPE_LAUNCHER ->
  (forall j, j <> i -> created_launcher w j <> created_launcher w i) ->
  C.to_unsigned (fork_result r) = 0 ->
  handle_button_press_event r (created_launcher w i)
    (fst (create_launchers w a))
  = if execl_returns r
    then ([fork; execl_sh (command t)]
            ++ pm_error "Failed to execute %s" [ArgP (command t)],
          Exit 1)
    else ([fork; execl_sh (command t)], Replaced).
Proof.
  intros Hi Hty Hothers Hfork.
  unfold handle_button_press_event.
  cbn [create_launchers fst tiles set_tiles].
  assert (list_find
            (fun t0 => bool_decide (type t0 = TILE_TYPE_LAUNCHER)
                       && bool_decide (created_launcher w i = window t0))
            (imap (fun j t0 =>
               if bool_decide (type t0 = TILE_TYPE_LAUNCHER)
               then set_window (created_launcher w j) t0 else t0) (tiles a))
          = Some (i, set_window (created_launcher w i) t)) as ->.
  { apply list_find_Some. split; [|split].
    - rewrite list_lookup_imap, Hi. cbn.
      by rewrite bool_decide_eq_true_2 by done.
    - cbn. by rewrite !bool_decide_eq_true_2 by done.
    - intros j t' Hj Hlt. rewrite list_lookup_imap in Hj.
      destruct (tiles a !! j) as [tj|]; [|done]. cbn in Hj.
      destruct (decide (type tj = TILE_TYPE_LAUNCHER)) as [Htj|Htj].
      + rewrite bool_decide_eq_true_2 in Hj by done. injection Hj as <-.
        cbn. intros [_ Heq%bool_decide_unpack]%andb_prop_elim.
        apply (Hothers j); [lia | done].
      + rewrite bool_decide_eq_false_2 in Hj by done. injection Hj as <-.
        by intros [Hty'%bool_decide_unpack _]%andb_prop_elim. }
  rewrite bool_decide_eq_true_2 by done.
  by destruct (execl_returns r).
Qed.

Lemma launcher_runs_its_command_witness :
  handle_button_press_event in_child 31
    (fst (create_launchers good_world launcher_cfg))
  = ([fork; execl_sh (Some "firefox")]
       ++ pm_error "Failed to execute %s" [ArgP (Some "firefox")],
     Exit 1).
Proof.
  apply (launcher_runs_its_command good_world in_child launcher_cfg 1
           (set_window 0 firefox_launcher)); try reflexivity.
  intros j Hne Heq. apply Hne. cbn in Heq. lia.
Defined.

(** ** What a configuration holds *)

Lemma to_int_positive z :
  (C.to_int z <=? 0) = false -> 0 < C.to_unsigned (C.to_int z) <= C.INT_MAX.
Proof.
  intros H%Z.leb_gt. unfold C.to_int in *.
  pose proof (Z.mod_pos_bound z C.UINT_RANGE) as Hu.
  destruct (Z.leb_spec (z mod C.UINT_RANGE) C.INT_MAX);
    unfold C.UINT_RANGE, C.INT_MAX in *; [|lia].
  rewrite to_unsigned_small by (unfold C.UINT_RANGE; lia). lia.
Qed.

(** One turn of the second pass on an option other than [-t]. *)
Lemma parse_opt_settings w s o :
  opt o <> "t"%char ->
  calls_only (fun c => is_stderr c = true) (parse_opt w s o)
  /\ ((exists t,
         parse_opt w s o = (t ++ [fprintf_stderr "%s" [ArgS USAGE]], Exit 1))
      \/ (parse_opt w s o = ([fprintf_stderr "%s" [ArgS USAGE]], Exit 0)
          /\ opt o = "h"%char)
      \/ (exists s',
            parse_opt w s o = ([], Return s')
            /\ tiles (parsed s') = tiles (parsed s)
            /\ current_tile s' = current_tile s
            /\ (0 < tile_size (parsed s) <= C.INT_MAX ->
                0 < tile_size (parsed s') <= C.INT_MAX)
            /\ flags (parsed s')
               = zip_with orb (flags (parsed s)) (flags_asked [o]))).
Proof.
  unfold parse_opt, flags, flags_asked, has_flag. intros Ht. cbn [existsb].
  destruct (opt o) as [[] [] [] [] [] [] [] []]; try (by destruct Ht);
    repeat first [ rewrite (bool_decide_eq_true_2 _ eq_refl)
                 | rewrite bool_decide_eq_false_2 by discriminate ];
    try destruct (_ <=? 0) eqn:Hsize;
    (split;
     [ unfold calls_only; cbn; by repeat constructor
     | first [ right; right; eexists; split; [reflexivity|];
               cbn; rewrite ?orb_false_r, ?orb_true_r;
               split; [done|]; split; [done|]; split; [|done];
               first [ done | intros _; by apply to_int_positive ]
             | left;
               exists (pm_error "Invalid tile size: %s" [ArgS (optarg o)]);
               reflexivity
             | right; left; by split ] ]).
Qed.

Lemma bind_Exit {A B} (m : M A) (k : A -> M B) tr status :
  bind m k = (tr, Exit status) ->
  m = (tr, Exit status)
  \/ exists t1 a t2,
       m = (t1, Return a) /\ k a = (t2, Exit status) /\ tr = t1 ++ t2.
Proof.
  unfold bind. destruct m as [t1 [a| | |]];
    [|intros [= <- <-]; by left|discriminate..].
  destruct (k a) as [t2 o] eqn:Hk. intros [= <- ->]. right.
  by exists t1, a, t2.
Qed.

(** What [case 't'] does: it ends the process with status 1, or it
    initialises the current tile and goes on to the next one. *)
Lemma parse_tile_result w s kind :
  (exists t, parse_tile w s kind = (t, Exit 1))
  \/ (exists t f,
        parse_tile w s kind
        = (t, Return (next_tile (set_tiles (alter f (current_tile s)
                                              (tiles (parsed s))) (parsed s)) s))
        /\ tile_initialised (f zero_tile)).
Proof.
  unfold parse_tile.
  destruct (pending_command s) as [cmd|]; [|left; by eexists].
  destruct (String.eqb kind "dockapp").
  { destruct (pending_resname s) as [name|]; [|left; by eexists].
    right. exists [], (make_dockapp cmd name). split; [done|].
    by repeat split. }
  destruct (String.eqb kind "launcher"); [|left; by eexists].
  destruct (pending_icon s) as [path|]; [|left; by eexists].
  case_bool_decide as Hload; cbn; [left; by eexists|].
  right. exists [imlib_load_image path],
    (make_launcher cmd (load_image w path)).
  split; [done|]. by repeat split.
Qed.

Lemma flags_asked_cons o opts :
  flags_asked (o :: opts) = zip_with orb (flags_asked [o]) (flags_asked opts).
Proof.
  unfold flags_asked, has_flag. cbn [existsb zip_with].
  by rewrite !orb_false_r.
Qed.

Lemma flags_asked_type o :
  opt o = "t"%char -> flags_asked [o] = [false; false; false; false; false].
Proof.
  intros Ht. unfold flags_asked, has_flag. cbn [existsb]. rewrite Ht.
  by rewrite !bool_decide_eq_false_2 by discriminate.
Qed.

Lemma count_tiles_cons o opts :
  count_tiles (o :: opts)
  = ((if bool_decide (opt o = "t"%char) then 1 else 0) + count_tiles opts)%nat.
Proof.
  unfold count_tiles. rewrite filter_cons.
  case_bool_decide; [by rewrite decide_True | by rewrite decide_False].
Qed.

Lemma parse_start_filled n : parse_filled (parse_start n).
Proof.
  split; [|split]; cbn.
  - intros j t Hj. lia.
  - by intros j t _ [-> _]%lookup_replicate.
  - done.
Qed.

Lemma parse_opt_filled w s o t s' :
  parse_filled s -> parse_opt w s o = (t, Return s') ->
  parse_filled s'
  /\ length (tiles (parsed s')) = length (tiles (parsed s))
  /\ current_tile s'
     = ((if bool_decide (opt o = "t"%char) then 1 else 0) + current_tile s)%nat
  /\ flags (parsed s') = zip_with orb (flags (parsed s)) (flags_asked [o]).
Proof.
  intros (Hdone & Hfresh & Hsize) Hopt.
  destruct (decide (opt o = "t"%char)) as [Ht|Ht].
  - rewrite (parse_opt_type _ _ _ Ht) in Hopt.
    destruct (parse_tile_result w s (optarg o))
      as [(? & Heq) | (? & f & Heq & Hf)];
      rewrite Heq in Hopt; [done|]. injection Hopt as _ <-.
    rewrite bool_decide_eq_true_2, flags_asked_type by done.
    cbn [next_tile parsed current_tile tiles set_tiles].
    split; [split; [|split]|split; [|split]].
    + intros j tl Hj Hlookup. cbn in Hj, Hlookup.
      destruct (decide (j = current_tile s)) as [->|Hne].
      * rewrite list_lookup_alter_eq in Hlookup.
        destruct (tiles (parsed s) !! current_tile s) as [old|] eqn:Hold;
          [|done].
        injection Hlookup as <-. by rewrite (Hfresh _ _ (le_n _) Hold).
      * rewrite list_lookup_alter_ne in Hlookup by done.
        apply (Hdone j); [lia | done].
    + intros j tl Hj Hlookup. cbn in Hj, Hlookup.
      rewrite list_lookup_alter_ne in Hlookup by lia.
      apply (Hfresh j); [lia | done].
    + done.
    + by rewrite length_alter.
    + done.
    + unfold flags. cbn. by rewrite !orb_false_r.
  - destruct (parse_opt_settings w s o Ht)
      as [_ [(? & Heq) | [[Heq _] | (s1 & Heq & Htiles & Hcur & Hsz & Hfl)]]];
      rewrite Heq in Hopt; [done..|]. injection Hopt as _ <-.
    rewrite bool_decide_eq_false_2 by done.
    split; [|by rewrite Htiles].
    unfold parse_filled. rewrite Htiles, Hcur. auto.
Qed.

Lemma zip_with_orb_flags a bs cs :
  zip_with orb (zip_with orb (flags a) bs) cs
  = zip_with orb (flags a) (zip_with orb bs cs).
Proof.
  unfold flags. revert bs cs.
  assert (forall l bs cs : list bool,
            zip_with orb (zip_with orb l bs) cs
            = zip_with orb l (zip_with orb bs cs)) as H; [|intros; apply H].
  induction l as [|b l IH]; intros [|b1 bs] [|b2 cs]; cbn; try done.
  by rewrite IH, orb_assoc.
Qed.

Lemma parse_loop_filled w opts s t s' :
  parse_filled s -> parse_loop w opts s = (t, Return s') ->
  parse_filled s'
  /\ length (tiles (parsed s')) = length (tiles (parsed s))
  /\ current_tile s' = (count_tiles opts + current_tile s)%nat
  /\ flags (parsed s') = zip_with orb (flags (parsed s)) (flags_asked opts).
Proof.
  revert s t. induction opts as [|o opts IH]; intros s t Hfilled.
  { intros [= _ <-]. split; [done|]. split; [done|]. split; [done|].
    unfold flags. cbn. by rewrite !orb_false_r. }
  cbn [parse_loop].
  intros (t1 & s1 & t2 & Hopt & Hrest & _)%bind_Return.
  destruct (parse_opt_filled _ _ _ _ _ Hfilled Hopt)
    as (Hfilled1 & Hlen1 & Hcur1 & Hflags1).
  destruct (IH _ _ Hfilled1 Hrest) as (Hfilled' & Hlen' & Hcur' & Hflags').
  split; [done|]. split; [congruence|].
  split; [rewrite count_tiles_cons; lia|].
  by rewrite Hflags', Hflags1, zip_with_orb_flags, <- flags_asked_cons.
Qed.

Lemma parse_opts_Return w opts t a :
  parse_opts w opts = (t, Return a) ->
  (0 < count_tiles opts)%nat
  /\ exists t1 s,
       parse_loop w opts (parse_start (count_tiles opts)) = (t1, Return s)
       /\ load_image w (bg_path s) <> 0
       /\ a = set_bg_image (load_image w (bg_path s)) (parsed s).
Proof.
  unfold parse_opts.
  intros (t0 & [] & t1 & _ & Hrest & _)%bind_Return.
  apply bind_Return in Hrest as (t2 & s & t3 & Hloop & Hrest & _).
  case_bool_decide as Hcount; [done|].
  apply bind_Return in Hrest as (? & [] & ? & _ & Hrest & _).
  apply bind_Return in Hrest as (? & [] & ? & Hload & Hrest & _).
  injection Hrest as _ <-. split; [lia|]. exists t2, s.
  split; [done|]. split; [|done].
  unfold pm_assert in Hload. by case_bool_decide.
Qed.

Lemma parse_opts_tiles w opts t a :
  parse_opts w opts = (t, Return a) ->
  length (tiles a) = count_tiles opts /\ Forall tile_initialised (tiles a).
Proof.
  intros (Hcount & t1 & s & Hloop & _ & ->)%parse_opts_Return.
  apply parse_loop_filled in Hloop
    as ((Hdone & _ & _) & Hlen & Hcur & _); [|apply parse_start_filled].
  cbn in Hlen, Hcur. rewrite length_replicate in Hlen.
  cbn [tiles set_bg_image]. split; [done|].
  apply Forall_lookup. intros j tl Hj. apply (Hdone j); [|done].
  apply lookup_lt_Some in Hj. lia.
Qed.

(** X10: a configuration that [parse_opts] returns has as many tiles as
    the command line has [-t] options, at least one, and every one of them
    is initialised: it has a command, no child and no window yet; a dockapp
    has a resource name and no icon, a launcher an icon that was loaded and
    no resource name. *)
Theorem parse_opts_initialises_tiles (w : world) (opts : list getopt_result)
    (t : list call) (a : app) :
  parse_opts w opts = (t, Return a) ->
  length (tiles a) = count_tiles opts
  /\ (0 < count_tiles opts)%nat
  /\ Forall tile_initialised (tiles a).
Proof.
  intros Hparse. destruct (parse_opts_tiles _ _ _ _ Hparse) as [Hlen Htiles].
  by apply parse_opts_Return in Hparse as [Hcount _].
Qed.

Lemma parse_opts_initialises_tiles_witness :
  length (tiles launcher_cfg) = count_tiles launcher_opts
  /\ (0 < count_tiles launcher_opts)%nat
  /\ Forall tile_initialised (tiles launcher_cfg).
Proof.
  apply (parse_opts_initialises_tiles good_world launcher_opts
           launcher_cfg_trace launcher_cfg).
  reflexivity.
Defined.

Lemma parse_opts_flags w opts t a :
  parse_opts w opts = (t, Return a) -> flags a = flags_asked opts.
Proof.
  intros (Hcount & t1 & s & Hloop & Hload & ->)%parse_opts_Return.
  apply parse_loop_filled in Hloop as (_ & _ & _ & Hflags);
    [|apply parse_start_filled].
  change (flags (set_bg_image _ (parsed s))) with (flags (parsed s)).
  by rewrite Hflags.
Qed.

(** X11: in a configuration that [parse_opts] returns the tile size is
    positive and fits an [int], the background image was loaded, and each of
    the flags -A, -a, -d, -H and -v is set exactly when the command line has
    it, wherever it stands. *)
Theorem parse_opts_settings (w : world) (opts : list getopt_result)
    (t : list call) (a : app) :
  parse_opts w opts = (t, Return a) ->
  0 < tile_size a <= C.INT_MAX
  /\ bg_image a <> 0
  /\ flags a = flags_asked opts.
Proof.
  intros Hparse. pose proof (parse_opts_flags _ _ _ _ Hparse) as Hflags.
  apply parse_opts_Return in Hparse as (Hcount & t1 & s & Hloop & Hload & ->).
  apply parse_loop_filled in Hloop
    as ((_ & _ & Hsize) & _); [|apply parse_start_filled].
  done.
Qed.

Lemma parse_opts_settings_witness :
  0 < tile_size launcher_cfg <= C.INT_MAX
  /\ bg_image launcher_cfg <> 0
  /\ flags launcher_cfg = flags_asked launcher_opts.
Proof.
  apply (parse_opts_settings good_world launcher_opts launcher_cfg_trace
           launcher_cfg).
  reflexivity.
Defined.

(** ** How option parsing ends the process *)

Lemma parse_loop_exit w opts s t status :
  parse_loop w opts s = (t, Exit status) ->
  status = 1 \/ (status = 0 /\ has_flag "h" opts = true).
Proof.
  revert s t. induction opts as [|o opts IH]; intros s t; [done|].
  cbn [parse_loop].
  intros [Hopt | (t1 & s1 & t2 & _ & Hrest & _)]%bind_Exit.
  - destruct (decide (opt o = "t"%char)) as [Ht|Ht].
    + rewrite (parse_opt_type _ _ _ Ht) in Hopt.
      destruct (parse_tile_result w s (optarg o))
        as [(? & Heq) | (? & f & Heq & _)];
        rewrite Heq in Hopt; [|done]. left. congruence.
    + destruct (parse_opt_settings w s o Ht)
        as [_ [(? & Heq) | [[Heq Hh] | (s1 & Heq & _)]]];
        rewrite Heq in Hopt; [left; congruence| |done].
      right. split; [congruence|].
      unfold has_flag. cbn [existsb]. by rewrite bool_decide_eq_true_2.
  - destruct (IH _ _ Hrest) as [->|[-> Hh]]; [by left|right].
    split; [done|]. unfold has_flag in *. cbn [existsb].
    by rewrite Hh, orb_true_r.
Qed.

(** X12: when option parsing ends the process, the exit status is 1,
    except that it is 0 when the command line has a [-h]; no other status
    comes out of [parse_opts]. *)
Theorem parse_opts_exit_status (w : world) (opts : list getopt_result)
    (t : list call) (status : Z) :
  parse_opts w opts = (t, Exit status) ->
  status = 1 \/ (status = 0 /\ has_flag "h" opts = true).
Proof.
  unfold parse_opts.
  intros [Hmem | (t1 & [] & t2 & _ & Hrest & _)]%bind_Exit.
  { case_bool_decide; [|done]. unfold pm_assert in Hmem.
    destruct (calloc_ok w); [done|]. left. by injection Hmem as _ <-. }
  apply bind_Exit in Hrest as [Hloop | (t3 & s & t4 & _ & Hrest & _)].
  { by eapply parse_loop_exit. }
  left. case_bool_decide; [by injection Hrest as _ <-|].
  unfold pm_assert in Hrest. destruct (negb _); [done|].
  by injection Hrest as _ <-.
Qed.

Lemma parse_opts_exit_status_witness :
  0 = 1 \/ (0 = 0 /\ has_flag "h" [opt_flag "v"; opt_flag "h"] = true).
Proof.
  apply (parse_opts_exit_status good_world [opt_flag "v"; opt_flag "h"]
           [fprintf_stderr "%s" [ArgS USAGE]]).
  reflexivity.
Defined.

Lemma parse_loop_no_tiles w opts s :
  count_tiles opts = 0%nat ->
  (exists t status,
     parse_loop w opts s = (t ++ [fprintf_stderr "%s" [ArgS USAGE]], Exit status)
     /\ Forall (fun c => is_stderr c = true) t)
  \/ (exists s', parse_loop w opts s = ([], Return s')).
Proof.
  revert s. induction opts as [|o opts IH]; intros s; [right; by eexists|].
  rewrite count_tiles_cons. case_bool_decide as Ht; [done|].
  rewrite Nat.add_0_l. intros Hcount. cbn [parse_loop]. unfold bind.
  destruct (parse_opt_settings w s o Ht)
    as [Hcalls [(t & Heq) | [[Heq _] | (s1 & Heq & _)]]];
    rewrite Heq in *.
  - left. exists t, 1. split; [done|].
    unfold calls_only in Hcalls. cbn in Hcalls.
    by apply Forall_app in Hcalls as [? _].
  - left. by exists [], 0.
  - destruct (IH s1 Hcount) as [(t & status & -> & Ht1) | (s' & ->)].
    + left. by exists t, status.
    + right. by exists s'.
Qed.

(** X13: a command line without any [-t] never gives a configuration:
    the process writes the usage text and exits, and all it did before is
    write to stderr; it loaded no image and made no call to the server. *)
Theorem parse_opts_no_tiles (w : world) (opts : list getopt_result) :
  count_tiles opts = 0%nat ->
  exists t status,
    parse_opts w opts = (t ++ [fprintf_stderr "%s" [ArgS USAGE]], Exit status)
    /\ Forall (fun c => is_stderr c = true) t.
Proof.
  intros Hcount. unfold parse_opts. rewrite Hcount.
  rewrite (bool_decide_eq_false_2 (0 < 0)%nat) by lia.
  destruct (parse_loop_no_tiles w opts (parse_start 0) Hcount)
    as [(t & status & -> & Ht) | (s' & ->)].
  - by exists t, status.
  - exists (pm_error "No tiles specified" []), 1. split; [done|].
    by repeat constructor.
Qed.

Lemma parse_opts_no_tiles_witness :
  exists t status,
    parse_opts good_world [opt_flag "v"; opt_c "xterm"]
    = (t ++ [fprintf_stderr "%s" [ArgS USAGE]], Exit status)
    /\ Forall (fun c => is_stderr c = true) t.
Proof.
  apply (parse_opts_no_tiles good_world [opt_flag "v"; opt_c "xterm"]).
  reflexivity.
Defined.









(** ** The handshake and the two processes of a daemon *)

Lemma calls_only_bind_Return {A B} P (m : M A) (k : A -> M B) :
  calls_only P m ->
  (forall t a, m = (t, Return a) -> calls_only P (k a)) ->
  calls_only P (bind m k).
Proof.
  unfold calls_only, bind. intros Hm Hk.
  destruct m as [t [a| | |]]; [|done..].
  specialize (Hk t a eq_refl). destruct (k a) as [t' o].
  apply Forall_app. done.
Qed.

Lemma bind_Return_l {A B} t (v : A) (k : A -> M B) :
  bind (t, Return v) k = (t ++ fst (k v), snd (k v)).
Proof. unfold bind. by destruct (k v). Qed.

Lemma swallow_dockapp_no_daemon r main_window index a :
  daemon_mode a = false ->
  free_of is_handshake (snd (swallow_dockapp r main_window index a)).
Proof.
  intros Hdaemon.
  destruct (decide (fst (get_icon_window_waiting r a main_window) = XNone))
    as [Hnone|Hicon].
  { by apply passive_no_handshake, swallow_dockapp_aborted. }
  destruct (swallow_dockapp_completion r main_window index a Hicon)
    as (body & log & -> & Hlog & Hbody).
  rewrite swallow_dockapp_state, bool_decide_eq_false_2 by done.
  cbn [daemon_mode set_tiles]. rewrite Hdaemon.
  rewrite !free_of_app. split; [done|]. split; [by repeat constructor|].
  split; [by apply passive_no_handshake|].
  destruct (check_all_dockapps_swallowed _); by repeat constructor.
Qed.

Lemma dispatch_no_daemon e a :
  daemon_mode a = false ->
  no_handshake (dispatch e a)
  /\ forall tr a', dispatch e a = (tr, Return a') -> daemon_mode a' = false.
Proof.
  intros Hdaemon. split.
  2:{ intros tr a' [-> | (i & t & icon_window & _ & _ & _ & ->)]%dispatch_state;
        done. }
  destruct e as [[w|w|w|] r]; cbn [dispatch].
  - unfold handle_create_event.
    destruct (class_hint r w) as [hint|]; [|by repeat constructor].
    destruct (list_find _ (tiles a)) as [[i t]|].
    + pose proof (swallow_dockapp_no_daemon r w i a Hdaemon) as Hswallow.
      destruct (swallow_dockapp r w i a) as [a' t_swallow].
      unfold no_handshake, calls_only. cbn [fst snd] in *.
      repeat first [exact Hswallow | handshake_free].
    + unfold no_handshake, calls_only. cbn [fst].
      apply passive_no_handshake. solve_passive.
  - eapply Forall_impl; [apply handle_expose_event_quiet|]. by intros ? [].
  - apply calls_only_bind; [|constructor].
    eapply Forall_impl; [apply handle_button_press_event_quiet|].
    by intros ? [].
  - constructor.
Qed.

Lemma event_loop_no_daemon events a :
  daemon_mode a = false -> no_handshake (event_loop events a).
Proof.
  revert a. induction events as [|e events IH]; intros a Hdaemon;
    [constructor|].
  destruct (dispatch_no_daemon e a Hdaemon) as [Hcalls Hstate].
  cbn [event_loop]. apply calls_only_bind_Return; [done|].
  intros t a1 He. apply IH. by eapply Hstate.
Qed.

Lemma flags_daemon_mode a opts :
  flags a = flags_asked opts -> daemon_mode a = has_flag "d" opts.
Proof. unfold flags, flags_asked. by intros [= _ _ -> _ _]. Qed.

(** X14: without [-d] on the command line no run of the program, over
    whatever events and however it ends, sends the handshake signal: the
    program signals its parent only as a daemon. *)
Theorem no_daemon_no_handshake (w : world) (opts : list getopt_result)
    (events : list (XEvent * replies)) :
  has_flag "d" opts = false -> no_handshake (main w opts events).
Proof.
  intros Hd. unfold main.
  apply calls_only_bind_Return; [apply startup_no_handshake|].
  intros t a Hstart. apply event_loop_no_daemon.
  apply startup_ready in Hstart as (_ & cfg & t0 & Hparse & ->).
  apply parse_opts_flags, flags_daemon_mode in Hparse. congruence.
Qed.

Lemma no_daemon_no_handshake_witness :
  no_handshake (main good_world plain_opts xclock_events).
Proof.
  apply (no_daemon_no_handshake good_world plain_opts xclock_events).
  reflexivity.
Defined.

(** X15: with [-d], the process in which [fork] returns a child's pid
    (the parent) makes no call but those of option parsing, the [fork], the
    installation of its SIGUSR1 handler and [pause]: it never connects to the
    server and never gets to the event loop. *)
Theorem daemon_parent_waits (w : world) (opts : list getopt_result)
    (events : list (XEvent * replies)) (t0 : list call) (cfg : app) :
  parse_opts w opts = (t0, Return cfg) ->
  has_flag "d" opts = true -> 0 < daemon_fork w ->
  main w opts events
  = (t0 ++ [fork; signal_handler SIGUSR1; pause], Paused).
Proof.
  intros Hparse Hd Hfork.
  pose proof (parse_opts_flags _ _ _ _ Hparse) as Hflags.
  apply flags_daemon_mode in Hflags. rewrite Hd in Hflags.
  assert (daemonize w cfg = ([fork; signal_handler SIGUSR1; pause], Paused))
    as Hparent.
  { unfold daemonize, pm_assert.
    destruct (Z.leb_spec 0 (daemon_fork w)); [|lia].
    by destruct (Z.ltb_spec 0 (daemon_fork w)); [|lia]. }
  unfold main, startup. rewrite Hparse, bind_Return_l. cbv beta.
  by rewrite Hflags, Hparent.
Qed.

Lemma daemon_parent_waits_witness :
  main parent_world launcher_opts xclock_events
  = (launcher_cfg_trace ++ [fork; signal_handler SIGUSR1; pause], Paused).
Proof.
  apply (daemon_parent_waits parent_world launcher_opts xclock_events
           launcher_cfg_trace launcher_cfg); reflexivity.
Defined.

(** X16: when the display cannot be opened, a program that is not a
    daemon installs its SIGTERM handler, tries to connect, writes an error
    message and exits with status 1; it creates no window and starts no
    dockapp. *)
Theorem no_display_exits (w : world) (opts : list getopt_result)
    (events : list (XEvent * replies)) (t0 : list call) (cfg : app) :
  parse_opts w opts = (t0, Return cfg) ->
  has_flag "d" opts = false -> opened_display w = 0 ->
  main w opts events
  = (t0 ++ [signal_handler SIGTERM; XOpenDisplay]
        ++ pm_error "Cannot open display" [], Exit 1).
Proof.
  intros Hparse Hd Hdisplay.
  pose proof (parse_opts_flags _ _ _ _ Hparse) as Hflags.
  apply flags_daemon_mode in Hflags. rewrite Hd in Hflags.
  assert (forall a, setup_display w a
                    = ([XOpenDisplay] ++ pm_error "Cannot open display" [],
                       Exit 1)) as Hsetup.
  { intros a. unfold setup_display, pm_assert. by rewrite Hdisplay. }
  unfold main, startup. rewrite Hparse, bind_Return_l. cbv beta.
  rewrite Hflags. unfold bind at 3. cbn [ret]. cbv iota beta.
  unfold bind at 3, emit. cbv iota beta. by rewrite Hsetup.
Qed.

Lemma no_display_exits_witness :
  main headless_world plain_opts xclock_events
  = (plain_cfg_trace ++ [signal_handler SIGTERM; XOpenDisplay]
        ++ pm_error "Cannot open display" [], Exit 1).
Proof.
  apply (no_display_exits headless_world plain_opts xclock_events
           plain_cfg_trace plain_cfg); reflexivity.
Defined.

(** X17: [daemonize] returns in one case only: in the child of the
    [fork], after [setsid] and the opening of /dev/null succeeded, and then
    /dev/null was duplicated onto descriptor 0.  In the parent it stays in
    [pause], and when [fork], [setsid] or [open] fails the process exits with
    status 1. *)
Theorem daemonize_outcome (w : world) (a : app) :
  snd (daemonize w a)
  = (if 0 <? daemon_fork w then Paused
     else if bool_decide (daemon_fork w = 0 /\ 0 <= setsid_result w
                          /\ 0 <= open_result w)
     then Return tt else Exit 1)
  /\ (snd (daemonize w a) = Return tt ->
      exists t1 t2,
        fst (daemonize w a)
        = t1 ++ [close 0; open_dev_null; dup2 (open_result w) 0] ++ t2).
Proof.
  unfold daemonize, pm_assert.
  destruct (Z.leb_spec 0 (daemon_fork w)) as [Hfork|Hfork].
  2:{ rewrite (proj2 (Z.ltb_ge _ _)) by lia.
      rewrite bool_decide_eq_false_2 by lia. by split. }
  destruct (Z.ltb_spec 0 (daemon_fork w)) as [Hparent|Hchild]; [by split|].
  destruct (Z.leb_spec 0 (setsid_result w)) as [Hsid|Hsid].
  2:{ rewrite bool_decide_eq_false_2 by lia. by split. }
  destruct (Z.leb_spec 0 (open_result w)) as [Hopen|Hopen].
  2:{ rewrite bool_decide_eq_false_2 by lia. by split. }
  rewrite bool_decide_eq_true_2 by lia.
  split; [by destruct (2 <? open_result w)|]. intros _.
  exists [fork; setsid].
  destruct (2 <? open_result w); eexists; reflexivity.
Qed.

(** ** From the configuration to the event loop, and to the end *)

Lemma start_dockapps_from_pids w a i ts t ts' :
  start_dockapps_from w a i ts = (t, Return ts') ->
  length ts' = length ts
  /\ forall j tl, ts !! j = Some tl ->
       ts' !! j = Some (if bool_decide (type tl = TILE_TYPE_APP)
                        then set_pid (dockapp_fork w (i + j)) tl else tl)
       /\ (type tl = TILE_TYPE_APP -> 0 < dockapp_fork w (i + j)).
Proof.
  revert i t ts'. induction ts as [|tl ts IH]; intros i t ts'.
  { by intros [= _ <-]. }
  cbn [start_dockapps_from].
  intros (t1 & tl' & t2 & Htl & Hrest & _)%bind_Return.
  apply bind_Return in Hrest as (t3 & rest & ? & Hrest & [= _ <-] & _).
  destruct (IH _ _ _ Hrest) as [Hlen Hrest'].
  split; [cbn; by rewrite Hlen|].
  intros [|j] tj Hj.
  - injection Hj as ->. rewrite Nat.add_0_r. cbn [lookup list_lookup].
    case_bool_decide as Hty; [|by injection Htl as _ <-].
    apply bind_Return in Htl as (? & [] & ? & _ & Htl & _).
    apply bind_Return in Htl as (? & [] & ? & Hfork & Htl & _).
    apply bind_Return in Htl as (? & [] & ? & Hchild & Htl & _).
    apply bind_Return in Htl as (? & [] & ? & _ & Htl & _).
    injection Htl as _ <-. split; [done|]. intros _.
    unfold pm_assert in Hfork.
    destruct (Z.leb_spec 0 (dockapp_fork w i)); [|done].
    case_bool_decide; [by destruct (dockapp_execl_returns w i)|]. lia.
  - cbn in Hj. destruct (Hrest' j tj Hj) as [Hlookup Hpos].
    by rewrite Nat.add_succ_r.
Qed.

(** The state [startup] returns, from the configuration. *)
Lemma startup_shape w opts t a :
  startup w opts = (t, Return a) ->
  exists t0 cfg,
    parse_opts w opts = (t0, Return cfg)
    /\ opened_display w <> 0
    /\ a = set_tiles (tiles a)
             (set_dock_window (created_dock w)
                (set_root_window (default_root w)
                   (set_screen (default_screen w)
                      (set_display (opened_display w) cfg))))
    /\ length (tiles a) = length (tiles cfg)
    /\ forall j tl, tiles cfg !! j = Some tl ->
         tiles a !! j = Some (started_tile w j tl)
         /\ (type tl = TILE_TYPE_APP -> 0 < dockapp_fork w j).
Proof.
  unfold startup.
  intros (t0 & cfg & ? & Hparse & Hrest & _)%bind_Return.
  apply bind_Return in Hrest as (? & [] & ? & _ & Hrest & _).
  apply bind_Return in Hrest as (? & [] & ? & _ & Hrest & _).
  apply bind_Return in Hrest as (? & a1 & ? & Hdisplay & Hrest & _).
  apply bind_Return in Hrest as (? & a2 & ? & Hdock & Hrest & _).
  apply bind_Return in Hrest as (? & [] & ? & _ & Hrest & _).
  apply bind_Return in Hrest as (? & [] & ? & _ & Hrest & _).
  unfold start_dockapps in Hrest.
  apply bind_Return in Hrest as (? & ts & ? & Hstart & [= _ <-] & _).
  exists t0, cfg. split; [done|].
  unfold setup_display, pm_assert in Hdisplay.
  case_bool_decide as Hopen; [done|]. injection Hdisplay as _ <-.
  unfold create_dock_window, set_wm_class_hint, pm_assert in Hdock.
  destruct (class_hint_ok w) in Hdock; [|done]. injection Hdock as _ <-.
  split; [done|]. split; [done|].
  apply start_dockapps_from_pids in Hstart as [Hlen Hpids].
  cbn [create_launchers fst tiles set_tiles set_dock_window set_root_window
       set_screen set_display] in *.
  rewrite length_imap in Hlen. split; [done|].
  intros j tl Hj.
  destruct (Hpids j (if bool_decide (type tl = TILE_TYPE_LAUNCHER)
                     then set_window (created_launcher w j) tl else tl))
    as [Hlookup Hpos].
  { by rewrite list_lookup_imap, Hj. }
  rewrite Hlookup. unfold started_tile.
  destruct (type tl) eqn:Hty.
  - rewrite (bool_decide_eq_false_2 (_ = TILE_TYPE_LAUNCHER)) in * by done.
    rewrite bool_decide_eq_true_2 in * by done. split; [done|].
    intros _. by apply Hpos.
  - rewrite (bool_decide_eq_true_2 (TILE_TYPE_LAUNCHER = _)) in * by done.
    cbn [type set_window].
    rewrite Hty, bool_decide_eq_false_2 by done. done.
Qed.

(** X18: the state in which the event loop starts is the configuration
    with the connection, the screen, the root window and the panel window
    filled in from the server's answers, and with every tile completed: a
    dockapp tile holds the pid of its child, which is positive, and a
    launcher tile the window created for it.  Nothing else differs. *)
Theorem startup_state (w : world) (opts : list getopt_result)
    (t : list call) (a : app) (t0 : list call) (cfg : app) :
  startup w opts = (t, Return a) -> parse_opts w opts = (t0, Return cfg) ->
  a = set_tiles (imap (started_tile w) (tiles cfg))
        (set_dock_window (created_dock w)
           (set_root_window (default_root w)
              (set_screen (default_screen w)
                 (set_display (opened_display w) cfg))))
  /\ opened_display w <> 0
  /\ forall j tl, tiles cfg !! j = Some tl -> type tl = TILE_TYPE_APP ->
       0 < dockapp_fork w j.
Proof.
  intros (t0' & cfg' & Hparse' & Hopen & Ha & Hlen & Htiles)%startup_shape
    Hparse.
  rewrite Hparse in Hparse'. injection Hparse' as _ <-.
  split; [|split; [done|]].
  - rewrite Ha at 1. f_equal. apply list_eq. intros j.
    rewrite list_lookup_imap.
    destruct (tiles cfg !! j) as [tl|] eqn:Hj.
    + by destruct (Htiles j tl Hj) as [-> _].
    + apply lookup_ge_None. apply lookup_ge_None in Hj. lia.
  - intros j tl Hj. by apply Htiles.
Qed.

Lemma startup_state_witness :
  plain_start
  = set_tiles (imap (started_tile good_world) (tiles plain_cfg))
      (set_dock_window 20
         (set_root_window 10 (set_screen 0 (set_display 1 plain_cfg))))
  /\ opened_display good_world <> 0
  /\ forall j tl, tiles plain_cfg !! j = Some tl -> type tl = TILE_TYPE_APP ->
       0 < dockapp_fork good_world j.
Proof.
  apply (startup_state good_world plain_opts plain_start_trace plain_start
           plain_cfg_trace plain_cfg); reflexivity.
Defined.

Lemma filter_all {A} (P : A -> Prop) `{!forall x, Decision (P x)} (l : list A) :
  Forall P l -> filter P l = l.
Proof.
  induction 1 as [|x l Hx _ IH]; [done|].
  by rewrite filter_cons_True, IH.
Qed.

(** The pids of the tiles once the event loop runs: a dockapp has the
    positive pid of its child, a launcher has none. *)
Lemma main_pids w opts events t a j tl :
  main w opts events = (t, Return a) -> tiles a !! j = Some tl ->
  match type tl with
  | TILE_TYPE_APP => pid tl = dockapp_fork w j /\ 0 < pid tl
  | TILE_TYPE_LAUNCHER => pid tl = 0
  end.
Proof.
  unfold main.
  intros (t1 & a0 & t2 & Hstart & Hloop & _)%bind_Return Hj.
  apply startup_shape in Hstart
    as (t0 & cfg & Hparse & _ & _ & Hlen & Htiles).
  apply parse_opts_tiles in Hparse as [_ Hcfg].
  apply event_loop_same_but_window in Hloop.
  destruct (Forall2_lookup_r _ _ _ _ _ Hloop Hj) as (tl0 & Hj0 & ->).
  destruct (lookup_lt_is_Some_2 (tiles cfg) j) as [tc Hjc].
  { rewrite <- Hlen. by eapply lookup_lt_Some. }
  destruct (Htiles j tc Hjc) as [Hstarted Hpos].
  rewrite Hj0 in Hstarted. injection Hstarted as ->.
  destruct (Forall_lookup_1 _ _ _ _ Hcfg Hjc) as (_ & Hpid & _).
  unfold started_tile. cbn [type set_window].
  destruct (type tc) eqn:Hty; cbn; rewrite ?Hty; cbn; [|done].
  split; [done|]. by apply Hpos.
Qed.

(** X19: whenever the program is told to end, after its startup and any
    events, it sends SIGTERM to the child of every dockapp tile, in the
    order of the tiles, and to nothing else: not to a launcher's tile, whose
    pid is 0, and so never to its own process group.  The SIGTERM handler
    then exits with status 0 and the handler of a lost connection with
    status 1. *)
Theorem shutdown_signals_dockapps (w : world) (opts : list getopt_result)
    (events : list (XEvent * replies)) (t : list call) (a : app) :
  main w opts events = (t, Return a) ->
  filter (fun c => is_kill c = true) (fst (handle_sigterm a))
  = dockapp_kills w a
  /\ snd (handle_sigterm a) = Exit 0
  /\ filter (fun c => is_kill c = true) (fst (handle_io_error_event a))
     = dockapp_kills w a
  /\ snd (handle_io_error_event a) = Exit 1.
Proof.
  intros Hmain.
  assert (filter (fun c => is_kill c = true) (terminate_dockapps a)
          = dockapp_kills w a) as Hkills.
  { unfold terminate_dockapps, dockapp_kills.
    rewrite filter_app, (filter_passive _ (pm_debug a _ _));
      [|by intros []|apply pm_debug_passive].
    rewrite <- imap_const.
    rewrite (imap_ext _ (fun j tl =>
               if bool_decide (type tl = TILE_TYPE_APP)
               then [kill (Child (dockapp_fork w j)) SIGTERM] else [])).
    - apply filter_all, Forall_concat_imap. intros j tl.
      case_bool_decide; by repeat constructor.
    - intros j tl Hj. cbn.
      pose proof (main_pids _ _ _ _ _ _ _ Hmain Hj) as Hpid.
      destruct (type tl).
      + destruct Hpid as [Hfork Hpos].
        rewrite (proj2 (Z.ltb_lt _ _)) by done. by rewrite Hfork.
      + by rewrite Hpid. }
  unfold handle_sigterm, handle_io_error_event, bind, emit, exit.
  cbn [fst snd].
  rewrite !filter_app, !Hkills, !filter_nil, !(right_id_L [] (++)).
  rewrite (filter_passive _ (pm_debug a _ _));
    [|by intros []|apply pm_debug_passive].
  done.
Qed.

Lemma shutdown_signals_dockapps_witness :
  filter (fun c => is_kill c = true) (fst (handle_sigterm xclock_run_state))
  = dockapp_kills good_world xclock_run_state
  /\ snd (handle_sigterm xclock_run_state) = Exit 0
  /\ filter (fun c => is_kill c = true)
       (fst (handle_io_error_event xclock_run_state))
     = dockapp_kills good_world xclock_run_state
  /\ snd (handle_io_error_event xclock_run_state) = Exit 1.
Proof.
  apply (shutdown_signals_dockapps good_world xclock_opts xclock_events
           xclock_run_trace xclock_run_state).
  reflexivity.
Defined.

(** ** Errors of the protocol *)

(** X20: the handler of protocol errors never ends the process and never
    touches the server: for every error it returns 0, and all it may do is
    fetch the text of the error and write a message.  It writes one exactly
    when debug messages are on and the failed request is not GetProperty. *)
Theorem handle_error_event_harmless (a : app) (error_text : string)
    (error : Xlib.XErrorEvent) :
  snd (handle_error_event a error_text error) = Return 0
  /\ passive (fst (handle_error_event a error_text error))
  /\ logs (fst (handle_error_event a error_text error))
     = negb (bool_decide (Xlib.request_code error = Xlib.X_GetProperty))
       && verbose a.
Proof.
  split; [apply handle_error_event_returns|].
  split; [|apply handle_error_event_by_request].
  unfold handle_error_event. case_bool_decide; [constructor|].
  unfold bind, emit, ret. cbn [fst]. solve_passive.
Qed.

(** ** The windows of the launchers *)

(** X21: [create_launchers] creates one window per launcher tile and no
    other: as many windows as there are launcher tiles, each a child of the
    panel that covers the square of its tile (while the panel's length fits
    an [int]), and each recorded as the window of its tile.  A dockapp tile
    is left as it is. *)
Theorem create_launchers_windows (w : world) (a : app) :
  0 < tile_size a ->
  Z.of_nat (tile_count a) * tile_size a <= C.INT_MAX ->
  length (filter (fun c => is_create c = true) (snd (create_launchers w a)))
  = length (filter (fun t => type t = TILE_TYPE_LAUNCHER) (tiles a))
  /\ forall i t, tiles a !! i = Some t ->
       match type t with
       | TILE_TYPE_LAUNCHER =>
           XCreateSimpleWindow (dock_window a)
             (x (ideal_tile_position a (Z.of_nat i)))
             (y (ideal_tile_position a (Z.of_nat i)))
             (tile_size a) (tile_size a)
           ∈ snd (create_launchers w a)
           /\ tiles (fst (create_launchers w a)) !! i
              = Some (set_window (created_launcher w i) t)
       | TILE_TYPE_APP => tiles (fst (create_launchers w a)) !! i = Some t
       end.
Proof.
  intros HS Hmax. cbn [create_launchers fst snd tiles set_tiles]. split.
  - apply (length_filter_concat_imap _
             (fun t => type t = TILE_TYPE_LAUNCHER)).
    intros i t Hi. destruct (decide (type t = TILE_TYPE_LAUNCHER)) as [Hty|Hty].
    + rewrite bool_decide_eq_true_2 by done.
      rewrite filter_app, (filter_passive _ (pm_debug a _ _));
        [done | by intros [] | apply pm_debug_passive].
    + by rewrite bool_decide_eq_false_2 by done.
  - intros i t Hi. rewrite list_lookup_imap, Hi.
    destruct (type t) eqn:Hty.
    { cbn. by rewrite Hty, bool_decide_eq_false_2 by done. }
    split; [|cbn; by rewrite Hty, bool_decide_eq_true_2 by done].
    eapply elem_of_concat_imap; [exact Hi|].
    rewrite Hty, bool_decide_eq_true_2 by done.
    rewrite get_tile_position_in_range.
    + apply elem_of_app. left. apply elem_of_cons. by left.
    + apply lookup_lt_Some in Hi. unfold tile_count in Hmax. nia.
Qed.

Lemma create_launchers_windows_witness :
  length (filter (fun c => is_create c = true)
            (snd (create_launchers good_world plain_cfg)))
  = 1%nat.
Proof.
  apply (create_launchers_windows good_world plain_cfg);
    vm_compute; [reflexivity | discriminate].
Defined.

(** ** Messages *)

Lemma logs_app t1 t2 : logs (t1 ++ t2) = logs t1 || logs t2.
Proof. apply existsb_app. Qed.

Lemma pm_debug_silent a fmt args : verbose a = false -> pm_debug a fmt args = [].
Proof. unfold pm_debug. by intros ->. Qed.

Lemma get_icon_window_loop_silent r a w i left :
  verbose a = false -> logs (snd (get_icon_window_loop r a w i left)) = false.
Proof.
  intros Hverbose. revert i. induction left as [|left IH]; intros i; [done|].
  cbn [get_icon_window_loop]. specialize (IH (S i)).
  unfold get_icon_window.
  destruct (wm_hints r i w) as [hints|];
    repeat case_bool_decide;
    destruct (get_icon_window_loop r a w (S i) left) as [ret' t'];
    cbn [snd] in *; rewrite ?logs_app, ?pm_debug_silent, ?IH by done; done.
Qed.

(** X22: without [-v] a swallow writes to stderr in two cases only: when a
    window manager is running, and when the window has no icon window.  A
    swallow that goes well on a bare server is silent. *)
Theorem swallow_dockapp_messages (r : replies) (main_window : Window)
    (index : nat) (a : app) :
  verbose a = false ->
  logs (snd (swallow_dockapp r main_window index a))
  = fst (check_window_manager r a)
    || bool_decide (fst (get_icon_window_waiting r a main_window) = XNone).
Proof.
  intros Hverbose. unfold swallow_dockapp.
  assert (logs (snd (check_window_manager r a)) = false) as Hwm.
  { unfold check_window_manager. by destruct (_ && _). }
  destruct (check_window_manager r a) as [wm_running t_wm].
  pose proof (get_icon_window_loop_silent r a main_window 0 2 Hverbose)
    as Hicon.
  fold (get_icon_window_waiting r a main_window) in Hicon.
  destruct (get_icon_window_waiting r a main_window) as [icon_window t_icon].
  cbn [fst snd] in *.
  case_bool_decide as Hnone.
  - cbn [snd]. rewrite !logs_app, pm_debug_silent, Hwm, Hicon by done.
    destruct wm_running; cbn; done.
  - set (a' := set_tiles _ a).
    assert (verbose a' = false) as Hverbose' by done.
    unfold get_window_size.
    destruct (geometry r icon_window); cbn [snd];
      rewrite !logs_app, !pm_debug_silent, Hwm, Hicon by done;
      destruct wm_running, (check_all_dockapps_swallowed a'),
        (daemon_mode a'); done.
Qed.

Lemma swallow_dockapp_messages_witness :
  logs (snd (swallow_dockapp (xclock_replies "xclock" false 1 48) 100 0
               xclock_app))
  = false.
Proof.
  apply (swallow_dockapp_messages (xclock_replies "xclock" false 1 48) 100 0
           xclock_app).
  reflexivity.
Defined.

(** ** The properties of the panel window *)

(** One step in showing that a process makes no call of a kind, given that
    passive calls are not of that kind. *)
Ltac kind_free Hpassive :=
  match goal with
  | |- calls_only _ (bind _ _) => apply calls_only_bind; [|intros ?]
  | |- calls_only _ (pm_assert _ _ _) => apply calls_only_pm_assert
  | |- calls_only _ (emit _) => apply calls_only_emit
  | |- calls_only _ (ret _) => apply calls_only_ret
  | |- calls_only _ (exit _) => apply calls_only_exit
  | |- calls_only _ (if ?b then _ else _) => destruct b
  | |- calls_only _ (_, _) => unfold calls_only; cbn [fst]
  | |- Forall _ (pm_debug _ _ _) => apply Hpassive, pm_debug_passive
  | |- Forall _ (_ ++ _) => apply Forall_app; split
  | |- Forall _ (if ?b then _ else _) => destruct b
  | |- Forall _ _ => by repeat constructor
  end.

Lemma passive_no_property t : passive t -> free_of is_property_change t.
Proof. apply passive_free_of. by intros []. Qed.

Lemma daemonize_no_property w a :
  calls_only (fun c => is_property_change c = false) (daemonize w a).
Proof. unfold daemonize. repeat kind_free passive_no_property. Qed.

Lemma start_dockapps_from_no_property w a i ts :
  calls_only (fun c => is_property_change c = false)
    (start_dockapps_from w a i ts).
Proof.
  revert i. induction ts as [|t ts IH]; intros i; [constructor|].
  cbn [start_dockapps_from].
  apply calls_only_bind; [|intros t'; apply calls_only_bind;
                            [apply IH | intros; constructor]].
  case_bool_decide; [|constructor].
  repeat kind_free passive_no_property.
Qed.

Lemma create_launchers_no_property w a :
  free_of is_property_change (snd (create_launchers w a)).
Proof.
  cbn [create_launchers snd]. apply Forall_concat_imap. intros i t.
  case_bool_decide; [|constructor].
  apply Forall_app. split; [by repeat constructor|].
  apply passive_no_property, pm_debug_passive.
Qed.

Lemma create_dock_window_hints w a t a' :
  create_dock_window w a = (t, Return a') ->
  filter (fun c => is_property_change c = true) t
  = panel_properties (created_dock w) a.
Proof.
  unfold create_dock_window, set_wm_class_hint, pm_assert, panel_properties,
    set_wm_above_hint, set_wm_desktop_hint, set_mwm_hints, pm_debug,
    pm_fprintf.
  destruct (class_hint_ok w); [|done].
  destruct a as [above desktops ? ? ? ? ? ? ? ? ? ? ? ? ? debug].
  destruct above, desktops, debug; intros [= <- _]; reflexivity.
Qed.

(** X23: in a startup that reaches the event loop the panel window is
    given, in this order, the name PMDock, the Motif hints with the flags 3
    and the functions and decorations of the configuration, the class
    pmdock/PMDock, then the state _NET_WM_STATE_ABOVE exactly when the
    command line has [-A], then the desktop -1 exactly when it has [-a]; the
    startup makes no other call that stores a name, sets a class hint or
    changes a property, on any window. *)
Theorem startup_panel_properties (w : world) (opts : list getopt_result)
    (t : list call) (a : app) :
  startup w opts = (t, Return a) ->
  filter (fun c => is_property_change c = true) t
  = panel_properties (created_dock w) a
  /\ above_all a = has_flag "A" opts
  /\ all_desktops a = has_flag "a" opts.
Proof.
  intros Hstart.
  pose proof (startup_shape _ _ _ _ Hstart)
    as (t0' & cfg' & Hparse' & _ & Ha & _).
  revert Hstart. unfold startup.
  intros (t0 & cfg & ? & Hparse & Hrest & ->)%bind_Return.
  rewrite Hparse in Hparse'. injection Hparse' as _ <-.
  apply bind_Return in Hrest as (t1 & [] & ? & Hdaemon & Hrest & ->).
  apply bind_Return in Hrest as (? & [] & ? & [= <-] & Hrest & ->).
  apply bind_Return in Hrest as (t2 & a1 & ? & Hdisplay & Hrest & ->).
  apply bind_Return in Hrest as (t3 & a2 & ? & Hdock & Hrest & ->).
  apply bind_Return in Hrest as (tl & [] & ? & Hlaunchers & Hrest & ->).
  assert (tl = snd (create_launchers w a2)) as ->
    by (by injection Hlaunchers).
  apply bind_Return in Hrest as (? & [] & ? & [= <-] & Hrest & ->).
  unfold start_dockapps in Hrest.
  apply bind_Return in Hrest as (t4 & ts & ? & Hstart & [= <- _] & ->).
  pose proof (parse_opts_flags _ _ _ _ Hparse) as Hflags.
  assert (above_all a = above_all cfg /\ all_desktops a = all_desktops cfg
          /\ mwm_funcs a = mwm_funcs cfg /\ mwm_decor a = mwm_decor cfg)
    as (Habove & Hall & Hfuncs & Hdecor) by (by rewrite Ha).
  split.
  2:{ rewrite Habove, Hall. unfold flags, flags_asked in Hflags.
      by injection Hflags as -> -> _ _ _. }
  rewrite !filter_app.
  rewrite (filter_free_of _ t0).
  2:{ pose proof (parse_opts_config w opts) as Hcfg.
      unfold config_calls, calls_only in Hcfg. rewrite Hparse in Hcfg.
      eapply Forall_impl; [exact Hcfg|]. by intros []. }
  rewrite (filter_free_of _ t1).
  2:{ destruct (daemon_mode cfg);
        [|unfold ret in Hdaemon; injection Hdaemon as <-; constructor].
      pose proof (daemonize_no_property w cfg) as Hfree.
      by rewrite Hdaemon in Hfree. }
  rewrite (filter_free_of _ t2).
  2:{ unfold setup_display, pm_assert in Hdisplay.
      destruct (negb _); [|done]. injection Hdisplay as <- _.
      by repeat constructor. }
  rewrite (create_dock_window_hints _ _ _ _ Hdock).
  rewrite (filter_free_of _ (snd _)) by apply create_launchers_no_property.
  rewrite (filter_free_of _ t4).
  2:{ pose proof (start_dockapps_from_no_property w
                    (fst (create_launchers w a2)) 0
                    (tiles (fst (create_launchers w a2)))) as Hfree.
      by rewrite Hstart in Hfree. }
  change (filter _ [signal_handler SIGTERM]) with (@nil call).
  change (filter _ [XFlush]) with (@nil call).
  rewrite filter_nil, !(right_id_L [] (++)), !(left_id_L [] (++)).
  unfold setup_display, pm_assert in Hdisplay.
  destruct (negb _); [|done]. injection Hdisplay as _ <-.
  unfold panel_properties. cbn [above_all all_desktops mwm_funcs mwm_decor
    set_root_window set_screen set_display].
  by rewrite Habove, Hall, Hfuncs, Hdecor.
Qed.

Lemma startup_panel_properties_witness :
  filter (fun c => is_property_change c = true) plain_start_trace
  = panel_properties 20 plain_start
  /\ above_all plain_start = has_flag "A" plain_opts
  /\ all_desktops plain_start = has_flag "a" plain_opts.
Proof.
  apply (startup_panel_properties good_world plain_opts plain_start_trace
           plain_start).
  reflexivity.
Defined.

(** ** A dockapp finds its tile *)

(** X24: a dockapp that was configured is swallowed.  After a startup,
    when a window is created whose resource name is that of a tile, no tile
    before it having that name, and the window shows an icon window within
    the two queries, then the handler records the icon window in that tile
    and changes nothing else of the state, and it reparents the icon window
    into the panel and maps it. *)
Theorem configured_dockapp_is_swallowed (w : world)
    (opts : list getopt_result) (t : list call) (a : app) (r : replies)
    (main_window : Window) (hint : Xlib.XClassHint) (i : nat) (tl : tile) :
  let icon_window := fst (get_icon_window_waiting r a main_window) in
  startup w opts = (t, Return a) ->
  class_hint r main_window = Some hint ->
  tiles a !! i = Some tl -> res_name tl = Some (Xlib.res_name hint) ->
  (forall j tj, (j < i)%nat -> tiles a !! j = Some tj ->
     res_name tj <> Some (Xlib.res_name hint)) ->
  icon_window <> XNone ->
  exists tr icon_x icon_y,
    dispatch (CreateNotify main_window, r) a
    = (tr, Return (set_tiles (alter (set_window icon_window) i (tiles a)) a))
    /\ XReparentWindow icon_window (created_dock w) icon_x icon_y ∈ tr
    /\ XMapRaised icon_window ∈ tr.
Proof.
  intros icon_window Hstart Hhint Hi Hname Hfirst Hicon.
  pose proof (startup_shape _ _ _ _ Hstart) as (_ & cfg & _ & _ & Ha & _).
  assert (dock_window a = created_dock w) as Hdock by (by rewrite Ha).
  apply startup_ready in Hstart as [Hready _].
  assert (list_find (tile_accepts (Xlib.res_name hint)) (tiles a)
          = Some (i, tl)) as Hfind.
  { apply list_find_Some. split; [done|]. split.
    - apply Is_true_true, tile_accepts_spec. split; [|done].
      destruct (Forall_lookup_1 _ _ _ _ Hready Hi) as [Hkind Hwindow].
      apply Hwindow, Hkind. by rewrite Hname.
    - intros j tj Hj Hlt [_ Hacc]%Is_true_true%tile_accepts_spec.
      by apply (Hfirst j tj Hlt Hj). }
  cbn [dispatch]. unfold handle_create_event. rewrite Hhint, Hfind.
  pose proof (swallow_dockapp_state r main_window i a) as Hstate.
  cbv zeta in Hstate. fold icon_window in Hstate.
  rewrite bool_decide_eq_false_2 in Hstate by done.
  assert (exists icon_x icon_y,
            XReparentWindow icon_window (created_dock w) icon_x icon_y
            ∈ snd (swallow_dockapp r main_window i a)
            /\ XMapRaised icon_window
               ∈ snd (swallow_dockapp r main_window i a))
    as (icon_x & icon_y & Hreparent & Hmap).
  { subst icon_window. unfold swallow_dockapp.
    destruct (check_window_manager r a) as [wm_running t_wm].
    destruct (get_icon_window_waiting r a main_window)
      as [icon_window t_icon].
    cbn [fst] in Hicon. rewrite bool_decide_eq_false_2 by done.
    destruct (get_window_size r _ icon_window) as [size t_size].
    cbn [fst snd dock_window set_tiles]. rewrite Hdock.
    eexists _, _. split.
    - do 7 (apply elem_of_app; right). apply elem_of_app. left.
      apply list_elem_of_further, list_elem_of_here.
    - do 7 (apply elem_of_app; right). apply elem_of_app. left.
      do 3 apply list_elem_of_further. apply list_elem_of_here. }
  destruct (swallow_dockapp r main_window i a) as [a' t_swallow].
  cbn [fst snd] in *. subst a'.
  eexists _, icon_x, icon_y. split; [reflexivity|].
  rewrite !elem_of_app. split; right; left; done.
Qed.

Lemma configured_dockapp_is_swallowed_witness :
  exists tr icon_x icon_y,
    dispatch (CreateNotify 100, xclock_replies "xclock" false 1 48)
      xclock_start
    = (tr, Return (set_tiles (alter (set_window 101) 0%nat (tiles xclock_start))
                     xclock_start))
    /\ XReparentWindow 101 20 icon_x icon_y ∈ tr
    /\ XMapRaised 101 ∈ tr.
Proof.
  apply (configured_dockapp_is_swallowed good_world xclock_opts
           xclock_start_trace xclock_start
           (xclock_replies "xclock" false 1 48) 100
           (Xlib.mk_XClassHint "xclock" "XClock") 0
           (set_pid 4242 xclock_tile)); try reflexivity.
  - intros j tj Hlt. lia.
  - discriminate.
Defined.

(** ** The icon window of a dockapp *)

Lemma IconWindowHint_bit flags :
  bool_decide (Z.land flags Xlib.IconWindowHint = 0) = negb (Z.testbit flags 3).
Proof.
  change Xlib.IconWindowHint with (2 ^ 3).
  destruct (Z.testbit flags 3) eqn:Hbit; cbn [negb].
  - apply bool_decide_eq_false_2. intros Hland.
    assert (Z.testbit (Z.land flags (2 ^ 3)) 3 = false) as Hzero
      by (by rewrite Hland, Z.bits_0).
    rewrite Z.land_spec, Hbit, Z.pow2_bits_true in Hzero; done.
  - apply bool_decide_eq_true_2, Z.bits_inj'. intros n Hn.
    rewrite Z.land_spec, Z.bits_0, Z.pow2_bits_eqb by done.
    destruct (Z.eqb_spec 3 n) as [<-|]; [by rewrite Hbit|].
    apply andb_false_r.
Qed.

(** X25: the discovery of the icon window returns the window that the
    first query names, and if that query names none, the window that the
    second query names; a query names the icon window of the hints when the
    hints exist and have the IconWindowHint flag, bit 3 of the flags, set.
    Whatever the other flags and however often the window could be asked,
    no third query decides. *)
Theorem get_icon_window_waiting_result (r : replies) (a : app) (w : Window) :
  fst (get_icon_window_waiting r a w)
  = if bool_decide (hinted_icon_window r 0 w = XNone)
    then hinted_icon_window r 1 w
    else hinted_icon_window r 0 w.
Proof.
  assert (forall i, fst (get_icon_window r i w) = hinted_icon_window r i w)
    as Hquery.
  { intros i. unfold get_icon_window, hinted_icon_window.
    destruct (wm_hints r i w) as [hints|]; [|done].
    cbn [fst]. rewrite IconWindowHint_bit.
    by destruct (Z.testbit (Xlib.flags hints) 3). }
  unfold get_icon_window_waiting. cbn [get_icon_window_loop].
  rewrite <- !Hquery.
  destruct (get_icon_window r 0 w) as [w0 t0].
  destruct (get_icon_window r 1 w) as [w1 t1].
  cbn [fst]. by repeat case_bool_decide.
Qed.

(** ** The values of the command line *)

Lemma last_arg_from c opts found :
  fold_left (fun found o => if Ascii.eqb (opt o) c then Some (optarg o)
                            else found) opts found
  = match last_arg c opts with
    | Some v => Some v
    | None => found
    end.
Proof.
  unfold last_arg. revert found. induction opts as [|o opts IH]; intros found;
    [done|].
  cbn [fold_left].
  rewrite IH, (IH (if Ascii.eqb (opt o) c then Some (optarg o) else None)).
  destruct (fold_left _ opts None); [done|]. by destruct (Ascii.eqb _ _).
Qed.

Lemma last_arg_cons {V} c (f : string -> V) v o opts :
  from_option f v (last_arg c (o :: opts))
  = from_option f (if Ascii.eqb (opt o) c then f (optarg o) else v)
      (last_arg c opts).
Proof.
  unfold last_arg at 1. cbn [fold_left]. rewrite last_arg_from.
  destruct (last_arg c opts); [done|]. by destruct (Ascii.eqb _ _).
Qed.

(** One turn of the second pass on an option other than [-t]: the values
    it sets. *)
Lemma parse_opt_values w s o s' t :
  opt o <> "t"%char -> parse_opt w s o = (t, Return s') ->
  initial_x (parsed s')
  = (if Ascii.eqb (opt o) "x" then C.to_int (atoi w (optarg o))
     else initial_x (parsed s))
  /\ initial_y (parsed s')
     = (if Ascii.eqb (opt o) "y" then C.to_int (atoi w (optarg o))
        else initial_y (parsed s))
  /\ tile_size (parsed s')
     = (if Ascii.eqb (opt o) "s"
        then C.to_unsigned (C.to_int (atoi w (optarg o)))
        else tile_size (parsed s))
  /\ mwm_funcs (parsed s')
     = (if Ascii.eqb (opt o) "f" then strtoul w (optarg o)
        else mwm_funcs (parsed s))
  /\ mwm_decor (parsed s')
     = (if Ascii.eqb (opt o) "D" then strtoul w (optarg o)
        else mwm_decor (parsed s))
  /\ bg_path s'
     = (if Ascii.eqb (opt o) "b" then optarg o else bg_path s).
Proof.
  unfold parse_opt. intros Ht.
  destruct (opt o) as [[] [] [] [] [] [] [] []]; try (by destruct Ht);
    try destruct (_ <=? 0); intros [= _ <-]; by repeat split.
Qed.

Lemma parse_tile_values w s kind s' t :
  parse_tile w s kind = (t, Return s') ->
  initial_x (parsed s') = initial_x (parsed s)
  /\ initial_y (parsed s') = initial_y (parsed s)
  /\ tile_size (parsed s') = tile_size (parsed s)
  /\ mwm_funcs (parsed s') = mwm_funcs (parsed s)
  /\ mwm_decor (parsed s') = mwm_decor (parsed s)
  /\ bg_path s' = bg_path s.
Proof.
  destruct (parse_tile_result w s kind) as [(? & ->) | (? & f & -> & _)];
    [done|].
  by intros [= _ <-].
Qed.

Lemma parse_loop_values w opts s t s' :
  parse_loop w opts s = (t, Return s') ->
  initial_x (parsed s')
  = from_option (fun v => C.to_int (atoi w v)) (initial_x (parsed s))
      (last_arg "x" opts)
  /\ initial_y (parsed s')
     = from_option (fun v => C.to_int (atoi w v)) (initial_y (parsed s))
         (last_arg "y" opts)
  /\ tile_size (parsed s')
     = from_option (fun v => C.to_unsigned (C.to_int (atoi w v)))
         (tile_size (parsed s)) (last_arg "s" opts)
  /\ mwm_funcs (parsed s')
     = from_option (strtoul w) (mwm_funcs (parsed s)) (last_arg "f" opts)
  /\ mwm_decor (parsed s')
     = from_option (strtoul w) (mwm_decor (parsed s)) (last_arg "D" opts)
  /\ bg_path s' = from_option id (bg_path s) (last_arg "b" opts).
Proof.
  revert s t. induction opts as [|o opts IH]; intros s t.
  { by intros [= _ <-]. }
  cbn [parse_loop].
  intros (t1 & s1 & t2 & Hopt & Hrest & _)%bind_Return.
  destruct (IH _ _ Hrest) as (-> & -> & -> & -> & -> & ->).
  rewrite !last_arg_cons.
  destruct (decide (opt o = "t"%char)) as [Ht|Ht].
  - rewrite (parse_opt_type _ _ _ Ht) in Hopt.
    destruct (parse_tile_values _ _ _ _ _ Hopt)
      as (-> & -> & -> & -> & -> & ->).
    by rewrite Ht.
  - by destruct (parse_opt_values _ _ _ _ _ Ht Hopt)
      as (-> & -> & -> & -> & -> & ->).
Qed.

(** X26: of options given more than once the last one counts, and an
    option not given leaves the default.  In a configuration that
    [parse_opts] returns, the position is that of the last [-x] and the last
    [-y] (0 and 0 without), the tile size that of the last [-s] (64
    without), the Motif functions and decorations those of the last [-f] and
    the last [-D] (0 without), and the background is the image loaded from
    the path of the last [-b] (tile-default.png without). *)
Theorem parse_opts_values (w : world) (opts : list getopt_result)
    (t : list call) (a : app) :
  parse_opts w opts = (t, Return a) ->
  initial_x a
  = from_option (fun v => C.to_int (atoi w v)) 0 (last_arg "x" opts)
  /\ initial_y a
     = from_option (fun v => C.to_int (atoi w v)) 0 (last_arg "y" opts)
  /\ tile_size a
     = from_option (fun v => C.to_unsigned (C.to_int (atoi w v))) 64
         (last_arg "s" opts)
  /\ mwm_funcs a = from_option (strtoul w) 0 (last_arg "f" opts)
  /\ mwm_decor a = from_option (strtoul w) 0 (last_arg "D" opts)
  /\ bg_image a
     = load_image w (from_option id DEFAULT_BG_PATH (last_arg "b" opts)).
Proof.
  intros (_ & t1 & s & Hloop & _ & ->)%parse_opts_Return.
  destruct (parse_loop_values _ _ _ _ _ Hloop)
    as (Hx & Hy & Hs & Hf & Hd & Hb).
  cbn [set_bg_image initial_x initial_y tile_size mwm_funcs mwm_decor
       bg_image].
  by rewrite Hx, Hy, Hs, Hf, Hd, Hb.
Qed.

Lemma parse_opts_values_witness :
  initial_x twice_cfg = 64 /\ tile_size twice_cfg = 64
  /\ bg_image twice_cfg = load_image good_world "b.png".
Proof.
  destruct (parse_opts_values good_world twice_opts twice_cfg_trace twice_cfg)
    as (Hx & _ & Hs & _ & _ & Hb); [reflexivity|].
  split; [exact Hx|]. split; [exact Hs | exact Hb].
Defined.
